(** * Date-range API discovery and replay: a shallow embedding

    The development follows [pygen/date_api_extractor.py]: the date-parameter
    recogniser, the confidence scorer, the replay builder, the response
    validator, the decoding of a reply, the passive traffic layer, the two
    layers that drive the page and the four-layer fallback chain of
    [DateAPIExtractor].  Python values that cross the JSON boundary are the
    inductive [pyval]; dictionaries are insertion-ordered association lists,
    as Python's [dict] is; floats are IEEE binary64 ([PrimFloat]), as Python's
    [float] is; exceptions are an explicit outcome. *)

From Stdlib Require Import Bool List ZArith Lia Ascii String.
From Stdlib Require Import Numbers.DecimalString.
From Stdlib Require Import Sorting.Sorted Sorting.Permutation.
From Stdlib Require Import Floats.PrimFloat Floats.SpecFloat Floats.FloatOps.
From Stdlib Require Import Floats.FloatAxioms.
Import ListNotations.

Set Warnings "-inexact-float,-register-all".

Open Scope string_scope.
Open Scope list_scope.

(** ** Python [str] methods used by the extractor

    Strings are texts of ASCII characters, and [lower], [upper] and [strip]
    are Python's on such texts.  On a text with other characters Python knows
    more letters and more white space than the functions here (a character
    outside ASCII is left as it is by [lower] and is never white space): a
    property that depends on the difference says that its texts are ASCII
    ([is_ascii]). *)
Module Str.

(** Every character of the text is an ASCII character. *)
Definition is_ascii (s : string) : bool :=
  forallb (fun c => (nat_of_ascii c <? 128)%nat) (list_ascii_of_string s).

Definition is_upper (c : ascii) : bool :=
  (65 <=? nat_of_ascii c)%nat && (nat_of_ascii c <=? 90)%nat.

Definition is_lower (c : ascii) : bool :=
  (97 <=? nat_of_ascii c)%nat && (nat_of_ascii c <=? 122)%nat.

Definition lower_char (c : ascii) : ascii :=
  if is_upper c then ascii_of_nat (nat_of_ascii c + 32) else c.

Definition upper_char (c : ascii) : ascii :=
  if is_lower c then ascii_of_nat (nat_of_ascii c - 32) else c.

(** [s.lower()] *)
Fixpoint lower (s : string) : string :=
  match s with
  | EmptyString => EmptyString
  | String c s' => String (lower_char c) (lower s')
  end.

(** [s.upper()] *)
Fixpoint upper (s : string) : string :=
  match s with
  | EmptyString => EmptyString
  | String c s' => String (upper_char c) (upper s')
  end.

(** [s.startswith(p)] *)
Definition startswith (p s : string) : bool := String.prefix p s.

(** [sub in s] *)
Fixpoint contains (sub s : string) : bool :=
  String.prefix sub s ||
  match s with
  | EmptyString => false
  | String _ s' => contains sub s'
  end.

(** [s.endswith(suf)] *)
Fixpoint endswith (suf s : string) : bool :=
  String.eqb suf s ||
  match s with
  | EmptyString => false
  | String _ s' => endswith suf s'
  end.

(** [any(tok in s for tok in toks)] *)
Definition any_in (toks : list string) (s : string) : bool :=
  existsb (fun tok => contains tok s) toks.

(** [s in names] for a list or set of strings *)
Definition mem (s : string) (names : list string) : bool :=
  existsb (String.eqb s) names.

Definition is_digit (c : ascii) : bool :=
  (48 <=? nat_of_ascii c)%nat && (nat_of_ascii c <=? 57)%nat.

(** White space of [str.strip()] and of the regular expression class [\s]. *)
Definition is_space (c : ascii) : bool :=
  let n := nat_of_ascii c in
  ((9 <=? n)%nat && (n <=? 13)%nat) || ((28 <=? n)%nat && (n <=? 32)%nat).

Fixpoint lstrip (s : string) : string :=
  match s with
  | EmptyString => EmptyString
  | String c s' => if is_space c then lstrip s' else s
  end.

Fixpoint rstrip (s : string) : string :=
  match s with
  | EmptyString => EmptyString
  | String c s' =>
      let r := rstrip s' in
      if String.eqb r EmptyString && is_space c then EmptyString else String c r
  end.

(** [s.strip()] *)
Definition strip (s : string) : string := rstrip (lstrip s).

(** [s[n:]] *)
Fixpoint drop (n : nat) (s : string) : string :=
  match n, s with
  | O, _ => s
  | S n', String _ s' => drop n' s'
  | S _, EmptyString => EmptyString
  end.

(** [str(n)] for an integer *)
Definition of_Z (n : Z) : string := NilEmpty.string_of_int (Z.to_int n).

End Str.

(** ** The regular expressions of the pattern tables

    Only the constructs the tables use: a literal character, [\d], [\s+],
    the optional separator [[_-]?] and the end anchor [$].  [re.match]
    anchors at the start of the subject, [re.search] tries every start.
    The classes [\d] and [\s] and the letters of [(?i)] are those of an
    ASCII subject: Python's [\d] and [\s] also match the digits and the
    white space outside ASCII, and under [(?i)] the letters [i], [s] and [k]
    of a pattern also match four characters outside ASCII. *)
Module Re.

Inductive atom : Type :=
| AChar (c : ascii)     (* a literal character *)
| ADigit                (* \d *)
| ASpaces               (* \s+ *)
| AOptSep               (* [_-]? *)
| AEnd.                 (* $ : the end, or just before a final newline *)

Definition lit (s : string) : list atom := map AChar (list_ascii_of_string s).
Definition digits (n : nat) : list atom := repeat ADigit n.

Definition char_eq (icase : bool) (pc c : ascii) : bool :=
  if icase then Ascii.eqb (Str.lower_char pc) (Str.lower_char c)
  else Ascii.eqb pc c.

Definition is_sep (c : ascii) : bool :=
  Ascii.eqb c "_" || Ascii.eqb c "-".

Definition newline : string := String (ascii_of_nat 10) EmptyString.

Definition at_end (s : string) : bool :=
  String.eqb s EmptyString || String.eqb s newline.

(** [here icase p s]: the pattern [p] matches a prefix of [s]. *)
Fixpoint here (icase : bool) (p : list atom) (s : string) {struct p} : bool :=
  match p with
  | [] => true
  | AChar pc :: p' =>
      match s with
      | String c s' => char_eq icase pc c && here icase p' s'
      | EmptyString => false
      end
  | ADigit :: p' =>
      match s with
      | String c s' => Str.is_digit c && here icase p' s'
      | EmptyString => false
      end
  | ASpaces :: p' =>
      (fix spaces (t : string) : bool :=
         match t with
         | String c t' => Str.is_space c && (spaces t' || here icase p' t')
         | EmptyString => false
         end) s
  | AOptSep :: p' =>
      match s with
      | String c s' => (is_sep c && here icase p' s') || here icase p' s
      | EmptyString => here icase p' s
      end
  | AEnd :: p' => at_end s && here icase p' s
  end.

(** [re.match(p, s)] is not None *)
Definition rmatch (icase : bool) (p : list atom) (s : string) : bool :=
  here icase p s.

(** [re.search(p, s)] is not None *)
Fixpoint search (icase : bool) (p : list atom) (s : string) : bool :=
  here icase p s ||
  match s with
  | EmptyString => false
  | String _ s' => search icase p s'
  end.

End Re.

(** ** Python values and dictionaries *)

(** A JSON-shaped Python value: what a query string, a JSON body, a page
    script or a decoded response can hold.  Numbers are integers. *)
Inductive pyval : Type :=
| VNone
| VBool (b : bool)
| VInt (n : Z)
| VStr (s : string)
| VList (items : list pyval)
| VDict (entries : list (string * pyval)).

(** A [dict] with string keys, in insertion order. *)
Definition dict (V : Type) : Type := list (string * V).

Section Dict.
Context {V : Type}.

(** [d.get(k)] *)
Fixpoint dict_get (k : string) (d : dict V) : option V :=
  match d with
  | [] => None
  | (k', v) :: d' => if String.eqb k' k then Some v else dict_get k d'
  end.

(** [d[k] = v]: an existing key keeps its place, a new one goes last. *)
Fixpoint dict_set (k : string) (v : V) (d : dict V) : dict V :=
  match d with
  | [] => [(k, v)]
  | (k', v') :: d' =>
      if String.eqb k' k then (k', v) :: d' else (k', v') :: dict_set k v d'
  end.

(** [k in d] *)
Definition dict_has (k : string) (d : dict V) : bool :=
  match dict_get k d with Some _ => true | None => false end.

(** [d.keys()] *)
Definition dict_keys (d : dict V) : list string := map fst d.

End Dict.

(** Truth value of a Python value ([if v], [v or ...]). *)
Definition truthy (v : pyval) : bool :=
  match v with
  | VNone => false
  | VBool b => b
  | VInt n => negb (n =? 0)%Z
  | VStr s => negb (String.eqb s EmptyString)
  | VList l => match l with [] => false | _ => true end
  | VDict d => match d with [] => false | _ => true end
  end.

(** [str(v)].  For an integer it is the decimal numeral.  The text of a
    container is abridged to its brackets: it starts with a bracket, and that
    is all the recogniser can see of it. *)
Definition py_str (v : pyval) : string :=
  match v with
  | VNone => "None"
  | VBool true => "True"
  | VBool false => "False"
  | VInt n => Str.of_Z n
  | VStr s => s
  | VList _ => "[]"
  | VDict _ => "{}"
  end.

(** ** The pattern tables of [DateAPIExtractor] *)

Definition sep2 (a b : string) : list Re.atom :=
  Re.lit a ++ [Re.AOptSep] ++ Re.lit b.

(** [DATE_PARAM_PATTERNS]; every entry carries the flag [(?i)]. *)
Definition DATE_PARAM_PATTERNS : list (list Re.atom) :=
  [ sep2 "start" "date"; sep2 "begin" "date"; sep2 "from" "date";
    sep2 "date" "from"; sep2 "start" "time"; sep2 "begin" "time";
    Re.lit "searchDate"; sep2 "SEARCH" "DATE"; Re.lit "START_DATE";
    Re.lit "BEGIN_DATE";
    sep2 "end" "date"; sep2 "to" "date"; sep2 "date" "to";
    sep2 "end" "time"; Re.lit "endDate"; sep2 "END" "DATE";
    Re.lit "END_DATE";
    Re.lit "date"; Re.lit "time"; Re.lit "day";
    sep2 "publish" "date"; sep2 "release" "date"; sep2 "create" "date" ].

(** [DATE_VALUE_PATTERNS]: a pattern and the name of its format.  The
    leading [^] is implied by [re.match]. *)
Definition DATE_VALUE_PATTERNS : list (list Re.atom * string) :=
  [ (Re.digits 4 ++ Re.lit "-" ++ Re.digits 2 ++ Re.lit "-" ++ Re.digits 2
       ++ [Re.AEnd], "YYYY-MM-DD");
    (Re.digits 8 ++ [Re.AEnd], "YYYYMMDD");
    (Re.digits 4 ++ Re.lit "/" ++ Re.digits 2 ++ Re.lit "/" ++ Re.digits 2
       ++ [Re.AEnd], "YYYY/MM/DD");
    (Re.digits 10 ++ [Re.AEnd], "timestamp_s");
    (Re.digits 13 ++ [Re.AEnd], "timestamp_ms");
    (Re.digits 4 ++ Re.lit "-" ++ Re.digits 2 ++ Re.lit "-" ++ Re.digits 2
       ++ [Re.ASpaces] ++ Re.digits 2 ++ Re.lit ":" ++ Re.digits 2
       ++ Re.lit ":" ++ Re.digits 2 ++ [Re.AEnd], "YYYY-MM-DD HH:MM:SS") ].

(** [API_PATH_PATTERNS], searched with [re.I]. *)
Definition API_PATH_PATTERNS : list (list Re.atom) :=
  [ Re.lit "query"; Re.lit "search"; Re.lit "list"; Re.lit "find";
    Re.lit "get"; Re.lit "fetch"; Re.lit "load"; Re.lit "data";
    Re.lit "api";
    Re.lit ".do" ++ [Re.AEnd]; Re.lit ".json" ++ [Re.AEnd];
    Re.lit ".action" ++ [Re.AEnd] ].

(** [self._noise_param_names], set by [__init__]. *)
Definition _noise_param_names : list string :=
  [ "_"; "__"; "_t"; "t"; "ts"; "timestamp"; "_timestamp"; "_ts" ].

(** ** The date-parameter recogniser *)

(** [any(re.match(pattern, key) for pattern in DATE_PARAM_PATTERNS)] *)
Definition name_matches_date (key : string) : bool :=
  existsb (fun p => Re.rmatch true p key) DATE_PARAM_PATTERNS.

(** The first format of [DATE_VALUE_PATTERNS] whose pattern matches. *)
Fixpoint first_format (pats : list (list Re.atom * string)) (s : string)
  : option string :=
  match pats with
  | [] => None
  | (p, fmt) :: rest =>
      if Re.rmatch false p s then Some fmt else first_format rest s
  end.

Definition value_format (s : string) : option string :=
  first_format DATE_VALUE_PATTERNS s.

(** The formats of the string items of an array value, in order. *)
Fixpoint date_formats_in_array (items : list pyval) : list string :=
  match items with
  | [] => []
  | VStr s :: rest =>
      match value_format (Str.strip s) with
      | Some fmt => fmt :: date_formats_in_array rest
      | None => date_formats_in_array rest
      end
  | _ :: rest => date_formats_in_array rest
  end.

(** One turn of the loop of [_identify_date_params]: the format recorded for
    [key], if it is recorded at all. *)
Definition identify_one (key : string) (value : pyval) : option string :=
  let key_l := Str.lower key in
  if Str.mem key_l _noise_param_names then None
  else
    match value with
    | VList items =>
        match date_formats_in_array items with
        | fmt0 :: _ =>
            if name_matches_date key
               || Str.any_in ["date"; "time"; "se"; "range"] key_l
            then Some fmt0 else None
        | [] => None
        end
    | _ =>
        let value := py_str value in
        match value_format (Str.strip value) with
        | Some fmt =>
            if name_matches_date key then Some fmt
            else if (8 <=? String.length value)%nat
                    && Str.any_in ["date"; "time"; "day"; "start"; "end";
                                   "begin"; "from"; "to"] key_l
            then Some fmt else None
        | None => None
        end
    end.

Definition identify_step (acc : dict string) (kv : string * pyval)
  : dict string :=
  match identify_one (fst kv) (snd kv) with
  | Some fmt => dict_set (fst kv) fmt acc
  | None => acc
  end.

(** [_identify_date_params(params)] *)
Definition _identify_date_params (ps : dict pyval) : dict string :=
  fold_left identify_step ps [].

(** ** The Python standard library, as the extractor uses it

    [urllib.parse], [json] and [datetime] are not code of this repository:
    the development is parametric in them.  [json_loads] and [strptime]
    return [None] where the Python function raises, an exception every
    caller catches on the spot; [timestamp] says which exception it raises,
    since [format_date] lets it through; [urlparse] is taken on the URLs it
    accepts. *)

(** The outcome of Python code: a value, or an exception that propagates
    (the text is [str(e)]). *)
Inductive outcome (A : Type) : Type :=
| Returned (a : A)
| Raised (exc : string).
Arguments Returned {A} a.
Arguments Raised {A} exc.

Definition bind {A B : Type} (o : outcome A) (k : A -> outcome B) : outcome B :=
  match o with
  | Returned a => k a
  | Raised e => Raised e
  end.

Notation "x <- o ;; k" := (bind o (fun x => k))
  (at level 61, o at next level, right associativity).

(** A loop whose body may raise: the exception of a turn ends it. *)
Fixpoint fold_outcome {A B : Type} (f : A -> B -> outcome A) (l : list B)
  (a : A) : outcome A :=
  match l with
  | [] => Returned a
  | b :: l' => a' <- f a b ;; fold_outcome f l' a'
  end.

(** The same loop seen from an [except] around it: the variables as the
    loop leaves them, and the exception that ended it, if one did. *)
Fixpoint loop_until_raise {A B : Type} (f : A -> B -> outcome A) (l : list B)
  (a : A) : A * option string :=
  match l with
  | [] => (a, None)
  | b :: l' =>
      match f a b with
      | Returned a' => loop_until_raise f l' a'
      | Raised exc => (a, Some exc)
      end
  end.

Module Url.
Record t : Type := mk {
  scheme : string;
  netloc : string;
  path : string;
  params : string;
  query : string;
  fragment : string;
}.
End Url.

Class PyLib : Type := {
  urlparse : string -> Url.t;
  urlunparse : Url.t -> string;
  (** [parse_qs(qs, keep_blank_values=b)] *)
  parse_qs : bool -> string -> dict (list string);
  (** [urlencode(d, doseq=True)] *)
  urlencode : dict pyval -> string;
  json_loads : string -> option pyval;
  datetime : Type;
  (** [datetime.strptime(s, '%Y-%m-%d')] *)
  strptime : string -> option datetime;
  strftime : datetime -> string -> string;
  (** [dt.timestamp()], a whole number of seconds for a date read by
      [strptime], or the [ValueError] or [OverflowError] it raises for a
      date the platform cannot convert *)
  timestamp : datetime -> outcome Z;
}.

(** ** The data classes *)

(** The dictionary returned by [verify_candidate]. *)
Record VerifyResult : Type := mkVerify {
  v_success : bool;
  v_data_count : Z;
  v_error : pyval;
  v_parsed_data : option pyval;
}.

(** [DateAPICandidate] *)
Record DateAPICandidate : Type := mkCandidate {
  url : string;
  method : string;
  params : dict pyval;
  date_params : dict string;
  response_preview : string;
  confidence : float;
  resource_type : string;
  is_verified : bool;
  (** [None] is the empty dictionary of a candidate not verified yet *)
  verification_result : option VerifyResult;
}.

Definition with_confidence (c : DateAPICandidate) (x : float)
  : DateAPICandidate :=
  mkCandidate (url c) (method c) (params c) (date_params c)
    (response_preview c) x (resource_type c) (is_verified c)
    (verification_result c).

Definition with_verification (c : DateAPICandidate) (r : VerifyResult)
  : DateAPICandidate :=
  mkCandidate (url c) (method c) (params c) (date_params c)
    (response_preview c) (confidence c) (resource_type c) true (Some r).

(** A call frame of a request initiator: [functionName] and [url]. *)
Record CallFrame : Type := mkFrame {
  functionName : string;
  frame_url : string;
}.

(** The [initiator] dictionary of a captured request: its [type] and the
    [callFrames] of its [stack]. *)
Record Initiator : Type := mkInitiator {
  init_type : string;
  callFrames : list CallFrame;
}.

(** A captured request.  A field is [None] when the key is absent. *)
Record Request : Type := mkRequest {
  req_url : option string;
  req_method : option string;
  req_postData : option string;
  req_resourceType : option string;
  req_initiator : option Initiator;
}.

(** The [network_requests] dictionary. *)
Record NetworkRequests : Type := mkNetwork {
  all_requests : list Request;
  api_requests : list Request;
}.

Definition get_default {A : Type} (o : option A) (d : A) : A :=
  match o with Some a => a | None => d end.

(** ** The confidence scorer *)

(** [min(a, b)] of Python: the first argument unless the second is smaller. *)
Definition pymin (a b : float) : float :=
  if PrimFloat.ltb b a then b else a.

Definition bulletin_tokens : list string :=
  [ "bulletin"; "announcement"; "disclosure"; "querycompanybulletin" ].

Definition common_api_params : list string :=
  [ "page"; "pageSize"; "limit"; "offset"; "type"; "category" ].

Section Scoring.
Context {L : PyLib}.

(** The score for the number of recognised date parameters. *)
Definition count_score (x : float) (date_count : nat) : float :=
  if (date_count =? 2)%nat then (x + 0.4)%float
  else if (date_count =? 1)%nat then (x + 0.2)%float
  else if (2 <? date_count)%nat then (x + 0.1)%float
  else x.

(** Every recognised key is a noise name (and there is one). *)
Definition noise_only (dps : dict string) : bool :=
  let keys_l := map Str.lower (dict_keys dps) in
  match keys_l with
  | [] => false
  | _ => forallb (fun k => Str.mem k _noise_param_names) keys_l
  end.

(** [+0.05] for each common parameter name present among the keys. *)
Definition pagination_score (x : float) (ps : dict pyval) : float :=
  let lowered := map Str.lower (dict_keys ps) in
  fold_left
    (fun acc p => if Str.mem (Str.lower p) lowered then (acc + 0.05)%float
                  else acc)
    common_api_params x.

(** [_calculate_confidence(url, method, params, date_params)] *)
Definition _calculate_confidence (u m : string) (ps : dict pyval)
  (dps : dict string) : float :=
  let confidence := 0.0%float in
  let confidence := count_score confidence (List.length dps) in
  let confidence :=
    if noise_only dps then (confidence - 0.5)%float else confidence in
  let path := Str.lower (Url.path (urlparse u)) in
  let confidence :=
    if existsb (fun p => Re.search true p path) API_PATH_PATTERNS
    then (confidence + 0.1)%float else confidence in
  let confidence :=
    if Str.any_in bulletin_tokens path
    then (confidence + 0.2)%float else confidence in
  let confidence := pagination_score confidence ps in
  let confidence :=
    if String.eqb m "POST" then (confidence + 0.1)%float else confidence in
  pymin confidence 1.0%float.

(** ** Request analysis *)

(** [v[0] if len(v) == 1 else v] *)
Definition flat_value (v : list string) : pyval :=
  match v with
  | [x] => VStr x
  | _ => VList (map VStr v)
  end.

(** [{k: v[0] if len(v) == 1 else v for k, v in qs.items()}], and the same
    assignment key by key onto an existing dictionary. *)
Definition flatten_onto (acc : dict pyval) (qs : dict (list string))
  : dict pyval :=
  fold_left (fun d kv => dict_set (fst kv) (flat_value (snd kv)) d) qs acc.

(** [d.update(other)] *)
Definition dict_update (d other : dict pyval) : dict pyval :=
  fold_left (fun acc kv => dict_set (fst kv) (snd kv) acc) other d.

(** The parameters of a request: its query string, and for a POST its body,
    read as a JSON object or else as a form. *)
Definition flat_params_of (u m : string) (post_data : string) : dict pyval :=
  let parsed := urlparse u in
  let flat_params := flatten_onto [] (parse_qs false (Url.query parsed)) in
  if negb (String.eqb post_data "") && String.eqb m "POST" then
    match json_loads post_data with
    | Some (VDict body_params) => dict_update flat_params body_params
    | Some _ => flat_params
    | None => flatten_onto flat_params (parse_qs false post_data)
    end
  else flat_params.

(** [_analyze_single_request(req)] *)
Definition _analyze_single_request (req : Request)
  : option DateAPICandidate :=
  let u := get_default (req_url req) "" in
  let m := Str.upper (get_default (req_method req) "GET") in
  if String.eqb u "" then None
  else
    let flat_params := flat_params_of u m (get_default (req_postData req) "") in
    let dps := _identify_date_params flat_params in
    match dps with
    | [] => None
    | _ =>
        let conf := _calculate_confidence u m flat_params dps in
        Some (mkCandidate u m flat_params dps "" conf
                (get_default (req_resourceType req) "unknown") false None)
    end.

(** [s.split('/')[-1]] *)
Fixpoint last_segment (s : string) : string :=
  match s with
  | EmptyString => EmptyString
  | String c s' =>
      if Str.contains "/" s' then last_segment s'
      else if Ascii.eqb c "/" then s' else s
  end.

(** [' '.join(...)] over the first five call frames, lower-cased. *)
Definition stack_info_of (frames : list CallFrame) : string :=
  Str.lower
    (String.concat " "
       (map (fun f => (functionName f ++ "@" ++ last_segment (frame_url f))%string)
            (firstn 5 frames))).

Definition interaction_keywords : list string :=
  [ "click"; "change"; "submit"; "search"; "query"; "onchange"; "onclick";
    "handleclick"; "handlechange"; "datepicker"; "laydate"; "calendar" ].

Definition noise_keywords : list string :=
  [ "setinterval"; "settimeout"; "heartbeat"; "ping"; "beacon"; "analytics";
    "tracker"; "log"; "monitor" ].

(** [_apply_initiator_bonus(candidate, req)] *)
Definition _apply_initiator_bonus (c : DateAPICandidate) (req : Request)
  : DateAPICandidate :=
  match req_initiator req with
  | None => c
  | Some initiator =>
      let stack_info := stack_info_of (callFrames initiator) in
      let x := confidence c in
      let x := if Str.any_in interaction_keywords stack_info
               then (x + 0.15)%float else x in
      let x := if Str.any_in noise_keywords stack_info
               then (x - 0.2)%float else x in
      let x := if Str.mem (init_type initiator) ["preload"; "preflight"; "other"]
               then (x - 0.1)%float else x in
      with_confidence c x
  end.

(** The first loop of [analyze_requests], over [api_requests]. *)
Definition analyze_api (acc : list DateAPICandidate) (req : Request)
  : list DateAPICandidate :=
  match _analyze_single_request req with
  | Some c =>
      let c := with_confidence c (confidence c + 0.2)%float in
      acc ++ [_apply_initiator_bonus c req]
  | None => acc
  end.

Definition allowed_resource_type (rt : string) : bool :=
  String.eqb rt ""
  || Str.mem (Str.lower rt) ["xhr"; "fetch"; "script"; "document"; ""].

(** The second loop, over [all_requests]; the state is the candidate list
    and the set [analyzed_urls]. *)
Definition analyze_all (st : list DateAPICandidate * list string)
  (req : Request) : list DateAPICandidate * list string :=
  let '(acc, analyzed_urls) := st in
  let u := get_default (req_url req) "" in
  if Str.mem u analyzed_urls then st
  else if negb (allowed_resource_type (get_default (req_resourceType req) ""))
  then st
  else
    match _analyze_single_request req with
    | Some c => (acc ++ [_apply_initiator_bonus c req], u :: analyzed_urls)
    | None => st
    end.

(** [list.sort(key=lambda c: c.confidence, reverse=True)]: stable, the
    greatest first. *)
Fixpoint insert_desc (c : DateAPICandidate) (l : list DateAPICandidate)
  : list DateAPICandidate :=
  match l with
  | [] => [c]
  | d :: l' =>
      if PrimFloat.ltb (confidence c) (confidence d)
      then d :: insert_desc c l' else c :: l
  end.

Definition sort_desc (l : list DateAPICandidate) : list DateAPICandidate :=
  fold_right insert_desc [] l.

Definition discovered (reqs : NetworkRequests) : list DateAPICandidate :=
  let candidates := fold_left analyze_api (api_requests reqs) [] in
  fst (fold_left analyze_all (all_requests reqs) (candidates, map url candidates)).

(** [analyze_requests(network_requests)]: the list it returns, which it also
    stores in [self.candidates]. *)
Definition analyze_requests (reqs : NetworkRequests)
  : list DateAPICandidate :=
  sort_desc (discovered reqs).

End Scoring.

(** ** The sanity check of a candidate *)

(** [repr] of a list of keys, quotes and commas as Python prints them (the
    keys are printed without escapes). *)
Definition repr_keys (keys : list string) : string :=
  ("[" ++ String.concat ", " (map (fun k => "'" ++ k ++ "'") keys) ++ "]")%string.

Definition _is_dateish_name (k : string) : bool :=
  let kl := Str.lower k in
  if Str.mem kl _noise_param_names then false
  else Str.any_in ["start"; "begin"; "from"; "end"; "to"; "date"; "time"; "day"] kl.

(** [_looks_like_real_date_filter(candidate)]: the verdict and its reason. *)
Definition _looks_like_real_date_filter (c : DateAPICandidate)
  : bool * string :=
  let url_l := Str.lower (url c) in
  let keys := dict_keys (date_params c) in
  match keys with
  | [] => (false, "无日期参数")
  | _ =>
      let non_noise_keys :=
        filter (fun k => negb (Str.mem (Str.lower k) _noise_param_names)) keys in
      match non_noise_keys with
      | [] => (false, ("仅包含噪声日期参数: " ++ repr_keys keys)%string)
      | _ =>
          let has_dateish_name := existsb _is_dateish_name non_noise_keys in
          let looks_like_bulletin_api := Str.any_in bulletin_tokens url_l in
          if Str.contains "commonquery" url_l
             && negb looks_like_bulletin_api && negb has_dateish_name
          then (false, "commonQuery 且缺少明确日期字段名")
          else if looks_like_bulletin_api
          then (true, "URL 命中公告/披露特征")
          else if negb has_dateish_name
          then (false, "缺少明确日期筛选字段名（可能是噪声参数误判）")
          else (true, "通过健全性检查")
      end
  end.

(** ** The response validator *)

Definition data_keys : list string :=
  [ "data"; "result"; "list"; "items"; "records"; "rows"; "content";
    "reports"; "articles" ].

(** [c in (None, 0, 200, '0', '200', 'success')], with Python's equality
    ([False == 0]). *)
Definition ok_code (c : pyval) : bool :=
  match c with
  | VNone => true
  | VInt n => (n =? 0)%Z || (n =? 200)%Z
  | VBool b => negb b
  | VStr s => Str.mem s ["0"; "200"; "success"]
  | VList _ | VDict _ => false
  end.

(** [d.get(k)] as a Python value: [None] for an absent key. *)
Definition py_get (k : string) (d : dict pyval) : pyval :=
  get_default (dict_get k d) VNone.

(** [a or b] *)
Definition py_or (a b : pyval) : pyval := if truthy a then a else b.

(** The inner loop: the length of the first list found under a data key. *)
Fixpoint count_inner (keys : list string) (value : dict pyval)
  (data_count : Z) : Z :=
  match keys with
  | [] => data_count
  | sub_key :: rest =>
      match dict_get sub_key value with
      | Some (VList l) => Z.of_nat (List.length l)
      | _ => count_inner rest value data_count
      end
  end.

(** The outer loop: it stops at the first key holding a list; a key holding
    an object is searched one level down and the loop goes on. *)
Fixpoint count_outer (keys : list string) (data : dict pyval)
  (data_count : Z) : Z :=
  match keys with
  | [] => data_count
  | key :: rest =>
      match dict_get key data with
      | Some (VList l) => Z.of_nat (List.length l)
      | Some (VDict value) =>
          count_outer rest data (count_inner data_keys value data_count)
      | _ => count_outer rest data data_count
      end
  end.

(** [isinstance(v, int)], with the value: a [bool] is an [int]. *)
Definition as_int (v : pyval) : option Z :=
  match v with
  | VInt n => Some n
  | VBool b => Some (if b then 1 else 0)%Z
  | _ => None
  end.

(** The [pageHelp] shape: its [data] list and its [total]. *)
Definition page_help_count (data : dict pyval) (data_count : Z) : Z :=
  match dict_get "pageHelp" data with
  | Some (VDict page_help) =>
      let data_count :=
        match get_default (dict_get "data" page_help) (VList []) with
        | VList data_list => Z.max data_count (Z.of_nat (List.length data_list))
        | _ => data_count
        end in
      match as_int (get_default (dict_get "total" page_help) (VInt 0)) with
      | Some total =>
          if (0 <? total)%Z then Z.max data_count (Z.min total 100)
          else data_count
      | None => data_count
      end
  | _ => data_count
  end.

(** The item count [data_count] of an object-shaped response. *)
Definition count_items (data : dict pyval) : Z :=
  page_help_count data (count_outer data_keys data 0).

(** [data.get('success') is False] *)
Definition success_is_false (data : dict pyval) : bool :=
  match py_get "success" data with
  | VBool false => true
  | _ => false
  end.

(** The [code] field is outside the accepted codes and is truthy. *)
Definition bad_code (data : dict pyval) : bool :=
  negb (ok_code (py_get "code" data)) && truthy (py_get "code" data).

(** [_validate_response(data)]: [(is_valid, data_count, error)].  [VNone] is
    the [None] of a body that did not parse. *)
Definition _validate_response (data : pyval) : bool * Z * pyval :=
  match data with
  | VNone => (false, 0%Z, VStr "无法解析响应为 JSON")
  | VDict d =>
      if success_is_false d then
        (false, 0%Z,
         py_or (py_get "message" d)
           (py_or (py_get "error" d) (VStr "API 返回 success=false")))
      else if bad_code d then
        (false, 0%Z,
         VStr ("API 返回错误码: " ++ py_str (py_get "code" d))%string)
      else
        let data_count := count_items d in
        if (data_count =? 0)%Z
        then (false, 0%Z, VStr "响应中未找到数据列表或列表为空")
        else (true, data_count, VNone)
  | _ => (false, 0%Z, VStr "响应不是对象格式")
  end.

(** ** The replay builder *)

Section Replay.
Context {L : PyLib}.

(** [format_date(date_str, target_format)].  Only [strptime] is inside the
    [try]: an exception of [dt.timestamp()] leaves the function.  The epoch
    of a date is a whole number of seconds, so the milliseconds are a
    thousand times it. *)
Definition format_date (date_str target_format : string) : outcome string :=
  match strptime date_str with
  | None => Returned date_str
  | Some dt =>
      if String.eqb target_format "YYYY-MM-DD"
      then Returned (strftime dt "%Y-%m-%d")
      else if String.eqb target_format "YYYYMMDD"
      then Returned (strftime dt "%Y%m%d")
      else if String.eqb target_format "YYYY/MM/DD"
      then Returned (strftime dt "%Y/%m/%d")
      else if String.eqb target_format "timestamp_s"
      then seconds <- timestamp dt ;; Returned (Str.of_Z seconds)
      else if String.eqb target_format "timestamp_ms"
      then seconds <- timestamp dt ;; Returned (Str.of_Z (seconds * 1000))
      else if String.eqb target_format "YYYY-MM-DD HH:MM:SS"
      then Returned (strftime dt "%Y-%m-%d 00:00:00")
      else Returned date_str
  end.

Definition is_list (v : option pyval) : bool :=
  match v with Some (VList _) => true | _ => false end.

(** One turn of the substitution loop of [build_replay_url]. *)
Definition substitute (c : DateAPICandidate) (start_date end_date : string)
  (new_params : dict pyval) (entry : string * string) : outcome (dict pyval) :=
  let '(param_name, date_format) := entry in
  let name_lower := Str.lower param_name in
  let original_value := dict_get param_name (params c) in
  if is_list original_value
     || Str.mem name_lower ["sedate"; "daterange"; "date_range"]
  then
    first <- format_date start_date date_format ;;
    second <- format_date end_date date_format ;;
    Returned (dict_set param_name (VList [VStr first; VStr second]) new_params)
  else
    new_value <-
      (if Str.any_in ["start"; "begin"; "from"] name_lower
       then format_date start_date date_format
       else if Str.any_in ["end"; "to"] name_lower
       then format_date end_date date_format
       else format_date start_date date_format) ;;
    Returned (dict_set param_name (VStr new_value) new_params).

(** The callback names are fixed, a callback is added for the host
    [sse.com.cn], and the pagination defaults are filled in. *)
Definition fix_callbacks (c : DateAPICandidate) (new_params : dict pyval)
  : dict pyval :=
  let new_params :=
    if dict_has "jsonCallBack" new_params
    then dict_set "jsonCallBack" (VStr "jsonCallback") new_params
    else new_params in
  let new_params :=
    if dict_has "callback" new_params
    then dict_set "callback" (VStr "jsonCallback") new_params
    else new_params in
  let host := Str.lower (Url.netloc (urlparse (url c))) in
  if Str.contains "sse.com.cn" host
     && negb (dict_has "jsonCallBack" new_params)
     && negb (dict_has "callback" new_params)
  then dict_set "jsonCallBack" (VStr "jsonCallback") new_params
  else new_params.

Definition fill_pagination (new_params : dict pyval) : dict pyval :=
  let new_params :=
    if negb (dict_has "pageHelp.pageNo" new_params)
       && negb (dict_has "pageNo" new_params)
    then dict_set "pageHelp.pageNo" (VStr "1") new_params
    else new_params in
  if negb (dict_has "pageHelp.pageSize" new_params)
     && negb (dict_has "pageSize" new_params)
  then dict_set "pageHelp.pageSize" (VStr "25") new_params
  else new_params.

(** The dictionary [new_params] of [build_replay_url] once every date
    parameter is substituted and the defaults are in. *)
Definition replay_params (c : DateAPICandidate) (start_date end_date : string)
  : outcome (dict pyval) :=
  new_params <-
    fold_outcome (substitute c start_date end_date) (date_params c) (params c) ;;
  Returned (fill_pagination (fix_callbacks c new_params)).

(** [build_replay_url(candidate, start_date, end_date)]: the URL to call and
    the JSON body. *)
Definition build_replay_url (c : DateAPICandidate)
  (start_date end_date : string) : outcome (string * dict pyval) :=
  new_params <- replay_params c start_date end_date ;;
  let parsed := urlparse (url c) in
  if String.eqb (method c) "GET" then
    let new_query := urlencode new_params in
    Returned
      (urlunparse
         (Url.mk (Url.scheme parsed) (Url.netloc parsed) (Url.path parsed)
            (Url.params parsed) new_query (Url.fragment parsed)),
       [])
  else Returned (url c, new_params).

End Replay.

(** ** Replay over HTTP *)

(** The request [verify_candidate] sends through [httpx]. *)
Record HttpRequest : Type := mkHttp {
  h_method : string;
  h_url : string;
  h_json : dict pyval;
}.

(** What comes back: an exception of the client, or a status code with the
    body as [_parse_response] decodes it ([VNone] when it is not JSON). *)
Inductive HttpOutcome : Type :=
| HttpRaised (msg : string)
| HttpReplied (status_code : Z) (data : pyval).

(** [min(a, b)] on strings. *)
Definition str_min (a b : string) : string :=
  if String.ltb b a then b else a.

(** The range sent: the end date is cut at today, the start at the end. *)
Definition effective_range (today_str start_date end_date : string)
  : string * string :=
  let effective_end :=
    if String.ltb today_str end_date then str_min end_date today_str
    else end_date in
  let effective_start := str_min start_date effective_end in
  (effective_start, effective_end).

(** The result dictionary for an outcome of the HTTP call. *)
Definition verify_outcome (o : HttpOutcome) : VerifyResult :=
  match o with
  | HttpRaised msg => mkVerify false 0%Z (VStr msg) None
  | HttpReplied status_code data =>
      if negb (status_code =? 200)%Z
      then mkVerify false 0%Z (VStr ("HTTP " ++ Str.of_Z status_code)%string) None
      else
        let '(is_valid, data_count, err) := _validate_response data in
        mkVerify is_valid data_count err (if is_valid then Some data else None)
  end.

(** ** The layers and the fallback chain *)

(** A configuration found in the page ([GlobalVarAPIConfig], and the
    dictionaries of [api_configs]); [cfg_date_params] is its [date_params].
    The fields have the types the page script and the analysis of the hook
    records write them with. *)
Record GlobalVarAPIConfig : Type := mkConfig {
  var_name : string;
  api_url : string;
  cfg_date_params : dict pyval;
  all_params : dict pyval;
  date_format : string;
  is_jsonp : bool;
  extra_info : dict pyval;
}.

(** The dictionary a scan hands back.  [scan_error] is [None] when the key
    [error] is absent, and [Some VNone] for the [null] the page script
    initialises it with. *)
Record ScanResult : Type := mkScan {
  found : bool;
  api_configs : list GlobalVarAPIConfig;
  scan_error : option pyval;
}.

(** [page.evaluate(js_code)] on the scan script. *)
Inductive EvalOutcome : Type :=
| EvalRaised (msg : string)
| EvalReturned (result : option ScanResult).

(** A record of the XHR/fetch hook. *)
Record InterceptRecord : Type := mkIntercept {
  ir_url : option string;
  ir_type : option string;
  ir_method : option string;
  ir_stack : option string;
}.

(** [self.browser.get_intercepted_apis()], when the browser has it. *)
Inductive Intercepted : Type :=
| NoHook
| HookRaised (msg : string)
| HookRecords (records : list InterceptRecord).

Record Page : Type := mkPage {
  page_url : string;
  evaluate : EvalOutcome;
}.

Record Browser : Type := mkBrowser {
  page : option Page;
  intercepted : Intercepted;
}.

(** The dictionary of [_try_layer0_global_var_scan]. *)
Inductive Layer0Result : Type :=
| L0Failed (err : pyval)
| L0Found (best_config : GlobalVarAPIConfig) (all_configs : list GlobalVarAPIConfig).

(** The dictionary of a layer 1, 2 or 3: every [return] of these layers
    builds one of the two shapes.  [note] is the [picker_type] or the
    [llm_instruction] where there is one. *)
Inductive LayerResult : Type :=
| LayerFailed (err : string) (note : string)
| LayerFound (best : DateAPICandidate) (count : Z) (replayed : option pyval)
    (note : string).

Definition l_success (r : LayerResult) : bool :=
  match r with LayerFound _ _ _ _ => true | LayerFailed _ _ => false end.

(** [r.get('error', '')]: the success dictionaries hold [None] there. *)
Definition l_error (r : LayerResult) : pyval :=
  match r with LayerFound _ _ _ _ => VNone | LayerFailed e _ => VStr e end.

Definition l_data_count (r : LayerResult) : Z :=
  match r with LayerFound _ n _ _ => n | LayerFailed _ _ => 0%Z end.

Definition l_best_candidate (r : LayerResult) : option DateAPICandidate :=
  match r with LayerFound c _ _ _ => Some c | LayerFailed _ _ => None end.

Definition l_replayed_data (r : LayerResult) : option pyval :=
  match r with LayerFound _ _ d _ => d | LayerFailed _ _ => None end.

Definition l_note (r : LayerResult) : string :=
  match r with LayerFound _ _ _ n => n | LayerFailed _ n => n end.

(** [DateAPIExtractionResult] *)
Record DateAPIExtractionResult : Type := mkResult {
  success : bool;
  layer : Z;
  candidates : list DateAPICandidate;
  best_candidate : option DateAPICandidate;
  error : option string;
  replayed_data : option pyval;
  data_count : Z;
  layer0_result : option Layer0Result;
  layer1_result : option LayerResult;
  layer2_result : option LayerResult;
  layer3_result : option LayerResult;
  global_var_config : option GlobalVarAPIConfig;
  recommendations : list string;
}.

(** The attributes of the extractor that the chain reads and writes. *)
Record Extractor : Type := mkSelf {
  self_candidates : list DateAPICandidate;
  _layer0_result : option Layer0Result;
  _layer1_result : option LayerResult;
  _layer2_result : option LayerResult;
  _layer3_result : option LayerResult;
  _global_var_config : option GlobalVarAPIConfig;
}.

(** The extractor as [__init__] leaves it. *)
Definition fresh : Extractor := mkSelf [] None None None None None.

(** What a layer that drives the page returns, and the candidates its call
    of [analyze_requests] leaves in [self.candidates] ([None]: untouched). *)
Record PageLayer : Type := mkPageLayer {
  returned : LayerResult;
  left_candidates : option (list DateAPICandidate);
}.

(** The collaborators of one extraction.  [http n r] answers the request
    [r] when [n] replays were sent before it. *)
Record World : Type := mkWorld {
  today_str : string;
  http : nat -> HttpRequest -> HttpOutcome;
  browser : option Browser;
  llm : bool;
  dom_layer : PageLayer;
  vision_layer : PageLayer;
}.

(** What the chain does, in order. *)
Inductive event : Type :=
| Called (layer_no : nat)
| Replayed (r : HttpRequest).

Definition replays (trace : list event) : nat :=
  List.length (filter (fun e => match e with Replayed _ => true | _ => false end) trace).

(** [s + v] for a string [s]: a [TypeError] unless [v] is a string. *)
Definition str_add (s : string) (v : pyval) : outcome string :=
  match v with
  | VStr t => Returned (s ++ t)%string
  | _ => Raised "TypeError"
  end.

Section Layers.
Context {L : PyLib}.
Variable w : World.

(** The request of [verify_candidate] for a candidate, or the exception of
    [build_replay_url], which is called before the [try]. *)
Definition replay_request (c : DateAPICandidate) (start_date end_date : string)
  : outcome HttpRequest :=
  let '(effective_start, effective_end) :=
    effective_range (today_str w) start_date end_date in
  built <- build_replay_url c effective_start effective_end ;;
  let '(new_url, post_body) := built in
  Returned (if String.eqb (method c) "GET" then mkHttp "GET" new_url []
            else mkHttp "POST" new_url post_body).

(** [verify_candidate(candidate, start_date, end_date)]: the result and the
    trace with the replay added, or the exception raised before anything is
    sent. *)
Definition verify_candidate (trace : list event) (c : DateAPICandidate)
  (start_date end_date : string) : outcome (VerifyResult * list event) :=
  r <- replay_request c start_date end_date ;;
  Returned (verify_outcome (http w (replays trace) r), trace ++ [Replayed r]).

(** *** Layer 1 *)

(** The variables of the verification loop of [_try_layer1_api_direct];
    [verified] collects the candidates as the loop leaves them. *)
Record Loop1 : Type := mkLoop1 {
  best_so_far : option DateAPICandidate;
  best_data_count : Z;
  verified : list DateAPICandidate;
  loop_trace : list event;
}.

Definition layer1_step (start_date end_date : string) (st : Loop1)
  (c : DateAPICandidate) : outcome Loop1 :=
  answer <- verify_candidate (loop_trace st) c start_date end_date ;;
  let '(result, trace) := answer in
  let c := with_verification c result in
  Returned
    (if v_success result && (best_data_count st <? v_data_count result)%Z then
       let '(ok, reason) := _looks_like_real_date_filter c in
       if negb ok
       then mkLoop1 (best_so_far st) (best_data_count st) (verified st ++ [c]) trace
       else mkLoop1 (Some c) (v_data_count result) (verified st ++ [c]) trace
     else mkLoop1 (best_so_far st) (best_data_count st) (verified st ++ [c]) trace).

Definition layer1_loop (start_date end_date : string) (trace : list event)
  (top : list DateAPICandidate) : Loop1 * option string :=
  loop_until_raise (layer1_step start_date end_date) top
    (mkLoop1 None 0%Z [] trace).

Definition parsed_data_of (c : DateAPICandidate) : option pyval :=
  match verification_result c with
  | Some r => v_parsed_data r
  | None => None
  end.

(** [_try_layer1_api_direct(network_requests, start_date, end_date, log)]:
    its dictionary, the extractor and the trace after it.  The candidates
    verified are objects of [self.candidates], which sees them updated.  An
    exception of [verify_candidate] is caught by the [except] of the layer:
    the candidates verified before it stay verified, the others are as
    [analyze_requests] left them. *)
Definition _try_layer1_api_direct (self : Extractor) (trace : list event)
  (reqs : NetworkRequests) (start_date end_date : string)
  : LayerResult * Extractor * list event :=
  let candidates := analyze_requests reqs in
  let store l :=
    mkSelf l (_layer0_result self) (_layer1_result self) (_layer2_result self)
      (_layer3_result self) (_global_var_config self) in
  match candidates with
  | [] => (LayerFailed "未在网络请求中发现日期相关的 API" "", store [], trace)
  | _ =>
      let '(st, raised) :=
        layer1_loop start_date end_date trace (firstn 3 candidates) in
      let self :=
        store (verified st ++ skipn (List.length (verified st)) candidates) in
      match raised with
      | Some exc =>
          (LayerFailed ("第一层执行异常: " ++ exc)%string "", self, loop_trace st)
      | None =>
          match best_so_far st with
          | Some best =>
              (LayerFound best (best_data_count st) (parsed_data_of best) "",
               self, loop_trace st)
          | None =>
              (LayerFailed
                 "所有候选 API 验证失败或被判定为假阳性（重放未得到可信日期筛选数据）" "",
               self, loop_trace st)
          end
      end
  end.

(** *** Layer 0 *)

(** [_execute_global_var_scan(page, known_pattern, log)]: an exception of
    the page becomes a dictionary with [found] false. *)
Definition _execute_global_var_scan (pg : Page) : option ScanResult :=
  match evaluate pg with
  | EvalRaised msg => Some (mkScan false [] (Some (VStr msg)))
  | EvalReturned result => result
  end.

(** [s.split('?')[0]] *)
Fixpoint before_question (s : string) : string :=
  match s with
  | EmptyString => EmptyString
  | String c s' => if Ascii.eqb c "?" then EmptyString else String c (before_question s')
  end.

(** The configuration [_analyze_intercepted_apis] builds from one record of
    the hook, when it builds one. *)
Definition intercepted_config (record : InterceptRecord)
  : option GlobalVarAPIConfig :=
  let u := get_default (ir_url record) "" in
  if String.eqb u "" then None
  else
    let url_lower := Str.lower u in
    if existsb (fun ext => Str.endswith ext url_lower)
         [".css"; ".png"; ".jpg"; ".gif"; ".svg"; ".ico"]
    then None
    else
      let absolute :=
        if Str.startswith "//" u then Some ("https:" ++ u)%string
        else if Str.startswith "/" u then None
        else Some u in
      match absolute with
      | None => None
      | Some u =>
          if negb (Str.startswith "http" u) then None
          else
            let flat_params :=
              flatten_onto [] (parse_qs false (Url.query (urlparse u))) in
            match _identify_date_params flat_params with
            | [] => None
            | (name0, fmt0) :: more =>
                Some (mkConfig
                  ("intercepted_" ++ get_default (ir_type record) "unknown")%string
                  (before_question u)
                  (map (fun kv => (fst kv, VStr (snd kv))) ((name0, fmt0) :: more))
                  flat_params
                  fmt0
                  (Str.contains "callback" url_lower
                   || Str.contains "jsonp" url_lower
                   || Str.contains "jsonCallBack" url_lower)
                  [("source", VStr "xhr_fetch_hook");
                   ("call_stack",
                    VStr (String.substring 0 500 (get_default (ir_stack record) "")));
                   ("http_method", VStr (get_default (ir_method record) "GET"))])
            end
      end.

Fixpoint hook_configs (records : list InterceptRecord)
  : list GlobalVarAPIConfig :=
  match records with
  | [] => []
  | record :: rest =>
      match intercepted_config record with
      | Some cfg => cfg :: hook_configs rest
      | None => hook_configs rest
      end
  end.

(** [_analyze_intercepted_apis(intercepted, log)] *)
Definition _analyze_intercepted_apis (records : list InterceptRecord)
  : option ScanResult :=
  match records with
  | [] => None
  | _ =>
      match hook_configs records with
      | [] => Some (mkScan false []
                      (Some (VStr "钩子记录中未发现含日期参数的 API")))
      | cfgs => Some (mkScan true cfgs None)
      end
  end.

Definition scan_found (r : option ScanResult) : bool :=
  match r with Some sr => found sr | None => false end.

(** The choice of [best_config]: the first configuration with two date
    parameters or more, else the first with one, else the first. *)
Fixpoint choose_config (cfgs : list GlobalVarAPIConfig)
  (best : option GlobalVarAPIConfig) : option GlobalVarAPIConfig :=
  match cfgs with
  | [] => best
  | config :: rest =>
      let n := List.length (cfg_date_params config) in
      if (2 <=? n)%nat then Some config
      else if (1 <=? n)%nat
      then choose_config rest (match best with None => Some config | _ => best end)
      else choose_config rest best
  end.

Definition scan_exception (msg : string) : Layer0Result :=
  L0Failed (VStr ("全局变量扫描异常: " ++ msg)%string).

(** [_try_layer0_global_var_scan(start_date, end_date, log)] for the
    browser [b]. *)
Definition _try_layer0_global_var_scan (b : Browser) : Layer0Result :=
  match page b with
  | None => L0Failed (VStr "浏览器未就绪")
  | Some pg =>
      let scan_result := _execute_global_var_scan pg in
      let hooked : outcome (option ScanResult) :=
        if negb (scan_found scan_result) then
          match intercepted b with
          | NoHook => Returned scan_result
          | HookRaised msg => Raised msg
          | HookRecords records =>
              let hook_result := _analyze_intercepted_apis records in
              if scan_found hook_result then Returned hook_result
              else Returned scan_result
          end
        else Returned scan_result in
      match hooked with
      | Raised msg => scan_exception msg
      | Returned None =>
          scan_exception "'NoneType' object has no attribute 'get'"
      | Returned (Some sr) =>
          if negb (found sr) then
            L0Failed (get_default (scan_error sr)
                        (VStr "未找到包含 API 配置的全局变量"))
          else
            match api_configs sr with
            | [] => L0Failed (VStr "扫描到全局变量但未找到有效的 API 配置")
            | first :: _ =>
                match choose_config (api_configs sr) None with
                | Some best_config => L0Found best_config (api_configs sr)
                | None => L0Found first (api_configs sr)
                end
            end
      end
  end.

(** The parameters read off the query string of the configured URL, the
    JSONP placeholder [?] replaced by the fixed callback name. *)
Definition url_query_params_of (qs : dict (list string)) : dict pyval :=
  fold_left
    (fun d kv =>
       let '(k, v_list) := kv in
       if Str.mem k ["jsonCallBack"; "callback"]
          && match v_list with "?" :: _ => true | _ => false end
       then dict_set k (VStr "jsonCallback") d
       else dict_set k (flat_value v_list) d)
    qs [].

(** A field of the page object that is no parameter of the API: a value
    that is a URL, a key that names configuration, a nested object. *)
Definition skipped_field (k : string) (v : pyval) : bool :=
  match v with
  | VStr t =>
      (Str.startswith "http" t || Str.startswith "//" t || Str.startswith "/" t)
      && Str.contains "/" (Str.drop 2 t)
  | _ => false
  end
  || Str.any_in ["url"; "template"; "selector"; "element"; "container"; "target"]
       (Str.lower k)
  || match v with VDict _ => true | _ => false end.

Definition add_missing (d : dict pyval) (k : string) (v : pyval) : dict pyval :=
  if dict_has k d then d else dict_set k v d.

(** [_build_candidate_from_global_var(layer0_result)] for the configuration
    a successful scan returned. *)
Definition _build_candidate_from_global_var (cfg : GlobalVarAPIConfig)
  : option DateAPICandidate :=
  let u := api_url cfg in
  if String.eqb u "" then None
  else
    let u :=
      if Str.startswith "/" u && negb (Str.startswith "//" u) then
        match browser w with
        | Some b =>
            match page b with
            | Some pg =>
                if String.eqb (page_url pg) "" then u
                else
                  let parsed := urlparse (page_url pg) in
                  (Url.scheme parsed ++ "://" ++ Url.netloc parsed ++ u)%string
            | None => u
            end
        | None => u
        end
      else u in
    let u := if Str.startswith "//" u then ("https:" ++ u)%string else u in
    let '(url_query_params, u) :=
      if Str.contains "?" u then
        let parsed_url := urlparse u in
        (url_query_params_of (parse_qs true (Url.query parsed_url)),
         urlunparse
           (Url.mk (Url.scheme parsed_url) (Url.netloc parsed_url)
              (Url.path parsed_url) (Url.params parsed_url) ""
              (Url.fragment parsed_url)))
      else ([], u) in
    let obj_params :=
      fold_left
        (fun d kv => if skipped_field (fst kv) (snd kv) then d
                     else dict_set (fst kv) (snd kv) d)
        (all_params cfg) [] in
    let merged :=
      fold_left (fun d kv => add_missing d (fst kv) (snd kv)) obj_params
        url_query_params in
    let merged :=
      fold_left (fun d dp => add_missing d dp (VStr ""))
        (dict_keys (cfg_date_params cfg)) merged in
    let name_l := Str.lower (var_name cfg) in
    let url_path := Str.lower (Url.path (urlparse u)) in
    let jsonp :=
      is_jsonp cfg || dict_has "jsonCallBack" merged || dict_has "callback" merged in
    let m :=
      if jsonp then "GET"
      else if Str.any_in ["history"; "search"; "query"] name_l then "POST"
      else if Str.any_in ["annlist"; "search"] url_path then "POST"
      else "GET" in
    let date_param_formats :=
      fold_left (fun d param_name => dict_set param_name (date_format cfg) d)
        (dict_keys (cfg_date_params cfg)) [] in
    let '(date_param_formats, merged) :=
      match date_param_formats, dict_get "source" (extra_info cfg) with
      | [], Some (VStr "flag_obj") =>
          ([("seDate", date_format cfg)], dict_set "seDate" (VList []) merged)
      | _, _ => (date_param_formats, merged)
      end in
    Some (mkCandidate u m merged date_param_formats "" 0.95%float "global_var"
            false None).

(** *** The chain *)

Definition set_layer (n : nat) (r : LayerResult) (self : Extractor)
  : Extractor :=
  match n with
  | 1%nat => mkSelf (self_candidates self) (_layer0_result self) (Some r)
               (_layer2_result self) (_layer3_result self) (_global_var_config self)
  | 2%nat => mkSelf (self_candidates self) (_layer0_result self)
               (_layer1_result self) (Some r) (_layer3_result self)
               (_global_var_config self)
  | _ => mkSelf (self_candidates self) (_layer0_result self)
           (_layer1_result self) (_layer2_result self) (Some r)
           (_global_var_config self)
  end.

Definition set_candidates (l : list DateAPICandidate) (self : Extractor)
  : Extractor :=
  mkSelf l (_layer0_result self) (_layer1_result self) (_layer2_result self)
    (_layer3_result self) (_global_var_config self).

(** A layer that drives the page: what it returns and what it leaves. *)
Definition run_page_layer (p : PageLayer) (self : Extractor)
  : LayerResult * Extractor :=
  (returned p,
   match left_candidates p with
   | Some l => set_candidates l self
   | None => self
   end).

(** [(r or {}).get('error', '')] for the dictionary of layer 0. *)
Definition error_of0 (r : option Layer0Result) : pyval :=
  match r with
  | Some (L0Failed e) => e
  | _ => VStr ""
  end.

(** The same for the dictionary of a later layer. *)
Definition error_of (r : option LayerResult) : pyval :=
  match r with
  | Some l => l_error l
  | None => VStr ""
  end.

(** The result built when every layer failed.  The recommendations are
    string concatenations, evaluated in order. *)
Definition all_failed (self : Extractor) : outcome DateAPIExtractionResult :=
  r0 <- str_add "全局变量扫描失败: " (error_of0 (_layer0_result self)) ;;
  r1 <- str_add "纯 API 直连失败: " (error_of (_layer1_result self)) ;;
  r2 <- str_add "DOM 自动检测失败: " (error_of (_layer2_result self)) ;;
  r3 <- str_add "LLM 视觉分析失败: " (error_of (_layer3_result self)) ;;
  Returned
    (mkResult false (-1)%Z (self_candidates self) None (Some "四层策略均失败")
       None 0%Z (_layer0_result self) (_layer1_result self)
       (_layer2_result self) (_layer3_result self) None
       [r0; r1; r2; r3;
        "建议: 检查页面是否有反爬机制，或手动分析日期控件结构"]).

(** The run of a chain: what the caller gets, the extractor and the
    trace. *)
Definition Run : Type :=
  outcome DateAPIExtractionResult * Extractor * list event.

(** Layer 3 and the final result. *)
Definition from_layer3 (self : Extractor) (trace : list event) : Run :=
  match browser w, llm w with
  | Some _, true =>
      let '(layer3_result, self) := run_page_layer (vision_layer w) self in
      let trace := trace ++ [Called 3] in
      let self := set_layer 3 layer3_result self in
      match layer3_result with
      | LayerFound best n replayed instruction =>
          (Returned
             (mkResult true 3%Z (self_candidates self) (Some best) None replayed n
                (_layer0_result self) (_layer1_result self) (_layer2_result self)
                (Some layer3_result) None
                ["通过 LLM 视觉分析成功定位日期控件";
                 ("LLM 识别到的操作: " ++ instruction)%string]),
           self, trace)
      | LayerFailed _ _ => (all_failed self, self, trace)
      end
  | _, _ => (all_failed self, self, trace)
  end.

(** Layer 2 and what follows it. *)
Definition from_layer2 (self : Extractor) (trace : list event) : Run :=
  match browser w with
  | None => from_layer3 self trace
  | Some _ =>
      let '(layer2_result, self) := run_page_layer (dom_layer w) self in
      let trace := trace ++ [Called 2] in
      let self := set_layer 2 layer2_result self in
      match layer2_result with
      | LayerFound best n replayed picker_type =>
          (Returned
             (mkResult true 2%Z (self_candidates self) (Some best) None replayed n
                (_layer0_result self) (_layer1_result self)
                (Some layer2_result) None None
                ["DOM 自动操作成功，捕获到日期 API";
                 ("控件类型: " ++ picker_type)%string]),
           self, trace)
      | LayerFailed _ _ => from_layer3 self trace
      end
  end.

(** Layer 1 and what follows it. *)
Definition from_layer1 (self : Extractor) (trace : list event)
  (reqs : NetworkRequests) (start_date end_date : string) : Run :=
  let '(layer1_result, self, trace) :=
    _try_layer1_api_direct self (trace ++ [Called 1]) reqs start_date end_date in
  let self := set_layer 1 layer1_result self in
  match layer1_result with
  | LayerFound best n replayed _ =>
      (Returned
         (mkResult true 1%Z (self_candidates self) (Some best) None replayed n
            (_layer0_result self) (Some layer1_result) None None None
            [("纯 API 直连成功，获取到 " ++ Str.of_Z n ++ " 条数据")%string;
             ("日期参数: " ++ repr_keys (dict_keys (date_params best)))%string]),
       self, trace)
  | LayerFailed _ _ => from_layer2 self trace
  end.

(** [extract_with_three_layers(network_requests, start_date, end_date)].
    The verification of the candidate of layer 0 is under no [try]: an
    exception of [verify_candidate] there leaves the chain. *)
Definition extract_with_three_layers (self : Extractor)
  (reqs : NetworkRequests) (start_date end_date : string) : Run :=
  let skip := from_layer1 self [] reqs start_date end_date in
  match browser w with
  | None => skip
  | Some b =>
      match page b with
      | None => skip
      | Some _ =>
          let layer0_result := _try_layer0_global_var_scan b in
          let trace := [Called 0] in
          let self :=
            mkSelf (self_candidates self) (Some layer0_result)
              (_layer1_result self) (_layer2_result self) (_layer3_result self)
              (_global_var_config self) in
          let next trace := from_layer1 self trace reqs start_date end_date in
          match layer0_result with
          | L0Failed _ => next trace
          | L0Found cfg _ =>
              match _build_candidate_from_global_var cfg with
              | None => next trace
              | Some candidate =>
                  match
                    verify_candidate trace candidate start_date end_date
                  with
                  | Raised exc => (Raised exc, self, trace)
                  | Returned (verify_result, trace) =>
                      if v_success verify_result then
                        let self :=
                          mkSelf (candidate :: self_candidates self)
                            (_layer0_result self) (_layer1_result self)
                            (_layer2_result self) (_layer3_result self)
                            (Some cfg) in
                        (Returned
                           (mkResult true 0%Z (self_candidates self)
                              (Some candidate) None
                              (v_parsed_data verify_result)
                              (v_data_count verify_result) (Some layer0_result)
                              None None None (Some cfg)
                              [("从全局变量 '" ++ var_name cfg ++ "' 直接获取 API 配置")%string;
                               ("日期参数: " ++ repr_keys (dict_keys (cfg_date_params cfg)))%string;
                               "这是最精准的方法，无需网络抓包或DOM操作"]),
                         self, trace)
                      else next trace
                  end
              end
          end
      end
  end.

End Layers.

(** ** Decoding a reply *)

(** [s[:-1]] *)
Fixpoint drop_last (s : string) : string :=
  match s with
  | EmptyString => EmptyString
  | String c s' =>
      match s' with
      | EmptyString => EmptyString
      | String _ _ => String c (drop_last s')
      end
  end.

(** The classes [[a-zA-Z_]] and [[a-zA-Z0-9_]] of the JSONP pattern. *)
Definition is_name_start (c : ascii) : bool :=
  Str.is_lower c || Str.is_upper c || Ascii.eqb c "_".

Definition is_name_char (c : ascii) : bool :=
  is_name_start c || Str.is_digit c.

(** What [[a-zA-Z0-9_]*] leaves of [s]. *)
Fixpoint after_name (s : string) : string :=
  match s with
  | EmptyString => EmptyString
  | String c s' => if is_name_char c then after_name s' else s
  end.

(** [\s*;?\s*$] matches the whole of [s]. *)
Definition is_jsonp_tail (s : string) : bool :=
  match Str.lstrip s with
  | String c t =>
      if Ascii.eqb c ";" then String.eqb (Str.lstrip t) EmptyString else false
  | EmptyString => true
  end.

(** The text before the last [)] of [s], and the text after it. *)
Fixpoint split_last_paren (s : string) : option (string * string) :=
  match s with
  | EmptyString => None
  | String c s' =>
      match split_last_paren s' with
      | Some (before, after) => Some (String c before, after)
      | None => if Ascii.eqb c ")" then Some (EmptyString, s') else None
      end
  end.

(** The group of the JSONP pattern of [_parse_response], when the pattern
    matches: a name, white space, an opening parenthesis, the group (any
    text, line ends included), a closing parenthesis, and a tail of white
    space with at most one semicolon.  The name and the white space are
    taken greedily, and the group ends at the last closing parenthesis, the
    only one that the tail can follow. *)
Definition jsonp_group (text : string) : option string :=
  match text with
  | EmptyString => None
  | String c t =>
      if is_name_start c then
        match Str.lstrip (after_name t) with
        | String p rest =>
            if Ascii.eqb p "(" then
              match split_last_paren rest with
              | Some (group, tail) =>
                  if is_jsonp_tail tail then Some group else None
              | None => None
              end
            else None
        | EmptyString => None
        end
      else None
  end.

Section Parse.
Context {L : PyLib}.

(** [_parse_response(text)]: [VNone] is the [None] of a text that is no
    JSON document. *)
Definition _parse_response (text : string) : pyval :=
  let text := Str.strip text in
  let text :=
    if Str.startswith "/**/" text then Str.strip (Str.drop 4 text) else text in
  let text :=
    if Str.startswith "?(" text && Str.endswith ")" text
    then drop_last (Str.drop 2 text) else text in
  let text :=
    match jsonp_group text with
    | Some group => group
    | None => text
    end in
  match json_loads text with
  | Some data => data
  | None => VNone
  end.

End Parse.

(** ** Layers 2 and 3

    The two layers drive the page and then work on the requests captured
    meanwhile.  The chain above takes what they return as it comes
    ([dom_layer], [vision_layer]); here their own code is followed.  What
    the page, the date picker and the LLM do is given; the analysis of the
    requests, the replays and the choice of the winner are the code of the
    layer. *)

(** The page as layer 2 meets it: the [picker_type] of the picker
    [_detect_date_picker] finds, whether [_operate_date_picker] succeeds,
    and the requests the browser hands over afterwards (or the exception it
    raises while it waits for them). *)
Record DomPage : Type := mkDomPage {
  detected : option string;
  operated : bool;
  captured : outcome NetworkRequests;
}.

(** The page and the LLM as layer 3 meets them: the screenshot, the fields
    [found] and [instruction] of the answer [_ask_llm_for_date_picker]
    returns, whether [_execute_llm_instruction] succeeds, and the requests
    captured afterwards. *)
Record VisionPage : Type := mkVisionPage {
  screenshot : outcome (option string);
  llm_found : bool;
  llm_instruction : string;
  executed : bool;
  captured_after : outcome NetworkRequests;
}.

(** The variables of the verification loop of [_try_layer2_dom_detect]. *)
Record Loop2 : Type := mkLoop2 {
  best_candidate2 : option DateAPICandidate;
  best_data_count2 : Z;
  last_error : pyval;
  loop2_trace : list event;
}.

Section PageLayers.
Context {L : PyLib}.
Variable w : World.

Definition layer2_step (start_date end_date : string) (st : Loop2)
  (candidate : DateAPICandidate) : outcome Loop2 :=
  answer <- verify_candidate w (loop2_trace st) candidate start_date end_date ;;
  let '(result, trace) := answer in
  Returned
    (if v_success result && (best_data_count2 st <? v_data_count result)%Z
     then mkLoop2 (Some candidate) (v_data_count result) (last_error st) trace
     else mkLoop2 (best_candidate2 st) (best_data_count2 st) (v_error result)
            trace).

Definition layer2_loop (start_date end_date : string) (trace : list event)
  (top : list DateAPICandidate) : Loop2 * option string :=
  loop_until_raise (layer2_step start_date end_date) top
    (mkLoop2 None 0%Z VNone trace).

(** [_try_layer2_dom_detect(start_date, end_date, log)] on the page [d]: its
    dictionary, the extractor and the trace after it.  [verify_candidate]
    leaves the candidate as it is, and this loop does not record the result
    in it.  The text of [last_error] is [py_str] of it.  An exception of
    [verify_candidate] is caught by the [except] of the layer, like one of
    the browser. *)
Definition _try_layer2_dom_detect (d : DomPage) (self : Extractor)
  (trace : list event) (start_date end_date : string)
  : LayerResult * Extractor * list event :=
  let not_ready := (LayerFailed "浏览器未就绪" "", self, trace) in
  match browser w with
  | None => not_ready
  | Some b =>
      match page b with
      | None => not_ready
      | Some _ =>
          match detected d with
          | None =>
              (LayerFailed
                 "未检测到常见日期控件（laydate/element-ui/ant-design/native）" "",
               self, trace)
          | Some picker_type =>
              if negb (operated d)
              then (LayerFailed "日期控件操作失败" picker_type, self, trace)
              else
                match captured d with
                | Raised msg =>
                    (LayerFailed ("第二层执行异常: " ++ msg)%string "", self, trace)
                | Returned new_requests =>
                    let candidates := analyze_requests new_requests in
                    let self := set_candidates candidates self in
                    match candidates with
                    | [] =>
                        (LayerFailed "操作日期控件后未捕获到新的日期 API 请求"
                           picker_type,
                         self, trace)
                    | _ =>
                        let '(st, raised) :=
                          layer2_loop start_date end_date trace
                            (firstn 3 candidates) in
                        match raised, best_candidate2 st with
                        | Some exc, _ =>
                            (LayerFailed ("第二层执行异常: " ++ exc)%string "",
                             self, loop2_trace st)
                        | None, Some best =>
                            (LayerFound best (best_data_count2 st)
                               (parsed_data_of best) picker_type,
                             self, loop2_trace st)
                        | None, None =>
                            (LayerFailed
                               ("捕获到的 API 验证失败: "
                                ++ py_str (last_error st))%string
                               picker_type,
                             self, loop2_trace st)
                        end
                    end
                end
          end
      end
  end.

(** The verification loop of [_try_layer3_llm_vision]: it returns at the
    first candidate that verifies with a non-zero item count, and an
    exception of [verify_candidate] ends it. *)
Fixpoint layer3_loop (start_date end_date : string) (trace : list event)
  (top : list DateAPICandidate)
  : outcome (option (DateAPICandidate * VerifyResult)) * list event :=
  match top with
  | [] => (Returned None, trace)
  | candidate :: rest =>
      match verify_candidate w trace candidate start_date end_date with
      | Raised exc => (Raised exc, trace)
      | Returned (result, trace) =>
          if v_success result && (0 <? v_data_count result)%Z
          then (Returned (Some (candidate, result)), trace)
          else layer3_loop start_date end_date trace rest
      end
  end.

(** [_try_layer3_llm_vision(start_date, end_date, log)] on the page [v]. *)
Definition _try_layer3_llm_vision (v : VisionPage) (self : Extractor)
  (trace : list event) (start_date end_date : string)
  : LayerResult * Extractor * list event :=
  let raised msg :=
    (LayerFailed ("第三层执行异常: " ++ msg)%string "", self, trace) in
  match browser w, llm w with
  | Some _, true =>
      match screenshot v with
      | Raised msg => raised msg
      | Returned shot =>
          if String.eqb (get_default shot "") ""
          then (LayerFailed "截图失败" "", self, trace)
          else if negb (llm_found v)
          then (LayerFailed "LLM 未识别到日期控件" (llm_instruction v), self, trace)
          else if negb (executed v)
          then (LayerFailed "按 LLM 指示操作失败" (llm_instruction v), self, trace)
          else
            match captured_after v with
            | Raised msg => raised msg
            | Returned new_requests =>
                let candidates := analyze_requests new_requests in
                let self := set_candidates candidates self in
                match candidates with
                | [] =>
                    (LayerFailed "按 LLM 指示操作后未捕获到日期 API"
                       (llm_instruction v),
                     self, trace)
                | _ =>
                    match
                      layer3_loop start_date end_date trace (firstn 3 candidates)
                    with
                    | (Raised exc, trace) =>
                        (LayerFailed ("第三层执行异常: " ++ exc)%string "",
                         self, trace)
                    | (Returned (Some (candidate, result)), trace) =>
                        (LayerFound candidate (v_data_count result)
                           (v_parsed_data result) (llm_instruction v),
                         self, trace)
                    | (Returned None, trace) =>
                        (LayerFailed "捕获的 API 验证失败" (llm_instruction v),
                         self, trace)
                    end
                end
            end
      end
  | _, _ => (LayerFailed "缺少浏览器或 LLM" "", self, trace)
  end.

(** [extract_date_api_with_three_layers(browser_controller, llm_agent,
    network_requests, start_date, end_date)]: a new extractor, and its
    chain. *)
Definition extract_date_api_with_three_layers (reqs : NetworkRequests)
  (start_date end_date : string) : Run :=
  extract_with_three_layers w fresh reqs start_date end_date.

End PageLayers.

(** ** A small instance of the library

    Enough of [urllib.parse] and [datetime] to run the extractor on plain
    inputs: URLs of the shape [scheme://netloc/path?query#fragment], query
    strings without escapes, dates written [YYYY-MM-DD], and UTC for the
    epoch: there [timestamp] raises for the first day of the calendar and
    for no other.  [json_loads] decodes no document: the runs below carry
    no JSON body. *)
Module Simple.

(** The text before the first [c], and the text after it when there is one. *)
Fixpoint split_at (c : ascii) (s : string) : string * option string :=
  match s with
  | EmptyString => (EmptyString, None)
  | String a s' =>
      if Ascii.eqb a c then (EmptyString, Some s')
      else let '(before, after) := split_at c s' in (String a before, after)
  end.

(** [s.split(c)] *)
Fixpoint split_all (c : ascii) (s : string) : list string :=
  match s with
  | EmptyString => [EmptyString]
  | String a s' =>
      if Ascii.eqb a c then EmptyString :: split_all c s'
      else
        match split_all c s' with
        | piece :: rest => String a piece :: rest
        | [] => [String a EmptyString]
        end
  end.

(** The scheme and what follows [://], when the text has one. *)
Fixpoint split_scheme (s : string) : option (string * string) :=
  match s with
  | EmptyString => None
  | String a s' =>
      if Str.startswith "://" s then Some (EmptyString, Str.drop 3 s)
      else
        match split_scheme s' with
        | Some (sch, rest) => Some (String a sch, rest)
        | None => None
        end
  end.

Definition urlparse (u : string) : Url.t :=
  let '(rest, frag) := split_at "#" u in
  let '(rest, qry) := split_at "?" rest in
  match split_scheme rest with
  | Some (sch, after) =>
      let '(host, tail) := split_at "/" after in
      Url.mk sch host
        (match tail with Some t => String "/" t | None => EmptyString end)
        EmptyString (get_default qry EmptyString) (get_default frag EmptyString)
  | None =>
      Url.mk EmptyString EmptyString rest EmptyString
        (get_default qry EmptyString) (get_default frag EmptyString)
  end.

Definition urlunparse (p : Url.t) : string :=
  ((if String.eqb (Url.netloc p) "" then "" else Url.scheme p ++ "://" ++ Url.netloc p)
   ++ Url.path p
   ++ (if String.eqb (Url.params p) "" then "" else ";" ++ Url.params p)
   ++ (if String.eqb (Url.query p) "" then "" else "?" ++ Url.query p)
   ++ (if String.eqb (Url.fragment p) "" then "" else "#" ++ Url.fragment p))%string.

Definition dict_append (k v : string) (d : dict (list string))
  : dict (list string) :=
  match dict_get k d with
  | Some l => dict_set k (l ++ [v]) d
  | None => dict_set k [v] d
  end.

Definition parse_qs (keep_blank_values : bool) (qs : string)
  : dict (list string) :=
  fold_left
    (fun d piece =>
       if String.eqb piece "" then d
       else
         let '(k, v) := split_at "=" piece in
         let v := get_default v EmptyString in
         if String.eqb v "" && negb keep_blank_values then d
         else dict_append k v d)
    (split_all "&" qs) [].

Definition encode_pair (kv : string * pyval) : list string :=
  match snd kv with
  | VList items => map (fun item => (fst kv ++ "=" ++ py_str item)%string) items
  | v => [(fst kv ++ "=" ++ py_str v)%string]
  end.

Definition urlencode (d : dict pyval) : string :=
  String.concat "&" (flat_map encode_pair d).

Definition digit_val (c : ascii) : Z := Z.of_nat (nat_of_ascii c - 48).

(** The value of a string of digits. *)
Fixpoint digits_value (acc : Z) (s : string) : option Z :=
  match s with
  | EmptyString => Some acc
  | String c s' =>
      if Str.is_digit c then digits_value (acc * 10 + digit_val c) s' else None
  end.

Definition leap (y : Z) : bool :=
  ((y mod 4 =? 0) && negb (y mod 100 =? 0) || (y mod 400 =? 0))%Z.

Definition days_in_month (y m : Z) : Z :=
  if (m =? 2)%Z then (if leap y then 29 else 28)%Z
  else if ((m =? 4) || (m =? 6) || (m =? 9) || (m =? 11))%Z then 30%Z
  else 31%Z.

Definition strptime (s : string) : option (Z * Z * Z) :=
  match split_all "-" s with
  | [ys; ms; ds] =>
      if ((String.length ys =? 4) && (String.length ms =? 2)
          && (String.length ds =? 2))%nat
      then
        match digits_value 0 ys, digits_value 0 ms, digits_value 0 ds with
        | Some y, Some m, Some d =>
            if ((1 <=? y) && (1 <=? m) && (m <=? 12) && (1 <=? d)
                && (d <=? days_in_month y m))%Z
            then Some (y, m, d) else None
        | _, _, _ => None
        end
      else None
  | _ => None
  end.

Definition pad (width : nat) (n : Z) : string :=
  let t := Str.of_Z n in
  (string_of_list_ascii (repeat "0"%char (width - String.length t)) ++ t)%string.

Fixpoint strftime_from (dt : Z * Z * Z) (fmt : string) : string :=
  match fmt with
  | String "%" (String "Y" rest) => (pad 4 (fst (fst dt)) ++ strftime_from dt rest)%string
  | String "%" (String "m" rest) => (pad 2 (snd (fst dt)) ++ strftime_from dt rest)%string
  | String "%" (String "d" rest) => (pad 2 (snd dt) ++ strftime_from dt rest)%string
  | String c rest => String c (strftime_from dt rest)
  | EmptyString => EmptyString
  end.

(** Days from 1970-01-01 to the date, in the proleptic Gregorian calendar. *)
Definition days_from_civil (dt : Z * Z * Z) : Z :=
  let '(y, m, d) := dt in
  let y := (if m <=? 2 then y - 1 else y)%Z in
  let era := (y / 400)%Z in
  let yoe := (y - era * 400)%Z in
  let mp := ((m + 9) mod 12)%Z in
  let doy := ((153 * mp + 2) / 5 + d - 1)%Z in
  let doe := (yoe * 365 + yoe / 4 - yoe / 100 + doy)%Z in
  (era * 146097 + doe - 719468)%Z.

(** [dt.timestamp()] under UTC: the conversion also looks one day back,
    which the first day of the year 1 does not have. *)
Definition timestamp (dt : Z * Z * Z) : outcome Z :=
  let '(y, m, d) := dt in
  if ((y =? 1) && (m =? 1) && (d =? 1))%Z
  then Raised "year 0 is out of range"
  else Returned (days_from_civil dt * 86400)%Z.

#[export] Instance lib : PyLib := {
  urlparse := urlparse;
  urlunparse := urlunparse;
  parse_qs := parse_qs;
  urlencode := urlencode;
  json_loads := fun _ => None;
  datetime := (Z * Z * Z)%type;
  strptime := strptime;
  strftime := strftime_from;
  timestamp := timestamp;
}.

End Simple.

(** * The vocabulary of the properties *)

(** The value is a JSON object. *)
Definition is_object (data : pyval) : bool :=
  match data with VDict _ => true | _ => false end.


(** The first list held under one of [keys]. *)
Fixpoint first_list (keys : list string) (d : dict pyval)
  : option (list pyval) :=
  match keys with
  | [] => None
  | key :: rest =>
      match dict_get key d with
      | Some (VList l) => Some l
      | _ => first_list rest d
      end
  end.

(** The lists found one level down: for each object held under one of
    [keys], in the order of the keys, the first list it holds under a data
    key. *)
Definition nested_lists (keys : list string) (d : dict pyval)
  : list (list pyval) :=
  flat_map
    (fun key =>
       match dict_get key d with
       | Some (VDict value) =>
           match first_list data_keys value with
           | Some l => [l]
           | None => []
           end
       | _ => []
       end)
    keys.

(** The item list of a response: the first list held under a data key;
    when no data key holds a list, the list found one level down (the last
    one, when several objects hold one); the empty list when there is
    none. *)
Definition counted_list (d : dict pyval) : list pyval :=
  match first_list data_keys d with
  | Some l => l
  | None => last (nested_lists data_keys d) []
  end.



(** One pagination bonus. *)
Definition add_005 (a : float) : float := (a + 0.05)%float.

(** The specification float is not NaN. *)
Definition sf_number (x : spec_float) : bool :=
  match x with S754_nan => false | _ => true end.

(** The float is a number: it is equal to itself. *)
Definition number (x : float) : bool := PrimFloat.eqb x x.

(** [a] does not come below [b]: its confidence is not the smaller one. *)
Definition not_below (a b : DateAPICandidate) : Prop :=
  PrimFloat.ltb (confidence a) (confidence b) = false.

(** Every confidence of the list is a number. *)
Definition numbered (l : list DateAPICandidate) : Prop :=
  forall c, In c l -> number (confidence c) = true.

(** The item count a verified candidate carries. *)
Definition count_of (c : DateAPICandidate) : Z :=
  match verification_result c with
  | Some r => v_data_count r
  | None => 0%Z
  end.

(** The candidate verified with a non-zero item count and passes the
    sanity filter. *)
Definition passes (c : DateAPICandidate) : bool :=
  match verification_result c with
  | Some r => v_success r && (0 <? v_data_count r)%Z
  | None => false
  end
  && fst (_looks_like_real_date_filter c).

Section ReplayOfTheTop.
Context {L : PyLib}.
Variable w : World.
Variables start_date end_date : string.

(** The candidates at the head of [top] whose request can be built, each
    with its request, and the exception of the first one whose request
    cannot: a loop over [top] replays the former and stops at the latter. *)
Fixpoint replayable (top : list DateAPICandidate)
  : list (DateAPICandidate * HttpRequest) * option string :=
  match top with
  | [] => ([], None)
  | c :: rest =>
      match replay_request w c start_date end_date with
      | Raised exc => ([], Some exc)
      | Returned r =>
          let '(sent, exc) := replayable rest in ((c, r) :: sent, exc)
      end
  end.

(** The result of the replay [r] when [n] replays were sent before. *)
Definition verify_at (n : nat) (r : HttpRequest) : VerifyResult :=
  verify_outcome (http w n r).

(** The candidates of [sent] as their verification leaves them, the first
    one verified after [n] replays. *)
Fixpoint verified_from (n : nat) (sent : list (DateAPICandidate * HttpRequest))
  : list DateAPICandidate :=
  match sent with
  | [] => []
  | (c, r) :: rest =>
      with_verification c (verify_at n r) :: verified_from (S n) rest
  end.

End ReplayOfTheTop.

(** The replays of the candidates of [sent], in order. *)
Definition replay_events (sent : list (DateAPICandidate * HttpRequest))
  : list event :=
  map (fun cr => Replayed (snd cr)) sent.

(** What the loop knows of the candidates it has verified so far: the best
    one passes, none before it passes with as many items, none after it
    with more. *)
Definition best_inv (st : Loop1) : Prop :=
  match best_so_far st with
  | None =>
      best_data_count st = 0%Z
      /\ forall c, In c (verified st) -> passes c = false
  | Some b =>
      passes b = true /\ count_of b = best_data_count st
      /\ exists pre post,
           verified st = pre ++ b :: post
           /\ (forall c, In c pre -> passes c = true -> (count_of c < count_of b)%Z)
           /\ (forall c, In c post -> passes c = true -> (count_of c <= count_of b)%Z)
  end.

(** The parameter is replayed as a range: its captured value is an array,
    or its name is one of the range names. *)
Definition range_like (c : DateAPICandidate) (name : string) : bool :=
  is_list (dict_get name (params c))
  || Str.mem (Str.lower name) ["sedate"; "daterange"; "date_range"].

(** The [strftime] directive of a calendar format of [DATE_VALUE_PATTERNS],
    and the number of units in a second of an epoch format. *)
Definition calendar_formats : dict string :=
  [ ("YYYY-MM-DD", "%Y-%m-%d"); ("YYYYMMDD", "%Y%m%d");
    ("YYYY/MM/DD", "%Y/%m/%d"); ("YYYY-MM-DD HH:MM:SS", "%Y-%m-%d 00:00:00") ].

Definition epoch_formats : dict Z :=
  [ ("timestamp_s", 1%Z); ("timestamp_ms", 1000%Z) ].

Section InFormat.
Context {L : PyLib}.

(** The day [dt] written in the format named [fmt]: the day itself for a
    calendar format, the epoch of its midnight for an epoch format.  There
    is none for another name, and none when the day has no epoch. *)
Definition in_format (dt : datetime) (fmt : string) : option string :=
  match dict_get fmt calendar_formats, dict_get fmt epoch_formats with
  | Some directive, _ => Some (strftime dt directive)
  | None, Some units =>
      match timestamp dt with
      | Returned seconds => Some (Str.of_Z (seconds * units))
      | Raised _ => None
      end
  | None, None => None
  end.

(** The format is an epoch format, and the text is a day without epoch:
    what makes [format_date] raise. *)
Definition no_epoch (date_str fmt : string) : option string :=
  match dict_get fmt epoch_formats, strptime date_str with
  | Some _, Some dt =>
      match timestamp dt with
      | Raised exc => Some exc
      | Returned _ => None
      end
  | _, _ => None
  end.

End InFormat.

(** Layer 1 ran and found an API: this is what it left in the extractor. *)
Definition layer1_succeeded (self : Extractor) : bool :=
  match _layer1_result self with
  | Some r => l_success r
  | None => false
  end.

Definition is_call (n : nat) (e : event) : bool :=
  match e with
  | Called m => (m =? n)%nat
  | Replayed _ => false
  end.

(** The layer [n] was entered. *)
Definition called (n : nat) (trace : list event) : bool :=
  existsb (is_call n) trace.

(** What a success of layer 1 makes of the rest of the chain. *)
Definition stopped_at_layer1 (run : Run) : Prop :=
  exists r,
    fst (fst run) = Returned r
    /\ success r = true /\ layer r = 1%Z
    /\ layer1_result r = _layer1_result (snd (fst run))
    /\ best_candidate r
       = match _layer1_result (snd (fst run)) with
         | Some l => l_best_candidate l
         | None => None
         end
    /\ layer2_result r = None /\ layer3_result r = None
    /\ called 2 (snd run) = false /\ called 3 (snd run) = false.


(** The names of the date formats, in the order of [DATE_VALUE_PATTERNS]. *)
Definition date_format_names : list string := map snd DATE_VALUE_PATTERNS.

(** The key is none of the noise names. *)
Definition not_noise (k : string) : bool :=
  negb (Str.mem (Str.lower k) _noise_param_names).

(** A pattern made of literal characters and optional separators only. *)
Definition literal_pattern (p : list Re.atom) : bool :=
  forallb (fun a => match a with
                    | Re.AChar _ | Re.AOptSep => true
                    | _ => false
                    end) p.

(** The lower-case texts such a pattern matches. *)
Fixpoint expansions (p : list Re.atom) : list string :=
  match p with
  | [] => [EmptyString]
  | Re.AChar c :: p' => map (String (Str.lower_char c)) (expansions p')
  | Re.AOptSep :: p' =>
      map (String "_"%char) (expansions p')
      ++ map (String "-"%char) (expansions p') ++ expansions p'
  | _ :: _ => []
  end.

(** No value of the dictionary is an array. *)
Definition scalar_values (ps : dict pyval) : bool :=
  forallb (fun kv => negb (is_list (Some (snd kv)))) ps.

(** The confidence lies between [lo] and [hi]. *)
Definition confidence_within (lo hi : float) (c : DateAPICandidate) : Prop :=
  PrimFloat.leb lo (confidence c) = true /\ PrimFloat.leb (confidence c) hi = true.

(** The resource type of a request lets [analyze_requests] look at it. *)
Definition analysable (req : Request) : bool :=
  allowed_resource_type (get_default (req_resourceType req) "").

(** A JavaScript name, as the JSONP pattern reads it. *)
Definition is_name (s : string) : bool :=
  match s with
  | EmptyString => false
  | String c t => is_name_start c && forallb is_name_char (list_ascii_of_string t)
  end.

Section Decoded.
Context {L : PyLib}.

(** [json.loads(text)], [None] when it raises. *)
Definition decoded (text : string) : pyval :=
  match json_loads text with
  | Some data => data
  | None => VNone
  end.

End Decoded.

(** The number of date parameters of a configuration, counted up to two:
    what the choice of [best_config] looks at. *)
Definition date_param_rank (config : GlobalVarAPIConfig) : nat :=
  Nat.min 2 (List.length (cfg_date_params config)).

(** The candidates of [sent] with the results of their replays, the first
    one replayed when [n] replays were sent before. *)
Fixpoint verdicts_from (w : World) (n : nat)
  (sent : list (DateAPICandidate * HttpRequest))
  : list (DateAPICandidate * VerifyResult) :=
  match sent with
  | [] => []
  | (c, r) :: rest => (c, verify_at w n r) :: verdicts_from w (S n) rest
  end.

(** The replay of the candidate succeeded. *)
Definition verified_pair (cr : DateAPICandidate * VerifyResult) : bool :=
  v_success (snd cr).

(** The item count of the replay of the candidate. *)
Definition pair_count (cr : DateAPICandidate * VerifyResult) : Z :=
  v_data_count (snd cr).

(** What the loop of layer 2 knows of the candidates it has replayed so
    far. *)
Definition best_inv2 (st : Loop2)
  (done : list (DateAPICandidate * VerifyResult)) : Prop :=
  match best_candidate2 st with
  | None =>
      best_data_count2 st = 0%Z
      /\ forall cr, In cr done -> verified_pair cr = false
  | Some b =>
      exists pre r post,
        done = pre ++ (b, r) :: post
        /\ v_success r = true /\ best_data_count2 st = v_data_count r
        /\ (0 < v_data_count r)%Z
        /\ (forall cr, In cr pre -> verified_pair cr = true ->
            (pair_count cr < v_data_count r)%Z)
        /\ (forall cr, In cr post -> verified_pair cr = true ->
            (pair_count cr <= v_data_count r)%Z)
  end.

(** A result as the chain builds it: a success names a layer from 0 to 3
    and a best candidate and no error; a failure has the layer -1, the
    fixed error, no candidate, no data and five recommendations. *)
Definition consistent_result (r : DateAPIExtractionResult) : Prop :=
  if success r
  then (0 <= layer r <= 3)%Z /\ (exists c, best_candidate r = Some c)
       /\ error r = None
  else layer r = (-1)%Z /\ best_candidate r = None
       /\ error r = Some "四层策略均失败" /\ data_count r = 0%Z
       /\ replayed_data r = None
       /\ List.length (recommendations r) = 5%nat.

(** The layers entered, in the order of the trace. *)
Definition layers_called (trace : list event) : list nat :=
  flat_map (fun e => match e with Called n => [n] | Replayed _ => [] end) trace.

(** The result of a run that returned; the empty failure stands for a run
    that raised. *)
Definition returned_result (run : Run) : DateAPIExtractionResult :=
  match fst (fst run) with
  | Returned r => r
  | Raised _ =>
      mkResult false (-1)%Z [] None None None 0%Z None None None None None []
  end.

(** * The inputs of the examples *)

Definition two_records : pyval :=
  VList [VDict [("id", VInt 1)]; VDict [("id", VInt 2)]].

(** A captured API request: a POST to a bulletin query with a date range
    and two pagination parameters. *)
Definition bulletin_request : Request :=
  mkRequest
    (Some "https://site/api/bulletin/query?startDate=2024-01-01&endDate=2024-01-31&page=1&pageSize=10")
    (Some "POST") None (Some "xhr") None.

(** A request fired by a timer, of the initiator type [other], with three
    date parameters and no path hint: its confidence is negative. *)
Definition timer_request : Request :=
  mkRequest
    (Some "https://site/v1/items?startDate=2024-01-01&endDate=2024-01-31&pubDate=2024-01-15")
    (Some "GET") None (Some "xhr")
    (Some (mkInitiator "other" [mkFrame "setInterval" "https://site/static/app.js"])).

(** A page object that holds an API URL and nothing else, as the generic
    scan reports it. *)
Definition bare_config : GlobalVarAPIConfig :=
  mkConfig "apiConfig" "https://www.example.com/api/list" [] [] "YYYY-MM-DD"
    false [("source", VStr "generic_scan")].

Definition three_items : pyval :=
  VDict [("data", VList [VInt 1; VInt 2; VInt 3])].



Definition no_picker : PageLayer :=
  mkPageLayer
    (LayerFailed "未检测到常见日期控件（laydate/element-ui/ant-design/native）" "")
    None.

(** A browser whose page holds [bare_config]; the endpoint answers every
    call with three items. *)
Definition bare_world : World :=
  mkWorld "2024-03-01" (fun _ _ => HttpReplied 200 three_items)
    (Some (mkBrowser
             (Some (mkPage "https://www.example.com/list.html"
                      (EvalReturned (Some (mkScan true [bare_config] (Some VNone))))))
             NoHook))
    false no_picker no_picker.

(** A page in which the scan finds nothing: the script returns its result
    object untouched, with [error] still [null]. *)
Definition empty_scan : ScanResult := mkScan false [] (Some VNone).

(** A browser with such a page and no date picker, no captured request,
    and no LLM. *)
Definition silent_world : World :=
  mkWorld "2024-03-01" (fun _ _ => HttpRaised "connection refused")
    (Some (mkBrowser
             (Some (mkPage "https://www.example.com/list.html"
                      (EvalReturned (Some empty_scan))))
             NoHook))
    false no_picker no_picker.

(** Two captured requests with a date range: the first scores higher, the
    second returns more items. *)
Definition two_requests : NetworkRequests :=
  mkNetwork
    [mkRequest
       (Some "https://site/api/query?startDate=2024-01-01&endDate=2024-01-31&page=1")
       (Some "GET") None (Some "xhr") None;
     mkRequest
       (Some "https://site/x?startDate=2024-01-01&endDate=2024-01-31")
       (Some "GET") None (Some "xhr") None]
    [].

Definition items (n : nat) : pyval :=
  VDict [("data", VList (repeat (VInt 0) n))].



(** The announcement list of the Shenzhen exchange: a POST whose [seDate]
    was captured as a pair of dates. *)
Definition annlist_candidate : DateAPICandidate :=
  mkCandidate "https://www.szse.cn/api/disc/announcement/annList" "POST"
    [("seDate", VList [VStr "2024-01-01"; VStr "2024-01-01"]);
     ("pageSize", VStr "30"); ("pageNum", VStr "1")]
    [("seDate", "YYYY-MM-DD")] "" 0.95%float "xhr" false None.

(** The run of the specification: one captured GET with a date range, no
    browser, and an endpoint that answers with five items. *)
Definition captured_range : NetworkRequests :=
  mkNetwork
    [mkRequest
       (Some "https://site/x?startDate=2024-01-01&endDate=2024-01-31&pageNo=1")
       (Some "GET") None None None]
    [].

Definition five_items_world : World :=
  mkWorld "2024-03-01" (fun _ _ => HttpReplied 200 (items 5)) None false
    no_picker no_picker.

(** The world of the two requests, with a browser and an LLM. *)
Definition two_world_with_page : World :=
  mkWorld "2024-03-01"
    (fun _ r => if Str.contains "/api/query" (h_url r)
                then HttpReplied 200 (items 5)
                else HttpReplied 200 (items 10))
    (Some (mkBrowser (Some (mkPage "https://site/list.html" (EvalReturned None)))
             NoHook))
    true no_picker no_picker.

(** A page whose date picker is found and operated, after which the browser
    holds the two requests. *)
Definition picked : DomPage :=
  mkDomPage (Some "laydate") true (Returned two_requests).

(** A page in which the LLM finds the picker, with the same requests
    captured after the operation. *)
Definition seen : VisionPage :=
  mkVisionPage (Returned (Some "/9j/4AAQSkZJRg")) true "fill the two dates" true
    (Returned two_requests).

(** The candidate request analysis builds for [bulletin_request]. *)
Definition bulletin_candidate : DateAPICandidate :=
  mkCandidate
    "https://site/api/bulletin/query?startDate=2024-01-01&endDate=2024-01-31&page=1&pageSize=10"
    "POST"
    [("startDate", VStr "2024-01-01"); ("endDate", VStr "2024-01-31");
     ("page", VStr "1"); ("pageSize", VStr "10")]
    [("startDate", "YYYY-MM-DD"); ("endDate", "YYYY-MM-DD")]
    "" 0.9%float "xhr" false None.

(** The small library, with a [json.loads] that decodes the empty object and
    nothing else. *)
Definition empty_object_lib : PyLib := {|
  urlparse := Simple.urlparse;
  urlunparse := Simple.urlunparse;
  parse_qs := Simple.parse_qs;
  urlencode := Simple.urlencode;
  json_loads := fun text => if String.eqb text "{}" then Some (VDict []) else None;
  datetime := (Z * Z * Z)%type;
  strptime := Simple.strptime;
  strftime := Simple.strftime_from;
  timestamp := Simple.timestamp;
|}.

(** A page object with a start and an end date. *)
Definition ranged_config : GlobalVarAPIConfig :=
  mkConfig "searchParams" "https://www.example.com/api/search"
    [("startDate", VStr ""); ("endDate", VStr "")]
    [("startDate", VStr ""); ("endDate", VStr ""); ("pageSize", VInt 20)]
    "YYYY-MM-DD" false [("source", VStr "generic_scan")].

(** The candidate layer 0 builds from it: the name of the object holds
    [search], so the method is POST. *)
Definition ranged_candidate : DateAPICandidate :=
  mkCandidate "https://www.example.com/api/search" "POST"
    [("startDate", VStr ""); ("endDate", VStr ""); ("pageSize", VInt 20)]
    [("startDate", "YYYY-MM-DD"); ("endDate", "YYYY-MM-DD")]
    "" 0.95%float "global_var" false None.

(** A browser whose page holds [bare_config] and [ranged_config], in this
    order. *)
Definition two_configs_browser : Browser :=
  mkBrowser
    (Some (mkPage "https://www.example.com/list.html"
             (EvalReturned
                (Some (mkScan true [bare_config; ranged_config] (Some VNone))))))
    NoHook.

(** A call the XHR hook recorded, and the configuration read off it. *)
Definition hooked_record : InterceptRecord :=
  mkIntercept
    (Some "https://site/api/list?startDate=2024-01-01&endDate=2024-01-31")
    (Some "xhr") (Some "GET") (Some "at onSearch (app.js:10)").

Definition hooked_config : GlobalVarAPIConfig :=
  mkConfig "intercepted_xhr" "https://site/api/list"
    [("startDate", VStr "YYYY-MM-DD"); ("endDate", VStr "YYYY-MM-DD")]
    [("startDate", VStr "2024-01-01"); ("endDate", VStr "2024-01-31")]
    "YYYY-MM-DD" false
    [("source", VStr "xhr_fetch_hook");
     ("call_stack", VStr "at onSearch (app.js:10)");
     ("http_method", VStr "GET")].

(** The parameter maps [build_replay_url] builds for the announcement list
    and for the bulletin request, on the range of the examples. *)
Definition annlist_replay_params : dict pyval :=
  [("seDate", VList [VStr "2024-02-01"; VStr "2024-02-05"]);
   ("pageSize", VStr "30"); ("pageNum", VStr "1");
   ("pageHelp.pageNo", VStr "1")].

Definition bulletin_replay_params : dict pyval :=
  [("startDate", VStr "2024-02-01"); ("endDate", VStr "2024-02-05");
   ("page", VStr "1"); ("pageSize", VStr "10");
   ("pageHelp.pageNo", VStr "1")].

(** A JSONP query of the Shanghai exchange, and the parameter map of its
    replay. *)
Definition sse_candidate : DateAPICandidate :=
  mkCandidate "https://query.sse.com.cn/security/stock/queryCompanyBulletin.do"
    "GET"
    [("jsonCallBack", VStr "jsonpCallback89"); ("beginDate", VStr "2024-01-01");
     ("endDate", VStr "2024-01-31")]
    [("beginDate", "YYYY-MM-DD"); ("endDate", "YYYY-MM-DD")]
    "" 0.9%float "xhr" false None.

Definition sse_replay_params : dict pyval :=
  [("jsonCallBack", VStr "jsonCallback"); ("beginDate", VStr "2024-02-01");
   ("endDate", VStr "2024-02-05"); ("pageHelp.pageNo", VStr "1");
   ("pageHelp.pageSize", VStr "25")].

(** Two captured requests: the first carries its range as days, the second
    as epochs in seconds. *)
Definition days_and_epochs : NetworkRequests :=
  mkNetwork
    [mkRequest
       (Some "https://site/api/query?startDate=2024-01-01&endDate=2024-01-31&page=1")
       (Some "GET") None (Some "xhr") None;
     mkRequest
       (Some "https://site/x?startTime=1704067200&endTime=1706659200")
       (Some "GET") None (Some "xhr") None]
    [].

(** A page object whose dates are epochs in seconds, and a browser whose
    page holds it. *)
Definition epoch_config : GlobalVarAPIConfig :=
  mkConfig "searchParams" "https://www.example.com/api/search"
    [("startTime", VStr ""); ("endTime", VStr "")]
    [("startTime", VStr ""); ("endTime", VStr "")]
    "timestamp_s" false [("source", VStr "generic_scan")].

Definition epoch_world : World :=
  mkWorld "2024-03-01" (fun _ _ => HttpReplied 200 three_items)
    (Some (mkBrowser
             (Some (mkPage "https://www.example.com/list.html"
                      (EvalReturned (Some (mkScan true [epoch_config] (Some VNone))))))
             NoHook))
    false no_picker no_picker.

(** A page whose scan script raises, in a browser whose hook recorded a
    call with epochs. *)
Definition hooked_epoch_world : World :=
  mkWorld "2024-03-01" (fun _ _ => HttpReplied 200 three_items)
    (Some (mkBrowser
             (Some (mkPage "https://www.example.com/list.html"
                      (EvalRaised "page closed")))
             (HookRecords
                [mkIntercept
                   (Some "https://site/api/list?startTime=1704067200&endTime=1706659200")
                   (Some "xhr") (Some "GET") None])))
    false no_picker no_picker.



(** * Properties *)

(** ** Dictionaries *)

Section DictFacts.
Context {V : Type}.

Lemma dict_get_set_same (k : string) (v : V) (d : dict V) :
  dict_get k (dict_set k v d) = Some v.
Proof.
  induction d as [|[k' v'] d IH]; simpl.
  - now rewrite String.eqb_refl.
  - destruct (String.eqb k' k) eqn:E; simpl; rewrite E; auto.
Qed.

Lemma dict_get_set_other (k k' : string) (v : V) (d : dict V) :
  k' <> k -> dict_get k (dict_set k' v d) = dict_get k d.
Proof.
  intros Hne. induction d as [|[k0 v0] d IH]; simpl.
  - destruct (String.eqb k' k) eqn:E; auto.
    apply String.eqb_eq in E. contradiction.
  - destruct (String.eqb k0 k') eqn:E; simpl.
    + apply String.eqb_eq in E. subst k0.
      destruct (String.eqb k' k) eqn:E'; auto.
      apply String.eqb_eq in E'. contradiction.
    + now rewrite IH.
Qed.

Lemma dict_set_not_nil (k : string) (v : V) (d : dict V) :
  dict_set k v d <> [].
Proof.
  destruct d as [|[k' v'] d]; simpl; [discriminate|].
  destruct (String.eqb k' k); discriminate.
Qed.

Lemma dict_set_length_ge (k : string) (v : V) (d : dict V) :
  (List.length d <= List.length (dict_set k v d))%nat.
Proof.
  induction d as [|[k' v'] d IH]; simpl; [lia|].
  destruct (String.eqb k' k); simpl; lia.
Qed.

End DictFacts.

(** ** The sanity filter of the recogniser *)

Lemma identify_one_noise (key : string) (value : pyval) :
  Str.mem (Str.lower key) _noise_param_names = true ->
  identify_one key value = None.
Proof.
  intros Hn. unfold identify_one. now rewrite Hn.
Qed.

Lemma identify_step_keeps_absent (key : string) (acc : dict string)
  (kv : string * pyval) :
  Str.mem (Str.lower key) _noise_param_names = true ->
  dict_get key acc = None ->
  dict_get key (identify_step acc kv) = None.
Proof.
  intros Hn Hacc. unfold identify_step.
  destruct (identify_one (fst kv) (snd kv)) as [fmt|] eqn:E; [|exact Hacc].
  rewrite dict_get_set_other; [exact Hacc|].
  intros Heq. rewrite Heq, (identify_one_noise key (snd kv) Hn) in E.
  discriminate.
Qed.

Lemma identify_fold_keeps_absent (key : string) (ps : dict pyval) :
  Str.mem (Str.lower key) _noise_param_names = true ->
  forall acc, dict_get key acc = None ->
  dict_get key (fold_left identify_step ps acc) = None.
Proof.
  intros Hn. induction ps as [|kv ps IH]; intros acc Hacc; simpl.
  - exact Hacc.
  - apply IH. now apply identify_step_keeps_absent.
Qed.

(** C4. Whatever the parameter map, a key whose lower-case form is one of
    the noise names ([_], [__], [_t], [t], [ts], [timestamp], [_timestamp],
    [_ts]) is not a key of the date parameters [_identify_date_params]
    returns, whatever its value is. *)
Theorem noise_names_are_never_date_params (ps : dict pyval) (key : string) :
  Str.mem (Str.lower key) _noise_param_names = true ->
  dict_get key (_identify_date_params ps) = None.
Proof.
  intros Hn. unfold _identify_date_params.
  now apply identify_fold_keeps_absent.
Qed.

(** The cache-buster [_] with a 13-digit value: the value has the shape of
    a millisecond epoch, and the key is left out all the same. *)
Lemma underscore_epoch_is_rejected :
  value_format "1700000000000" = Some "timestamp_ms" /\
  dict_get "_"
    (_identify_date_params
       [("_", VStr "1700000000000"); ("startDate", VStr "2024-01-01")]) = None.
Proof.
  split; [reflexivity|].
  apply noise_names_are_never_date_params. reflexivity.
Defined.

(** The same value under a key that names a time is accepted. *)
Example epoch_under_time_key :
  _identify_date_params [("time", VStr "1700000000000")]
  = [("time", "timestamp_ms")].
Proof. reflexivity. Qed.

(** ** The response validator *)

Lemma count_inner_nonneg (keys : list string) (value : dict pyval) (n : Z) :
  (0 <= n)%Z -> (0 <= count_inner keys value n)%Z.
Proof.
  induction keys as [|k keys IH]; cbn [count_inner]; intros Hn; [exact Hn|].
  destruct (dict_get k value) as [[| | | |l|]|]; auto. lia.
Qed.

Lemma count_outer_nonneg (keys : list string) (data : dict pyval) :
  forall n, (0 <= n)%Z -> (0 <= count_outer keys data n)%Z.
Proof.
  induction keys as [|k keys IH]; cbn [count_outer]; intros n Hn; [exact Hn|].
  destruct (dict_get k data) as [[| | | |l|value]|]; auto; [lia|].
  apply IH. now apply count_inner_nonneg.
Qed.

Lemma page_help_count_nonneg (data : dict pyval) (n : Z) :
  (0 <= n)%Z -> (0 <= page_help_count data n)%Z.
Proof.
  intros Hn. unfold page_help_count.
  destruct (dict_get "pageHelp" data) as [[| | | | |ph]|]; auto.
  set (m := match get_default (dict_get "data" ph) (VList []) with
            | VList data_list => Z.max n (Z.of_nat (List.length data_list))
            | _ => n
            end).
  assert (Hm : (0 <= m)%Z).
  { subst m. destruct (get_default (dict_get "data" ph) (VList [])); lia. }
  destruct (as_int (get_default (dict_get "total" ph) (VInt 0))) as [total|]; auto.
  destruct (0 <? total)%Z; lia.
Qed.

Lemma count_items_nonneg (data : dict pyval) : (0 <= count_items data)%Z.
Proof.
  unfold count_items. apply page_help_count_nonneg.
  apply count_outer_nonneg. lia.
Qed.














(** The item list is the first list under a data key, also when it is
    empty and a later key holds items. *)
Example an_empty_first_list_is_the_item_list :
  _validate_response (VDict [("data", VList []); ("result", VList [VInt 1])])
  = (false, 0%Z, VStr "响应中未找到数据列表或列表为空")
  /\ counted_list [("data", VList []); ("result", VList [VInt 1])] = [].
Proof. split; reflexivity. Qed.

Example success_false_is_refused :
  _validate_response
    (VDict [("success", VBool false); ("data", VList [VInt 1])])
  = (false, 0%Z, VStr "API 返回 success=false").
Proof. reflexivity. Qed.

Example error_code_is_refused :
  _validate_response (VDict [("code", VInt 500); ("data", VList [VInt 1])])
  = (false, 0%Z, VStr "API 返回错误码: 500").
Proof. reflexivity. Qed.

(** C10. A response that is not an object, a top-level array of any length
    included, is refused with the count 0; and [verify_candidate] reports
    success only for a reply with status 200 whose body is an object. *)
Theorem non_object_response_is_refused (data : pyval) :
  is_object data = false ->
  fst (fst (_validate_response data)) = false
  /\ snd (fst (_validate_response data)) = 0%Z
  /\ snd (_validate_response data) <> VNone
  /\ v_success (verify_outcome (HttpReplied 200 data)) = false
  /\ v_data_count (verify_outcome (HttpReplied 200 data)) = 0%Z.
Proof.
  destruct data; unfold verify_outcome, _validate_response; cbn [is_object];
    intros H; try discriminate; repeat split; discriminate.
Qed.

Lemma array_of_records_is_refused :
  fst (fst (_validate_response two_records)) = false
  /\ snd (fst (_validate_response two_records)) = 0%Z
  /\ snd (_validate_response two_records) <> VNone
  /\ v_success (verify_outcome (HttpReplied 200 two_records)) = false
  /\ v_data_count (verify_outcome (HttpReplied 200 two_records)) = 0%Z.
Proof.
  exact (non_object_response_is_refused two_records eq_refl).
Defined.

Example array_of_records_reason :
  _validate_response two_records = (false, 0%Z, VStr "响应不是对象格式").
Proof. reflexivity. Qed.

Lemma valid_response_is_an_object (data : pyval) :
  fst (fst (_validate_response data)) = true ->
  exists d, data = VDict d /\ (0 < snd (fst (_validate_response data)))%Z.
Proof.
  destruct data as [| b | z | s | l | d]; unfold _validate_response;
    cbn [fst snd]; try discriminate.
  destruct (success_is_false d); [discriminate|].
  destruct (bad_code d); [discriminate|].
  pose proof (count_items_nonneg d) as Hnn.
  destruct (count_items d =? 0)%Z eqn:E0; cbn [fst snd]; [discriminate|].
  apply Z.eqb_neq in E0. intros _. exists d. split; [reflexivity|lia].
Qed.

Lemma verified_reply_is_an_object (o : HttpOutcome) :
  v_success (verify_outcome o) = true ->
  exists d, o = HttpReplied 200 (VDict d)
            /\ (0 < v_data_count (verify_outcome o))%Z.
Proof.
  destruct o as [msg|status data]; cbn [verify_outcome v_success];
    [discriminate|].
  destruct (status =? 200)%Z eqn:E; cbn [negb v_success]; [|discriminate].
  apply Z.eqb_eq in E. subst status.
  pose proof (valid_response_is_an_object data) as H.
  destruct (_validate_response data) as [[ok n] err].
  cbn [v_success v_data_count fst snd] in *. intros Hok.
  destruct (H Hok) as (d & -> & Hn). exists d. split; [reflexivity|exact Hn].
Qed.

(** ** The confidence scorer *)

Section ScoringFacts.
Context {L : PyLib}.

(** The pagination bonus is [+0.05] taken at most six times. *)
Lemma pagination_score_iter (x : float) (ps : dict pyval) :
  exists k, (k <= 6)%nat /\ pagination_score x ps = Nat.iter k add_005 x.
Proof.
  unfold pagination_score, common_api_params. cbn [fold_left].
  generalize (map Str.lower (dict_keys ps)). intros lowered.
  repeat match goal with
         | |- context [if Str.mem ?a lowered then _ else _] =>
             destruct (Str.mem a lowered)
         end;
    first [ exists 0%nat; split; [lia | reflexivity]
          | exists 1%nat; split; [lia | reflexivity]
          | exists 2%nat; split; [lia | reflexivity]
          | exists 3%nat; split; [lia | reflexivity]
          | exists 4%nat; split; [lia | reflexivity]
          | exists 5%nat; split; [lia | reflexivity]
          | exists 6%nat; split; [lia | reflexivity] ].
Qed.

Ltac pagination_cases k Hk :=
  match goal with
  | |- context [pagination_score ?x ?ps] =>
      let E := fresh "E" in
      destruct (pagination_score_iter x ps) as (k & Hk & E);
      rewrite E; clear E
  end.

Ltac upto_six k Hk :=
  do 7 (destruct k as [|k]; [vm_compute; reflexivity|]); exfalso; lia.

(** The clamp of the scorer: what [_calculate_confidence] returns is at
    most 1.0. *)
Lemma calculate_confidence_at_most_one (u m : string) (ps : dict pyval)
  (dps : dict string) :
  PrimFloat.leb (_calculate_confidence u m ps dps) 1.0 = true.
Proof.
  unfold _calculate_confidence. pagination_cases k Hk. unfold count_score.
  destruct (List.length dps =? 2)%nat, (List.length dps =? 1)%nat,
    (2 <? List.length dps)%nat, (noise_only dps),
    (existsb (fun p => Re.search true p (Str.lower (Url.path (urlparse u))))
       API_PATH_PATTERNS),
    (Str.any_in bulletin_tokens (Str.lower (Url.path (urlparse u)))),
    (String.eqb m "POST"); upto_six k Hk.
Qed.

Lemma not_noise_only (dps : dict string) :
  forallb (fun k => negb (Str.mem (Str.lower k) _noise_param_names))
    (dict_keys dps) = true ->
  dps <> [] -> noise_only dps = false.
Proof.
  unfold noise_only. destruct dps as [|[k f] dps]; [congruence|].
  cbn [dict_keys map forallb fst]. intros H _.
  apply andb_true_iff in H. destruct H as [H _].
  destruct (Str.mem (Str.lower k) _noise_param_names); [discriminate|reflexivity].
Qed.

(** C7. A POST request with exactly two recognised date parameters, none of
    them a noise name, whose path holds a bulletin token, scores strictly
    more than a GET request with exactly one date parameter whose path
    matches no API-path pattern and holds no bulletin token, whatever the
    other parameters of the two are. *)
Theorem bulletin_post_outscores_plain_get
  (uA : string) (psA : dict pyval) (dpsA : dict string)
  (uB : string) (psB : dict pyval) (dpsB : dict string) :
  List.length dpsA = 2%nat ->
  forallb (fun k => negb (Str.mem (Str.lower k) _noise_param_names))
    (dict_keys dpsA) = true ->
  Str.any_in bulletin_tokens (Str.lower (Url.path (urlparse uA))) = true ->
  List.length dpsB = 1%nat ->
  existsb (fun p => Re.search true p (Str.lower (Url.path (urlparse uB))))
    API_PATH_PATTERNS = false ->
  Str.any_in bulletin_tokens (Str.lower (Url.path (urlparse uB))) = false ->
  PrimFloat.ltb (_calculate_confidence uB "GET" psB dpsB)
    (_calculate_confidence uA "POST" psA dpsA) = true.
Proof.
  intros HlenA HnoiseA HbulA HlenB HpathB HbulB.
  assert (HnA : noise_only dpsA = false).
  { apply not_noise_only; [exact HnoiseA|].
    intros ->. discriminate. }
  unfold _calculate_confidence.
  rewrite HlenA, HnA, HbulA, HlenB, HpathB, HbulB.
  pagination_cases kB HkB. pagination_cases kA HkA.
  cbn [count_score Nat.eqb Nat.ltb Nat.leb String.eqb Ascii.eqb Bool.eqb].
  destruct (noise_only dpsB),
    (existsb (fun p => Re.search true p (Str.lower (Url.path (urlparse uA))))
       API_PATH_PATTERNS);
    do 7 (destruct kB as [|kB];
          [do 7 (destruct kA as [|kA]; [vm_compute; reflexivity|]);
           exfalso; lia|]);
    exfalso; lia.
Qed.

End ScoringFacts.

(** The two requests of the scoring property, scored. *)
Lemma bulletin_post_outscores_plain_get_witness :
  PrimFloat.ltb
    (_calculate_confidence (L := Simple.lib) "https://site/x?date=2024-01-01"
       "GET" [("date", VStr "2024-01-01")] [("date", "YYYY-MM-DD")])
    (_calculate_confidence (L := Simple.lib)
       "https://site/bulletin/latest?startDate=2024-01-01&endDate=2024-01-31"
       "POST"
       [("startDate", VStr "2024-01-01"); ("endDate", VStr "2024-01-31")]
       [("startDate", "YYYY-MM-DD"); ("endDate", "YYYY-MM-DD")])
  = true.
Proof.
  apply (bulletin_post_outscores_plain_get (L := Simple.lib)); reflexivity.
Defined.

Example scores_of_the_two_requests :
  _calculate_confidence (L := Simple.lib) "https://site/x?date=2024-01-01"
    "GET" [("date", VStr "2024-01-01")] [("date", "YYYY-MM-DD")]
  = 0.2%float
  /\ _calculate_confidence (L := Simple.lib)
       "https://site/bulletin/latest?startDate=2024-01-01&endDate=2024-01-31"
       "POST"
       [("startDate", VStr "2024-01-01"); ("endDate", VStr "2024-01-31")]
       [("startDate", "YYYY-MM-DD"); ("endDate", "YYYY-MM-DD")]
     = 0.7000000000000001%float.
Proof. vm_compute. split; reflexivity. Qed.

(** ** Candidates and their confidence after request analysis *)

Section AnalysisFacts.
Context {L : PyLib}.

(** A request without a recognised date parameter yields no candidate, and
    a candidate built from a request has a date parameter. *)
Lemma analyzed_request_has_date_params (req : Request) (c : DateAPICandidate) :
  _analyze_single_request req = Some c -> date_params c <> [].
Proof.
  unfold _analyze_single_request.
  destruct (String.eqb (get_default (req_url req) "") ""); [discriminate|].
  destruct (_identify_date_params _) as [|kv dps] eqn:E; [discriminate|].
  intros H. injection H as <-. cbn [date_params]. discriminate.
Qed.

End AnalysisFacts.

(** C5 (the code departs from it). The scorer clamps at 1.0, but
    [analyze_requests] adds [0.2] to an API request after the clamp: the one
    candidate of this capture has the confidence 1.1. *)
Theorem api_request_confidence_exceeds_one :
  map confidence
    (analyze_requests (L := Simple.lib) (mkNetwork [] [bulletin_request]))
  = [1.1%float]
  /\ PrimFloat.leb 1.1 1.0 = false
  /\ map (fun r => option_map confidence (_analyze_single_request (L := Simple.lib) r))
       [bulletin_request]
     = [Some 0.9%float].
Proof. vm_compute. repeat split; reflexivity. Qed.

Example penalised_confidence_is_negative :
  map confidence
    (analyze_requests (L := Simple.lib) (mkNetwork [timer_request] []))
  = [(-0.2)%float]
  /\ PrimFloat.ltb (-0.2) 0 = true.
Proof. vm_compute. split; reflexivity. Qed.

(** ** Layer 0 and a configuration without date parameters *)

(** C3 (the code departs from it). [_build_candidate_from_global_var] builds
    a candidate for a configuration without any date parameter; its
    [date_params] is empty, and the chain returns it as the winner of
    layer 0. *)
Theorem global_var_candidate_without_date_params :
  option_map date_params
    (_build_candidate_from_global_var (L := Simple.lib) bare_world bare_config)
  = Some []
  /\ match extract_with_three_layers (L := Simple.lib) bare_world fresh
             (mkNetwork [] []) "2024-02-01" "2024-02-05" with
     | (Returned r, _, trace) =>
         success r = true /\ layer r = 0%Z /\ data_count r = 3%Z
         /\ option_map date_params (best_candidate r) = Some []
         /\ map date_params (candidates r) = [[]]
         /\ trace
            = [Called 0;
               Replayed (mkHttp "GET"
                 "https://www.example.com/api/list?pageHelp.pageNo=1&pageHelp.pageSize=25"
                 [])]
     | (Raised _, _, _) => False
     end.
Proof. vm_compute. repeat split; reflexivity. Qed.

(** ** The chain and exceptions *)

(** C1 (the code departs from it). When the scan of layer 0 finds nothing,
    the [error] of its dictionary is [None]; when the later layers fail too,
    the concatenation that builds the first recommendation raises a
    [TypeError], which leaves [extract_with_three_layers]. *)
Theorem total_failure_raises_type_error :
  _try_layer0_global_var_scan (L := Simple.lib)
    (mkBrowser (Some (mkPage "https://www.example.com/list.html"
                        (EvalReturned (Some empty_scan)))) NoHook)
  = L0Failed VNone
  /\ extract_with_three_layers (L := Simple.lib) silent_world fresh
       (mkNetwork [] []) "2024-02-01" "2024-02-05"
     = (Raised "TypeError",
        mkSelf [] (Some (L0Failed VNone))
          (Some (LayerFailed "未在网络请求中发现日期相关的 API" ""))
          (Some (returned no_picker)) None None,
        [Called 0; Called 1; Called 2]).
Proof. vm_compute. split; reflexivity. Qed.

(** With a scan that fails with a message the same run returns a result. *)
Example total_failure_with_message_returns :
  match extract_with_three_layers (L := Simple.lib)
          (mkWorld "2024-03-01" (fun _ _ => HttpRaised "connection refused")
             (Some (mkBrowser
                      (Some (mkPage "https://www.example.com/list.html"
                               (EvalRaised "page closed")))
                      NoHook))
             false no_picker no_picker)
          fresh (mkNetwork [] []) "2024-02-01" "2024-02-05" with
  | (Returned r, _, _) =>
      success r = false /\ layer r = (-1)%Z
      /\ nth 0 (recommendations r) "" = "全局变量扫描失败: page closed"
  | (Raised _, _, _) => False
  end.
Proof. vm_compute. repeat split; reflexivity. Qed.

(** ** The order of the candidates *)

Section OrderFacts.
Context {L : PyLib}.

Lemma compare_cont_Eq_antisym (p q : positive) :
  Pos.compare_cont Eq q p = CompOpp (Pos.compare_cont Eq p q).
Proof.
  change (Pos.compare_cont Eq q p) with (Pos.compare q p).
  change (Pos.compare_cont Eq p q) with (Pos.compare p q).
  apply Pos.compare_antisym.
Qed.

Lemma SFcompare_antisym (x y : spec_float) :
  SFcompare y x = option_map CompOpp (SFcompare x y).
Proof.
  destruct x as [sx|sx| |sx mx ex], y as [sy|sy| |sy my ey];
    cbn [SFcompare option_map];
    try reflexivity;
    try (destruct sx; reflexivity); try (destruct sy; reflexivity);
    try (destruct sx, sy; reflexivity).
  destruct sx, sy; cbn [CompOpp]; try reflexivity;
    rewrite (Z.compare_antisym ex ey);
    destruct (ex ?= ey)%Z; cbn [CompOpp]; try reflexivity;
    rewrite (compare_cont_Eq_antisym mx my);
    try reflexivity; now rewrite CompOpp_involutive.
Qed.

(** [<] on floats is asymmetric. *)
Lemma float_ltb_asym (x y : float) :
  PrimFloat.ltb x y = true -> PrimFloat.ltb y x = false.
Proof.
  rewrite !ltb_spec. unfold SFltb.
  rewrite (SFcompare_antisym (Prim2SF x) (Prim2SF y)).
  destruct (SFcompare (Prim2SF x) (Prim2SF y)) as [[| |]|]; cbn; congruence.
Qed.

Ltac compare_cases :=
  repeat match goal with
         | |- context [Pos.compare_cont Eq ?a ?b] =>
             change (Pos.compare_cont Eq a b) with (Pos.compare a b)
         end;
  repeat match goal with
         | |- context [(?a ?= ?b)%Z] =>
             destruct (Z.compare_spec a b); try subst
         end;
  repeat match goal with
         | |- context [(?a ?= ?b)%positive] =>
             destruct (Pos.compare_spec a b); try subst
         end;
  cbn [CompOpp]; try reflexivity; try (intros; discriminate);
  try (intros; lia).

Lemma SF_not_lt_trans (x y z : spec_float) :
  sf_number x = true -> sf_number y = true -> sf_number z = true ->
  SFltb x y = false -> SFltb y z = false -> SFltb x z = false.
Proof.
  unfold SFltb.
  destruct x as [sx|sx| |sx mx ex], y as [sy|sy| |sy my ey],
    z as [sz|sz| |sz mz ez]; cbn [sf_number SFcompare];
    intros Hx Hy Hz; try discriminate; clear Hx Hy Hz; try reflexivity;
    try (destruct sx; try reflexivity; try discriminate);
    try (destruct sy; try reflexivity; try discriminate);
    try (destruct sz; try reflexivity; try discriminate);
    try (intros; reflexivity); try (intros; discriminate).
  all: compare_cases.
Qed.

Lemma number_sf (x : float) : number x = true -> sf_number (Prim2SF x) = true.
Proof.
  unfold number. rewrite eqb_spec. unfold SFeqb.
  destruct (Prim2SF x); cbn; congruence.
Qed.

(** On numbers, not being smaller is transitive. *)
Lemma float_not_lt_trans (x y z : float) :
  number x = true -> number y = true -> number z = true ->
  PrimFloat.ltb x y = false -> PrimFloat.ltb y z = false ->
  PrimFloat.ltb x z = false.
Proof.
  rewrite !ltb_spec. intros Hx Hy Hz.
  apply SF_not_lt_trans; now apply number_sf.
Qed.

Lemma insert_desc_perm (c : DateAPICandidate) (l : list DateAPICandidate) :
  Permutation (insert_desc c l) (c :: l).
Proof.
  induction l as [|d l IH]; cbn [insert_desc]; [reflexivity|].
  destruct (PrimFloat.ltb (confidence c) (confidence d)); [|reflexivity].
  rewrite IH. apply perm_swap.
Qed.

Lemma sort_desc_perm (l : list DateAPICandidate) :
  Permutation (sort_desc l) l.
Proof.
  induction l as [|c l IH]; cbn [sort_desc fold_right]; [reflexivity|].
  fold (sort_desc l). rewrite insert_desc_perm. now constructor.
Qed.

Lemma insert_desc_sorted (c : DateAPICandidate) (l : list DateAPICandidate) :
  numbered (c :: l) ->
  StronglySorted not_below l -> StronglySorted not_below (insert_desc c l).
Proof.
  induction l as [|d l IH]; intros Hnum Hs; cbn [insert_desc].
  - repeat constructor.
  - inversion Hs as [|? ? Hs' Hall]; subst.
    destruct (PrimFloat.ltb (confidence c) (confidence d)) eqn:E.
    + constructor.
      * apply IH; [|exact Hs'].
        intros x [<-|Hx]; apply Hnum; [now left|now right; right].
      * apply (Permutation_Forall (Permutation_sym (insert_desc_perm c l))).
        constructor; [|exact Hall].
        unfold not_below. now apply float_ltb_asym.
    + constructor; [exact Hs|]. constructor; [exact E|].
      rewrite Forall_forall in Hall |- *. intros x Hx.
      unfold not_below in *.
      apply (float_not_lt_trans _ (confidence d)); auto;
        apply Hnum; [now left|now right; left|now right; right].
Qed.

Lemma sort_desc_sorted (l : list DateAPICandidate) :
  numbered l -> StronglySorted not_below (sort_desc l).
Proof.
  induction l as [|c l IH]; intros Hnum; cbn [sort_desc fold_right];
    [constructor|].
  fold (sort_desc l). apply insert_desc_sorted.
  - intros x [<-|Hx]; apply Hnum; [now left|].
    right. now apply (Permutation_in _ (sort_desc_perm l)).
  - apply IH. intros x Hx. apply Hnum. now right.
Qed.


(** Every confidence the analysis produces is a number: the score and
    each adjustment added to it, by cases. *)
Lemma adjusted_confidence_is_number (u m : string) (ps : dict pyval)
  (dps : dict string) (api i1 i2 i3 : bool) :
  let x := _calculate_confidence u m ps dps in
  let x := if api then (x + 0.2)%float else x in
  let x := if i1 then (x + 0.15)%float else x in
  let x := if i2 then (x - 0.2)%float else x in
  let x := if i3 then (x - 0.1)%float else x in
  number x = true.
Proof.
  cbv zeta. unfold _calculate_confidence.
  match goal with
  | |- context [pagination_score ?x ?ps] =>
      destruct (pagination_score_iter x ps) as (k & Hk & E);
      rewrite E; clear E
  end.
  unfold count_score.
  destruct (List.length dps =? 2)%nat, (List.length dps =? 1)%nat,
    (2 <? List.length dps)%nat, (noise_only dps),
    (existsb (fun p => Re.search true p (Str.lower (Url.path (urlparse u))))
       API_PATH_PATTERNS),
    (Str.any_in bulletin_tokens (Str.lower (Url.path (urlparse u)))),
    (String.eqb m "POST"), api, i1, i2, i3;
    do 7 (destruct k as [|k]; [vm_compute; reflexivity|]); exfalso; lia.
Qed.

Lemma analyzed_confidence (req : Request) (c : DateAPICandidate) :
  _analyze_single_request req = Some c ->
  exists u m ps dps, confidence c = _calculate_confidence u m ps dps.
Proof.
  unfold _analyze_single_request.
  destruct (String.eqb (get_default (req_url req) "") ""); [discriminate|].
  destruct (_identify_date_params _) as [|kv dps]; [discriminate|].
  intros H. injection H as <-. cbn [confidence]. eauto.
Qed.

Lemma bonus_is_number (req : Request) (c : DateAPICandidate)
  (u m : string) (ps : dict pyval) (dps : dict string) (api : bool) :
  confidence c
  = (if api then (_calculate_confidence u m ps dps + 0.2)%float
     else _calculate_confidence u m ps dps) ->
  number (confidence (_apply_initiator_bonus c req)) = true.
Proof.
  intros Hc. unfold _apply_initiator_bonus.
  destruct (req_initiator req) as [initiator|].
  - cbn [with_confidence confidence]. rewrite Hc.
    apply (adjusted_confidence_is_number u m ps dps api).
  - rewrite Hc.
    apply (adjusted_confidence_is_number u m ps dps api false false false).
Qed.

Lemma analyze_api_numbered (acc : list DateAPICandidate) (req : Request) :
  numbered acc -> numbered (analyze_api acc req).
Proof.
  intros Hacc. unfold analyze_api.
  destruct (_analyze_single_request req) as [c|] eqn:E; [|exact Hacc].
  destruct (analyzed_confidence req c E) as (u & m & ps & dps & Hc).
  intros x Hx. apply in_app_or in Hx. destruct Hx as [Hx|[<-|[]]];
    [now apply Hacc|].
  apply (bonus_is_number req _ u m ps dps true).
  cbn [with_confidence confidence]. now rewrite Hc.
Qed.

Lemma analyze_all_numbered (st : list DateAPICandidate * list string)
  (req : Request) :
  numbered (fst st) -> numbered (fst (analyze_all st req)).
Proof.
  destruct st as [acc urls]. cbn [fst]. intros Hacc. unfold analyze_all.
  destruct (Str.mem _ urls); [exact Hacc|].
  destruct (negb _); [exact Hacc|].
  destruct (_analyze_single_request req) as [c|] eqn:E; [|exact Hacc].
  destruct (analyzed_confidence req c E) as (u & m & ps & dps & Hc).
  cbn [fst]. intros x Hx. apply in_app_or in Hx.
  destruct Hx as [Hx|[<-|[]]]; [now apply Hacc|].
  now apply (bonus_is_number req _ u m ps dps false).
Qed.

Lemma discovered_numbered (reqs : NetworkRequests) :
  numbered (discovered reqs).
Proof.
  unfold discovered.
  assert (Hapi : forall l acc, numbered acc ->
                 numbered (fold_left analyze_api l acc)).
  { induction l as [|r l IH]; intros acc Hacc; cbn [fold_left]; auto.
    apply IH. now apply analyze_api_numbered. }
  assert (Hall : forall l st, numbered (fst st) ->
                 numbered (fst (fold_left analyze_all l st))).
  { induction l as [|r l IH]; intros st Hst; cbn [fold_left]; auto.
    apply IH. now apply analyze_all_numbered. }
  apply Hall. cbn [fst]. apply Hapi. intros c [].
Qed.

(** [analyze_requests] returns the discovered candidates, the greatest
    confidence first. *)
Lemma analyze_requests_sorted (reqs : NetworkRequests) :
  Permutation (analyze_requests reqs) (discovered reqs)
  /\ StronglySorted not_below (analyze_requests reqs).
Proof.
  split; [apply sort_desc_perm|].
  apply sort_desc_sorted, discovered_numbered.
Qed.

End OrderFacts.

(** ** Layer 1: which candidates are verified, and which one wins *)

Section Layer1Facts.
Context {L : PyLib}.
Variable w : World.
Variables start_date end_date : string.

Lemma replays_app (t1 t2 : list event) :
  replays (t1 ++ t2) = (replays t1 + replays t2)%nat.
Proof.
  unfold replays. now rewrite filter_app, length_app.
Qed.

Lemma replays_snoc (trace : list event) (r : HttpRequest) :
  replays (trace ++ [Replayed r]) = S (replays trace).
Proof.
  rewrite replays_app. cbn. apply Nat.add_1_r.
Qed.

(** [verify_candidate] raises what the replay builder raises, before it
    sends anything; else it sends the request, once. *)
Lemma verify_candidate_cases (trace : list event) (c : DateAPICandidate) :
  verify_candidate w trace c start_date end_date
  = match replay_request w c start_date end_date with
    | Raised exc => Raised exc
    | Returned request =>
        Returned (verify_at w (replays trace) request,
                  trace ++ [Replayed request])
    end.
Proof.
  unfold verify_candidate, verify_at.
  destruct (replay_request w c start_date end_date); reflexivity.
Qed.

Lemma passes_count_pos (c : DateAPICandidate) :
  passes c = true -> (0 < count_of c)%Z.
Proof.
  unfold passes, count_of. destruct (verification_result c) as [r|].
  - intros H. apply andb_true_iff in H. destruct H as [H _].
    apply andb_true_iff in H. destruct H as [_ H]. now apply Z.ltb_lt in H.
  - discriminate.
Qed.

Lemma best_inv_count_nonneg (st : Loop1) :
  best_inv st -> (0 <= best_data_count st)%Z.
Proof.
  unfold best_inv. destruct (best_so_far st) as [b|].
  - intros (Hp & Hc & _). apply passes_count_pos in Hp. lia.
  - intros (-> & _). lia.
Qed.

(** One turn of the loop, by cases. *)
Lemma layer1_step_cases (st : Loop1) (c : DateAPICandidate) :
  layer1_step w start_date end_date st c
  = match replay_request w c start_date end_date with
    | Raised exc => Raised exc
    | Returned request =>
        let r := verify_at w (replays (loop_trace st)) request in
        let c' := with_verification c r in
        let trace := loop_trace st ++ [Replayed request] in
        let kept :=
          mkLoop1 (best_so_far st) (best_data_count st) (verified st ++ [c'])
            trace in
        Returned
          (if v_success r && (best_data_count st <? v_data_count r)%Z
           then if fst (_looks_like_real_date_filter c')
                then mkLoop1 (Some c') (v_data_count r) (verified st ++ [c'])
                       trace
                else kept
           else kept)
    end.
Proof.
  unfold layer1_step. rewrite verify_candidate_cases.
  destruct (replay_request w c start_date end_date) as [request|exc];
    [|reflexivity].
  cbv zeta. cbn [bind].
  destruct (v_success _ && _); [|reflexivity].
  destruct (_looks_like_real_date_filter _) as [ok reason].
  destruct ok; reflexivity.
Qed.

(** A turn that sends its request keeps what the loop knows. *)
Lemma layer1_turn_inv (st : Loop1) (c : DateAPICandidate) (r : VerifyResult)
  (trace : list event) :
  best_inv st ->
  let c' := with_verification c r in
  let kept :=
    mkLoop1 (best_so_far st) (best_data_count st) (verified st ++ [c']) trace in
  best_inv
    (if v_success r && (best_data_count st <? v_data_count r)%Z
     then if fst (_looks_like_real_date_filter c')
          then mkLoop1 (Some c') (v_data_count r) (verified st ++ [c']) trace
          else kept
     else kept).
Proof.
  intros Hinv. pose proof (best_inv_count_nonneg st Hinv) as Hnn. cbv zeta.
  remember (with_verification c r) as c' eqn:Ec'.
  assert (Hcount : count_of c' = v_data_count r) by (subst c'; reflexivity).
  assert (Hpass : passes c'
                  = v_success r && (0 <? v_data_count r)%Z
                    && fst (_looks_like_real_date_filter c'))
    by (subst c'; reflexivity).
  clear Ec'.
  (* a candidate that does not become the best leaves the best in place *)
  assert (Hkeep : (passes c' = true -> (count_of c' <= best_data_count st)%Z) ->
                  forall t,
                  best_inv (mkLoop1 (best_so_far st) (best_data_count st)
                              (verified st ++ [c']) t)).
  { intros Hle t. unfold best_inv in *.
    cbn [best_so_far best_data_count verified].
    destruct (best_so_far st) as [b|].
    - destruct Hinv as (Hp & Hc & pre & post & Hsplit & Hpre & Hpost).
      split; [exact Hp|]. split; [exact Hc|].
      exists pre, (post ++ [c']). rewrite Hsplit, <- app_assoc.
      split; [reflexivity|]. split; [exact Hpre|].
      intros x Hx Hpx. apply in_app_or in Hx. destruct Hx as [Hx|[<-|[]]].
      + now apply Hpost.
      + rewrite Hc. now apply Hle.
    - destruct Hinv as (H0 & Hnone). split; [exact H0|].
      intros x Hx. apply in_app_or in Hx. destruct Hx as [Hx|[<-|[]]].
      + now apply Hnone.
      + destruct (passes c') eqn:E; [|reflexivity].
        pose proof (passes_count_pos c' E). specialize (Hle eq_refl). lia. }
  destruct (v_success r && (best_data_count st <? v_data_count r)%Z) eqn:Econd.
  - destruct (fst (_looks_like_real_date_filter c')) eqn:Esane.
    + (* the new best *)
      apply andb_true_iff in Econd. destruct Econd as [Hs Hlt].
      apply Z.ltb_lt in Hlt.
      assert (Hp : passes c' = true).
      { rewrite Hpass, Hs. cbn [andb].
        apply andb_true_iff. split; [apply Z.ltb_lt; lia|reflexivity]. }
      unfold best_inv. cbn [best_so_far best_data_count verified].
      split; [exact Hp|]. split; [exact Hcount|].
      exists (verified st), []. split; [reflexivity|]. split; [|intros x []].
      intros x Hx Hpx. rewrite Hcount. unfold best_inv in Hinv.
      destruct (best_so_far st) as [b|].
      * destruct Hinv as (_ & Hc & pre & post & Hsplit & Hpre & Hpost).
        rewrite Hsplit in Hx. apply in_app_or in Hx.
        destruct Hx as [Hx|[<-|Hx]].
        -- specialize (Hpre x Hx Hpx). lia.
        -- lia.
        -- specialize (Hpost x Hx Hpx). lia.
      * destruct Hinv as (_ & Hnone). rewrite (Hnone x Hx) in Hpx. discriminate.
    + apply Hkeep. rewrite Hpass, andb_false_r. discriminate.
  - apply Hkeep. rewrite Hpass, Hcount. intros Hp.
    apply andb_true_iff in Hp. destruct Hp as [Hp _].
    apply andb_true_iff in Hp. destruct Hp as [Hs _].
    rewrite Hs in Econd. cbn [andb] in Econd. now apply Z.ltb_ge in Econd.
Qed.

(** The loop replays the candidates whose request can be built, up to the
    first whose request cannot, which ends it. *)
Lemma layer1_loop_spec (top : list DateAPICandidate) :
  forall st, best_inv st ->
  let sent := fst (replayable w start_date end_date top) in
  let left := loop_until_raise (layer1_step w start_date end_date) top st in
  best_inv (fst left)
  /\ loop_trace (fst left) = loop_trace st ++ replay_events sent
  /\ verified (fst left)
     = verified st ++ verified_from w (replays (loop_trace st)) sent
  /\ snd left = snd (replayable w start_date end_date top).
Proof.
  induction top as [|c top IH]; intros st Hinv; cbv zeta.
  - cbn [replayable loop_until_raise fst snd replay_events map verified_from].
    rewrite !app_nil_r. auto.
  - cbn [replayable loop_until_raise]. rewrite layer1_step_cases.
    destruct (replay_request w c start_date end_date) as [request|exc].
    + cbv beta iota zeta.
      match goal with
      | |- context [loop_until_raise _ top ?s] => set (st1 := s)
      end.
      assert (Hinv1 : best_inv st1) by now apply layer1_turn_inv.
      assert (Htr : loop_trace st1 = loop_trace st ++ [Replayed request]).
      { subst st1. destruct (v_success _ && _); [|reflexivity].
        destruct (fst (_looks_like_real_date_filter _)); reflexivity. }
      assert (Hver : verified st1
                     = verified st
                       ++ [with_verification c
                             (verify_at w (replays (loop_trace st)) request)]).
      { subst st1. destruct (v_success _ && _); [|reflexivity].
        destruct (fst (_looks_like_real_date_filter _)); reflexivity. }
      destruct (IH st1 Hinv1) as (H1 & H2 & H3 & H4).
      destruct (replayable w start_date end_date top) as [sent exc].
      cbn [fst snd replay_events map verified_from] in *.
      rewrite H2, H3, Htr, Hver, replays_snoc, <- !app_assoc.
      auto.
    + cbn [fst snd replay_events map verified_from]. rewrite !app_nil_r. auto.
Qed.

Lemma replayable_length (top : list DateAPICandidate) :
  (List.length (fst (replayable w start_date end_date top))
   <= List.length top)%nat.
Proof.
  induction top as [|c top IH]; cbn [replayable]; [reflexivity|].
  destruct (replay_request w c start_date end_date); cbn; [|lia].
  destruct (replayable w start_date end_date top). cbn in *. lia.
Qed.

(** When no request fails to build, every candidate is replayed; and the
    candidates replayed are always the first ones of the list. *)
Lemma replayable_prefix (top : list DateAPICandidate) :
  (exists rest,
     top = map fst (fst (replayable w start_date end_date top)) ++ rest)
  /\ (snd (replayable w start_date end_date top) = None ->
      map fst (fst (replayable w start_date end_date top)) = top).
Proof.
  induction top as [|c top [[rest IH1] IH2]]; cbn [replayable].
  - split; [now exists []|reflexivity].
  - destruct (replay_request w c start_date end_date) as [r|exc].
    + destruct (replayable w start_date end_date top) as [sent e].
      cbn [fst snd map] in *. split.
      * exists rest. cbn [app]. now rewrite <- IH1.
      * intros He. now rewrite IH2.
    + cbn [fst snd map]. split; [now exists (c :: top)|discriminate].
Qed.

Lemma verified_from_length (sent : list (DateAPICandidate * HttpRequest)) :
  forall n, List.length (verified_from w n sent) = List.length sent.
Proof.
  induction sent as [|[c r] sent IH]; intros n; cbn; [reflexivity|].
  now rewrite IH.
Qed.

(** What layer 1 leaves: the trace and the candidates. *)
Lemma layer1_leaves (self : Extractor) (trace : list event)
  (reqs : NetworkRequests) :
  let sent :=
    fst (replayable w start_date end_date (firstn 3 (analyze_requests reqs))) in
  let vs := verified_from w (replays trace) sent in
  snd (_try_layer1_api_direct w self trace reqs start_date end_date)
  = trace ++ replay_events sent
  /\ self_candidates
       (snd (fst (_try_layer1_api_direct w self trace reqs start_date end_date)))
     = vs ++ skipn (List.length vs) (analyze_requests reqs).
Proof.
  cbv zeta. unfold _try_layer1_api_direct.
  destruct (analyze_requests reqs) as [|c0 cands].
  - cbn. now rewrite app_nil_r.
  - set (top := firstn 3 (c0 :: cands)).
    assert (H0 : best_inv (mkLoop1 None 0%Z [] trace)).
    { unfold best_inv. cbn. split; [reflexivity|intros c []]. }
    destruct (layer1_loop_spec top _ H0) as (_ & Htr & Hver & _).
    unfold layer1_loop.
    destruct (loop_until_raise _ top _) as [st raised].
    cbn [fst snd loop_trace verified app] in *.
    destruct raised as [exc|]; [|destruct (best_so_far st)];
      cbn [fst snd self_candidates]; rewrite Htr, Hver; auto.
Qed.


(** The trace layer 1 leaves: the replays it sent. *)
Lemma layer1_trace (self : Extractor) (trace : list event)
  (reqs : NetworkRequests) :
  snd (_try_layer1_api_direct w self trace reqs start_date end_date)
  = trace
    ++ replay_events
         (fst (replayable w start_date end_date
                 (firstn 3 (analyze_requests reqs)))).
Proof.
  apply layer1_leaves.
Qed.


End Layer1Facts.


(** ** The replay builder *)

Section ReplayFacts.
Context {L : PyLib}.

(** A property every turn keeps holds when the loop returns. *)
Lemma fold_outcome_inv {A B : Type} (P : A -> Prop) (f : A -> B -> outcome A)
  (l : list B) :
  (forall a b a', In b l -> P a -> f a b = Returned a' -> P a') ->
  forall a a', P a -> fold_outcome f l a = Returned a' -> P a'.
Proof.
  induction l as [|b l IH]; intros Hstep a a' Ha; cbn [fold_outcome].
  - intros H. injection H as <-. exact Ha.
  - destruct (f a b) as [a1|exc] eqn:E; cbn [bind]; [|discriminate].
    apply IH.
    + intros a0 b0 a0' Hin. apply Hstep. now right.
    + apply (Hstep a b a1); [now left|exact Ha|exact E].
Qed.


Lemma calendar_format_is_no_epoch_format (fmt directive : string) :
  dict_get fmt calendar_formats = Some directive ->
  dict_get fmt epoch_formats = None.
Proof.
  unfold calendar_formats, epoch_formats. cbn [dict_get].
  repeat match goal with
         | |- context [String.eqb ?k fmt] =>
             destruct (String.eqb_spec k fmt) as [<-|?];
             [cbn; intros; first [reflexivity | discriminate]|]
         end.
  discriminate.
Qed.

(** [format_date] by cases: a text that is no day comes back as it is; a day
    comes back in the format, or as it was written when the format is none
    of the six; and for an epoch format a day without epoch gives the
    exception of [timestamp]. *)
Lemma format_date_cases (date_str fmt : string) :
  format_date date_str fmt
  = match strptime date_str with
    | None => Returned date_str
    | Some dt =>
        match no_epoch date_str fmt with
        | Some exc => Raised exc
        | None => Returned (get_default (in_format dt fmt) date_str)
        end
    end.
Proof.
  unfold format_date, no_epoch.
  destruct (strptime date_str) as [dt|]; [|reflexivity].
  unfold in_format, calendar_formats, epoch_formats. cbn [dict_get].
  rewrite !(String.eqb_sym fmt).
  repeat match goal with
         | |- context [String.eqb ?k fmt] =>
             destruct (String.eqb_spec k fmt) as [<-|?];
             [cbn; try destruct (timestamp dt); cbn; rewrite ?Z.mul_1_r;
              reflexivity|]
         end.
  reflexivity.
Qed.

(** A day that has a text in the format is formatted to that text. *)
Lemma format_date_in_format (date_str fmt : string) (dt : datetime)
  (text : string) :
  strptime date_str = Some dt -> in_format dt fmt = Some text ->
  format_date date_str fmt = Returned text.
Proof.
  intros Hdt Hin. rewrite format_date_cases, Hdt. unfold no_epoch. rewrite Hdt.
  unfold in_format in Hin.
  destruct (dict_get fmt calendar_formats) as [directive|] eqn:Ec.
  - rewrite (calendar_format_is_no_epoch_format _ _ Ec).
    unfold in_format. rewrite Ec. injection Hin as <-. reflexivity.
  - destruct (dict_get fmt epoch_formats) as [units|] eqn:Ee; [|discriminate].
    destruct (timestamp dt) as [seconds|exc] eqn:Et; [|discriminate].
    unfold in_format. rewrite Ec, Ee, Et. injection Hin as <-. reflexivity.
Qed.


(** One turn of the substitution loop, by cases. *)
Lemma substitute_cases (c : DateAPICandidate) (start_date end_date : string)
  (acc : dict pyval) (name fmt : string) :
  substitute c start_date end_date acc (name, fmt)
  = if range_like c name
    then first <- format_date start_date fmt ;;
         second <- format_date end_date fmt ;;
         Returned (dict_set name (VList [VStr first; VStr second]) acc)
    else new_value <-
           format_date
             (if Str.any_in ["start"; "begin"; "from"] (Str.lower name)
              then start_date
              else if Str.any_in ["end"; "to"] (Str.lower name)
                   then end_date else start_date) fmt ;;
         Returned (dict_set name (VStr new_value) acc).
Proof.
  unfold substitute, range_like.
  destruct (is_list _ || _); [reflexivity|].
  destruct (Str.any_in ["start"; "begin"; "from"] (Str.lower name));
    [reflexivity|].
  destruct (Str.any_in ["end"; "to"] (Str.lower name)); reflexivity.
Qed.

(** A turn writes one key, the name of its date parameter. *)
Lemma substitute_writes (c : DateAPICandidate) (start_date end_date : string)
  (acc acc' : dict pyval) (entry : string * string) :
  substitute c start_date end_date acc entry = Returned acc' ->
  exists v, acc' = dict_set (fst entry) v acc.
Proof.
  destruct entry as [name fmt]. rewrite substitute_cases. cbn [fst].
  destruct (range_like c name).
  - destruct (format_date start_date fmt); cbn [bind]; [|discriminate].
    destruct (format_date end_date fmt); cbn [bind]; [|discriminate].
    intros H. injection H as <-. eauto.
  - destruct (format_date _ fmt); cbn [bind]; [|discriminate].
    intros H. injection H as <-. eauto.
Qed.

Lemma substitute_fold_other (c : DateAPICandidate)
  (start_date end_date name : string) (dps : dict string) :
  ~ In name (dict_keys dps) ->
  forall acc acc',
  fold_outcome (substitute c start_date end_date) dps acc = Returned acc' ->
  dict_get name acc' = dict_get name acc.
Proof.
  intros Hnot acc acc'.
  apply (fold_outcome_inv (fun d => dict_get name d = dict_get name acc));
    [|reflexivity].
  intros a entry a' Hin Ha Hs.
  destruct (substitute_writes _ _ _ _ _ _ Hs) as [v ->].
  rewrite dict_get_set_other; [exact Ha|].
  intros Heq. apply Hnot. rewrite <- Heq. apply in_map. exact Hin.
Qed.

(** The parameter [name] holds [v] once its turn is over, when its turn
    writes [v]. *)
Lemma substitute_fold_at (c : DateAPICandidate)
  (start_date end_date name fmt : string) (v : pyval) (dps : dict string) :
  NoDup (dict_keys dps) -> In (name, fmt) dps ->
  (forall acc acc',
     substitute c start_date end_date acc (name, fmt) = Returned acc' ->
     acc' = dict_set name v acc) ->
  forall acc acc',
  fold_outcome (substitute c start_date end_date) dps acc = Returned acc' ->
  dict_get name acc' = Some v.
Proof.
  intros Hnd Hin Hturn.
  induction dps as [|entry dps IH]; intros acc acc'; [destruct Hin|].
  cbn [dict_keys map] in Hnd. inversion Hnd as [|? ? Hnotin Hnd']; subst.
  cbn [fold_outcome].
  destruct (substitute c start_date end_date acc entry) as [acc1|exc] eqn:E;
    cbn [bind]; [|discriminate].
  intros Hfold. destruct Hin as [->|Hin].
  - cbn [fst] in Hnotin.
    rewrite (substitute_fold_other _ _ _ _ _ Hnotin _ _ Hfold).
    rewrite (Hturn _ _ E). apply dict_get_set_same.
  - now apply (IH Hnd' Hin acc1).
Qed.

Lemma dict_has_get {V : Type} (k : string) (d : dict V) :
  dict_has k d = false -> dict_get k d = None.
Proof.
  unfold dict_has. destruct (dict_get k d); [discriminate|reflexivity].
Qed.

Lemma fix_callbacks_other (c : DateAPICandidate) (d : dict pyval)
  (name : string) :
  name <> "jsonCallBack" -> name <> "callback" ->
  dict_get name (fix_callbacks c d) = dict_get name d.
Proof.
  intros H1 H2. unfold fix_callbacks.
  repeat match goal with
         | |- context [if ?b then _ else _] => destruct b
         end;
    repeat (rewrite dict_get_set_other by congruence); reflexivity.
Qed.

Lemma fill_pagination_keeps (d : dict pyval) (name : string) (v : pyval) :
  dict_get name d = Some v -> dict_get name (fill_pagination d) = Some v.
Proof.
  intros Hget.
  assert (Hstep : forall k x (d' : dict pyval),
             dict_get name d' = Some v -> dict_has k d' = false ->
             dict_get name (dict_set k x d') = Some v).
  { intros k x d' Hd' Hk. rewrite dict_get_set_other; [exact Hd'|].
    intros ->. apply dict_has_get in Hk. congruence. }
  unfold fill_pagination.
  destruct (negb (dict_has "pageHelp.pageNo" d) && negb (dict_has "pageNo" d))
    eqn:E1.
  - apply andb_true_iff in E1. destruct E1 as [E1 _].
    apply negb_true_iff in E1.
    pose proof (Hstep "pageHelp.pageNo" (VStr "1") d Hget E1) as Hget'.
    destruct (negb (dict_has "pageHelp.pageSize" _) && negb (dict_has "pageSize" _))
      eqn:E2; [|exact Hget'].
    apply andb_true_iff in E2. destruct E2 as [E2 _].
    apply negb_true_iff in E2. now apply Hstep.
  - destruct (negb (dict_has "pageHelp.pageSize" d) && negb (dict_has "pageSize" d))
      eqn:E2; [|exact Hget].
    apply andb_true_iff in E2. destruct E2 as [E2 _].
    apply negb_true_iff in E2. now apply Hstep.
Qed.

(** The map a replay is built from: the parameters after the substitution
    loop, with the callbacks fixed and the pagination filled in. *)
Lemma replay_params_returned (c : DateAPICandidate)
  (start_date end_date : string) (new_params : dict pyval) :
  replay_params c start_date end_date = Returned new_params ->
  exists d,
    fold_outcome (substitute c start_date end_date) (date_params c) (params c)
    = Returned d
    /\ new_params = fill_pagination (fix_callbacks c d).
Proof.
  unfold replay_params.
  destruct (fold_outcome _ _ _) as [d|exc]; cbn [bind]; [|discriminate].
  intros H. injection H as <-. now exists d.
Qed.

(** What [build_replay_url] returns, from the map: the body of a request
    that is no GET, the query string of a GET. *)
Lemma build_replay_url_returned (c : DateAPICandidate)
  (start_date end_date u : string) (body : dict pyval) :
  build_replay_url c start_date end_date = Returned (u, body) ->
  exists new_params,
    replay_params c start_date end_date = Returned new_params
    /\ if String.eqb (method c) "GET"
       then u = urlunparse
                  (Url.mk (Url.scheme (urlparse (url c)))
                     (Url.netloc (urlparse (url c)))
                     (Url.path (urlparse (url c)))
                     (Url.params (urlparse (url c))) (urlencode new_params)
                     (Url.fragment (urlparse (url c))))
            /\ body = []
       else u = url c /\ body = new_params.
Proof.
  unfold build_replay_url.
  destruct (replay_params c start_date end_date) as [np|exc]; cbn [bind];
    [|discriminate].
  intros H. exists np. split; [reflexivity|].
  destruct (String.eqb (method c) "GET"); injection H as <- <-; now split.
Qed.

Lemma replay_params_range (c : DateAPICandidate)
  (start_date end_date name fmt first last : string)
  (new_params : dict pyval) :
  NoDup (dict_keys (date_params c)) ->
  In (name, fmt) (date_params c) ->
  range_like c name = true ->
  name <> "jsonCallBack" -> name <> "callback" ->
  format_date start_date fmt = Returned first ->
  format_date end_date fmt = Returned last ->
  replay_params c start_date end_date = Returned new_params ->
  dict_get name new_params = Some (VList [VStr first; VStr last]).
Proof.
  intros Hnd Hin Hrange H1 H2 Hs He Hnp.
  destruct (replay_params_returned _ _ _ _ Hnp) as (d & Hd & ->).
  apply fill_pagination_keeps. rewrite fix_callbacks_other by assumption.
  apply (substitute_fold_at c start_date end_date name fmt _ _ Hnd Hin)
    with (acc := params c); [|exact Hd].
  intros acc acc'. rewrite substitute_cases, Hrange, Hs, He. cbn [bind].
  intros H. now injection H as <-.
Qed.

(** C9. A date parameter whose captured value is an array, or whose name is
    a range name ([seDate], [dateRange], [date_range]), is replaced by the
    array of the start and the end date, each written in the format recorded
    for the parameter: the day itself for a calendar format, the epoch of
    its midnight for an epoch format.  For a request that is not a GET this
    is the parameter map [build_replay_url] returns; for a GET the same map
    is encoded into the query string of the URL it returns. *)
Theorem range_parameters_are_replayed_as_arrays (c : DateAPICandidate)
  (start_date end_date name fmt : string) (first_day last_day : datetime)
  (first last u : string) (body : dict pyval) :
  NoDup (dict_keys (date_params c)) ->
  In (name, fmt) (date_params c) ->
  range_like c name = true ->
  name <> "jsonCallBack" -> name <> "callback" ->
  strptime start_date = Some first_day -> strptime end_date = Some last_day ->
  in_format first_day fmt = Some first -> in_format last_day fmt = Some last ->
  build_replay_url c start_date end_date = Returned (u, body) ->
  if String.eqb (method c) "GET" then
    exists new_params,
      dict_get name new_params = Some (VList [VStr first; VStr last])
      /\ u = urlunparse
               (Url.mk (Url.scheme (urlparse (url c)))
                  (Url.netloc (urlparse (url c))) (Url.path (urlparse (url c)))
                  (Url.params (urlparse (url c))) (urlencode new_params)
                  (Url.fragment (urlparse (url c))))
      /\ body = []
  else
    u = url c /\ dict_get name body = Some (VList [VStr first; VStr last]).
Proof.
  intros Hnd Hin Hrange H1 H2 Hds Hde Hfs Hfe Hbuilt.
  destruct (build_replay_url_returned _ _ _ _ _ Hbuilt) as (np & Hnp & Hshape).
  pose proof (replay_params_range c start_date end_date name fmt first last np
                Hnd Hin Hrange H1 H2
                (format_date_in_format _ _ _ _ Hds Hfs)
                (format_date_in_format _ _ _ _ Hde Hfe) Hnp) as Hget.
  destruct (String.eqb (method c) "GET").
  - destruct Hshape as [-> ->]. exists np. now repeat split.
  - destruct Hshape as [-> ->]. now split.
Qed.

End ReplayFacts.

Lemma annlist_replay :
  build_replay_url (L := Simple.lib) annlist_candidate "2024-02-01" "2024-02-05"
  = Returned
      ("https://www.szse.cn/api/disc/announcement/annList",
       [("seDate", VList [VStr "2024-02-01"; VStr "2024-02-05"]);
        ("pageSize", VStr "30"); ("pageNum", VStr "1");
        ("pageHelp.pageNo", VStr "1")])
  /\ ("https://www.szse.cn/api/disc/announcement/annList"
      = url annlist_candidate
      /\ dict_get "seDate"
           [("seDate", VList [VStr "2024-02-01"; VStr "2024-02-05"]);
            ("pageSize", VStr "30"); ("pageNum", VStr "1");
            ("pageHelp.pageNo", VStr "1")]
         = Some (VList [VStr "2024-02-01"; VStr "2024-02-05"])).
Proof.
  split; [reflexivity|].
  apply (range_parameters_are_replayed_as_arrays (L := Simple.lib)
           annlist_candidate "2024-02-01" "2024-02-05" "seDate" "YYYY-MM-DD"
           (2024, 2, 1)%Z (2024, 2, 5)%Z "2024-02-01" "2024-02-05").
  - repeat constructor. intros [].
  - now left.
  - reflexivity.
  - discriminate.
  - discriminate.
  - reflexivity.
  - reflexivity.
  - reflexivity.
  - reflexivity.
  - reflexivity.
Defined.

(** The same parameters on a GET: both dates go into the query string, and
    the map returned is empty. *)
Example annlist_replay_as_get :
  build_replay_url (L := Simple.lib)
    (mkCandidate "https://www.szse.cn/api/disc/announcement/annList" "GET"
       [("seDate", VList [VStr "2024-01-01"; VStr "2024-01-01"])]
       [("seDate", "YYYY-MM-DD")] "" 0.95%float "xhr" false None)
    "2024-02-01" "2024-02-05"
  = Returned
      ("https://www.szse.cn/api/disc/announcement/annList?seDate=2024-02-01&seDate=2024-02-05&pageHelp.pageNo=1&pageHelp.pageSize=25",
       []).
Proof. vm_compute. reflexivity. Qed.

(** A range recorded as an epoch in milliseconds is replayed as the two
    epochs, and one recorded as eight digits as the two days in digits. *)
Example ranges_in_other_formats :
  option_map (dict_get "dateRange")
    (match
       replay_params (L := Simple.lib)
         (mkCandidate "https://site/api/list" "POST"
            [("dateRange", VStr "1704067200000")]
            [("dateRange", "timestamp_ms")] "" 0.6%float "xhr" false None)
         "2024-02-01" "2024-02-05"
     with
     | Returned new_params => Some new_params
     | Raised _ => None
     end)
  = Some (Some (VList [VStr "1706745600000"; VStr "1707091200000"]))
  /\ option_map (dict_get "dateRange")
       (match
          replay_params (L := Simple.lib)
            (mkCandidate "https://site/api/list" "POST"
               [("dateRange", VStr "20240101")]
               [("dateRange", "YYYYMMDD")] "" 0.6%float "xhr" false None)
            "2024-02-01" "2024-02-05"
        with
        | Returned new_params => Some new_params
        | Raised _ => None
        end)
     = Some (Some (VList [VStr "20240201"; VStr "20240205"])).
Proof. vm_compute. split; reflexivity. Qed.

(** ** The chain stops at a success of layer 1 *)

Section ChainFacts.
Context {L : PyLib}.
Variable w : World.

Lemma called_app (n : nat) (t1 t2 : list event) :
  called n (t1 ++ t2) = called n t1 || called n t2.
Proof. unfold called. apply existsb_app. Qed.

Lemma called_replay_events (n : nat)
  (sent : list (DateAPICandidate * HttpRequest)) :
  called n (replay_events sent) = false.
Proof.
  induction sent as [|cr sent IH]; [reflexivity|exact IH].
Qed.

Lemma run_page_layer_keeps (p : PageLayer) (self : Extractor) :
  _layer1_result (snd (run_page_layer p self)) = _layer1_result self.
Proof.
  unfold run_page_layer. destruct (left_candidates p); reflexivity.
Qed.

Lemma from_layer3_keeps (self : Extractor) (trace : list event) :
  _layer1_result (snd (fst (from_layer3 w self trace))) = _layer1_result self.
Proof.
  unfold from_layer3. destruct (browser w) as [b|]; [|reflexivity].
  destruct (llm w); [|reflexivity].
  pose proof (run_page_layer_keeps (vision_layer w) self) as H.
  destruct (run_page_layer (vision_layer w) self) as [r self1].
  cbn [snd] in H. destruct r; cbn [fst snd set_layer _layer1_result]; exact H.
Qed.

Lemma from_layer2_keeps (self : Extractor) (trace : list event) :
  _layer1_result (snd (fst (from_layer2 w self trace))) = _layer1_result self.
Proof.
  unfold from_layer2. destruct (browser w) as [b|]; [|apply from_layer3_keeps].
  pose proof (run_page_layer_keeps (dom_layer w) self) as H.
  destruct (run_page_layer (dom_layer w) self) as [r self1].
  cbn [snd] in H. destruct r.
  - rewrite from_layer3_keeps. exact H.
  - cbn [fst snd set_layer _layer1_result]. exact H.
Qed.

Lemma from_layer1_success (self : Extractor) (trace : list event)
  (reqs : NetworkRequests) (start_date end_date : string) :
  called 2 trace = false -> called 3 trace = false ->
  layer1_succeeded
    (snd (fst (from_layer1 w self trace reqs start_date end_date))) = true ->
  stopped_at_layer1 (from_layer1 w self trace reqs start_date end_date).
Proof.
  intros H2 H3. unfold from_layer1.
  pose proof (layer1_trace w start_date end_date self (trace ++ [Called 1])
                reqs) as Htrace.
  destruct (_try_layer1_api_direct w self (trace ++ [Called 1]) reqs
              start_date end_date) as [[l1 self1] trace1].
  cbn [snd] in Htrace.
  destruct l1 as [err note|best n replayed note].
  - unfold layer1_succeeded. rewrite from_layer2_keeps.
    cbn [set_layer _layer1_result l_success]. discriminate.
  - intros _. unfold stopped_at_layer1. cbn [fst snd]. eexists.
    split; [reflexivity|].
    cbn [success layer layer1_result layer2_result layer3_result best_candidate
         set_layer _layer1_result l_best_candidate].
    repeat split; auto; subst trace1;
      rewrite !called_app, called_replay_events; cbn [called existsb is_call];
      rewrite ?H2, ?H3; reflexivity.
Qed.

(** C2. In a run of [extract_with_three_layers] in which layer 1 is entered
    and returns a success, the caller gets a result with [success] true and
    [layer] 1, whose [layer2_result] and [layer3_result] are [None], and
    layers 2 and 3 are not entered: this for every captured request set,
    date range, extractor state and behaviour of the collaborators. *)
Theorem layer1_success_ends_the_chain (self : Extractor)
  (reqs : NetworkRequests) (start_date end_date : string) :
  called 1 (snd (extract_with_three_layers w self reqs start_date end_date))
  = true ->
  layer1_succeeded
    (snd (fst (extract_with_three_layers w self reqs start_date end_date)))
  = true ->
  stopped_at_layer1 (extract_with_three_layers w self reqs start_date end_date).
Proof.
  unfold extract_with_three_layers.
  destruct (browser w) as [b|];
    [|intros _; now apply from_layer1_success].
  destruct (page b) as [pg|];
    [|intros _; now apply from_layer1_success].
  destruct (_try_layer0_global_var_scan b) as [err|cfg all];
    [intros _; now apply from_layer1_success|].
  destruct (_build_candidate_from_global_var w cfg) as [candidate|];
    [|intros _; now apply from_layer1_success].
  rewrite verify_candidate_cases.
  destruct (replay_request w candidate start_date end_date) as [request|exc].
  - destruct (v_success _).
    + cbn [snd called existsb is_call Nat.eqb app orb]. discriminate.
    + intros _. apply from_layer1_success; reflexivity.
  - cbn [snd called existsb is_call Nat.eqb orb]. discriminate.
Qed.

End ChainFacts.

Lemma captured_range_stops_at_layer1 :
  stopped_at_layer1
    (extract_with_three_layers (L := Simple.lib) five_items_world fresh
       captured_range "2024-02-01" "2024-02-05").
Proof.
  apply (layer1_success_ends_the_chain (L := Simple.lib) five_items_world fresh
           captured_range "2024-02-01" "2024-02-05").
  - vm_compute. reflexivity.
  - vm_compute. reflexivity.
Defined.

Example captured_range_result :
  match extract_with_three_layers (L := Simple.lib) five_items_world fresh
          captured_range "2024-02-01" "2024-02-05" with
  | (Returned r, _, trace) =>
      success r = true /\ layer r = 1%Z /\ data_count r = 5%Z
      /\ layer2_result r = None /\ layer3_result r = None
      /\ trace
         = [Called 1;
            Replayed (mkHttp "GET"
              "https://site/x?startDate=2024-02-01&endDate=2024-02-05&pageNo=1&pageHelp.pageSize=25"
              [])]
  | (Raised _, _, _) => False
  end.
Proof. vm_compute. repeat split; reflexivity. Qed.

(** ** When the chain raises *)

Section RaiseFacts.
Context {L : PyLib}.
Variable w : World.










End RaiseFacts.

(** ** What the recogniser returns *)

Section DictSetFacts.
Context {V : Type}.

Lemma dict_set_In (k k' : string) (v v' : V) (d : dict V) :
  In (k, v) (dict_set k' v' d) -> (k = k' /\ v = v') \/ In (k, v) d.
Proof.
  induction d as [|[k0 v0] d IH]; cbn [dict_set].
  - intros [H|[]]. injection H as <- <-. now left.
  - destruct (String.eqb k0 k') eqn:E.
    + apply String.eqb_eq in E. subst k0.
      intros [H|H]; [injection H as <- <-; now left | right; now right].
    + intros [H|H]; [right; now left|].
      destruct (IH H) as [?|?]; [now left | right; now right].
Qed.

Lemma dict_set_keys (k k' : string) (v' : V) (d : dict V) :
  In k (dict_keys (dict_set k' v' d)) -> k = k' \/ In k (dict_keys d).
Proof.
  unfold dict_keys. intros H. apply in_map_iff in H.
  destruct H as ([k0 v0] & <- & H). cbn [fst].
  destruct (dict_set_In _ _ _ _ _ H) as [[-> _]|H'];
    [now left | right; now apply (in_map fst) in H'].
Qed.

Lemma dict_set_NoDup (k : string) (v : V) (d : dict V) :
  NoDup (dict_keys d) -> NoDup (dict_keys (dict_set k v d)).
Proof.
  induction d as [|[k0 v0] d IH]; cbn [dict_set dict_keys map fst]; intros H.
  - constructor; [intros []|constructor].
  - inversion H as [|? ? Hn Hd]; subst.
    destruct (String.eqb k0 k) eqn:E; cbn [map fst].
    + constructor; assumption.
    + constructor; [|now apply IH].
      intros Hin. apply dict_set_keys in Hin. destruct Hin as [->|Hin].
      * now rewrite String.eqb_refl in E.
      * now apply Hn.
Qed.

Lemma dict_get_In (k : string) (v : V) (d : dict V) :
  dict_get k d = Some v -> In (k, v) d.
Proof.
  induction d as [|[k0 v0] d IH]; cbn [dict_get]; [discriminate|].
  destruct (String.eqb k0 k) eqn:E.
  - apply String.eqb_eq in E. subst k0. intros H. injection H as <-. now left.
  - intros H. right. now apply IH.
Qed.

Lemma dict_keys_has (k : string) (d : dict V) :
  In k (dict_keys d) -> dict_has k d = true.
Proof.
  unfold dict_has. induction d as [|[k0 v0] d IH]; cbn [dict_keys map fst dict_get].
  - intros [].
  - destruct (String.eqb k0 k) eqn:E; [reflexivity|].
    intros [->|H]; [now rewrite String.eqb_refl in E | now apply IH].
Qed.

Lemma dict_has_keys (k : string) (d : dict V) :
  dict_has k d = true -> In k (dict_keys d).
Proof.
  unfold dict_has. induction d as [|[k0 v0] d IH]; cbn [dict_keys map fst dict_get].
  - discriminate.
  - destruct (String.eqb k0 k) eqn:E.
    + apply String.eqb_eq in E. now left.
    + intros H. right. now apply IH.
Qed.

End DictSetFacts.

Lemma first_format_names (pats : list (list Re.atom * string)) (s fmt : string) :
  first_format pats s = Some fmt -> In fmt (map snd pats).
Proof.
  induction pats as [|[p f] pats IH]; cbn [first_format map snd]; [discriminate|].
  destruct (Re.rmatch false p s).
  - intros H. injection H as <-. now left.
  - intros H. right. now apply IH.
Qed.

Lemma array_format_names (items : list pyval) (fmt : string) :
  In fmt (date_formats_in_array items) -> In fmt date_format_names.
Proof.
  induction items as [|item items IH]; cbn [date_formats_in_array]; [intros []|].
  destruct item as [| | |s| |]; auto.
  destruct (value_format (Str.strip s)) as [f|] eqn:E; auto.
  intros [<-|H]; [|now apply IH].
  now apply first_format_names in E.
Qed.

Lemma identify_one_format (key : string) (value : pyval) (fmt : string) :
  identify_one key value = Some fmt ->
  In fmt date_format_names /\ not_noise key = true.
Proof.
  unfold identify_one, not_noise.
  destruct (Str.mem (Str.lower key) _noise_param_names); [discriminate|].
  split; [|reflexivity]. revert H.
  assert (Hs : forall v,
    match value_format (Str.strip (py_str v)) with
    | Some fmt0 =>
        if name_matches_date key then Some fmt0
        else if (8 <=? String.length (py_str v))%nat
                && Str.any_in ["date"; "time"; "day"; "start"; "end";
                               "begin"; "from"; "to"] (Str.lower key)
        then Some fmt0 else None
    | None => None
    end = Some fmt -> In fmt date_format_names).
  { intros v. destruct (value_format (Str.strip (py_str v))) as [f|] eqn:E;
      [|discriminate].
    apply first_format_names in E.
    destruct (name_matches_date key);
      [|destruct (_ && _)]; intros H; try discriminate;
      injection H as <-; exact E. }
  destruct value as [| b | n | s | its | d];
    [ exact (Hs VNone) | exact (Hs (VBool b)) | exact (Hs (VInt n))
    | exact (Hs (VStr s)) | | exact (Hs (VDict d)) ].
  destruct (date_formats_in_array its) as [|f0 fs] eqn:E; [discriminate|].
  destruct (_ || _); [|discriminate].
  intros H. injection H as <-. apply (array_format_names its).
  rewrite E. now left.
Qed.

Lemma identify_fold_In (ps : dict pyval) :
  forall (acc : dict string) (k fmt : string),
  In (k, fmt) (fold_left identify_step ps acc) ->
  In (k, fmt) acc
  \/ exists v, In (k, v) ps /\ identify_one k v = Some fmt.
Proof.
  induction ps as [|[k0 v0] ps IH]; intros acc k fmt; cbn [fold_left].
  - now left.
  - intros H. destruct (IH _ _ _ H) as [H'|(v & Hin & Hv)].
    + unfold identify_step in H'. cbn [fst snd] in H'.
      destruct (identify_one k0 v0) as [f0|] eqn:E0; [|now left].
      destruct (dict_set_In _ _ _ _ _ H') as [[-> ->]|?]; [|now left].
      right. exists v0. split; [now left | exact E0].
    + right. exists v. split; [now right | exact Hv].
Qed.

Lemma identify_fold_NoDup (ps : dict pyval) :
  forall acc : dict string,
  NoDup (dict_keys acc) -> NoDup (dict_keys (fold_left identify_step ps acc)).
Proof.
  induction ps as [|kv ps IH]; intros acc H; cbn [fold_left]; [exact H|].
  apply IH. unfold identify_step.
  destruct (identify_one (fst kv) (snd kv)); [now apply dict_set_NoDup | exact H].
Qed.

Lemma identified_entry (ps : dict pyval) (k fmt : string) :
  In (k, fmt) (_identify_date_params ps) ->
  exists v, In (k, v) ps /\ identify_one k v = Some fmt.
Proof.
  intros H. destruct (identify_fold_In _ _ _ _ H) as [[]|H']. exact H'.
Qed.

Lemma identified_parameters (ps : dict pyval) :
  NoDup (dict_keys (_identify_date_params ps))
  /\ forall k fmt,
       In (k, fmt) (_identify_date_params ps) ->
       In k (dict_keys ps) /\ not_noise k = true
       /\ In fmt date_format_names.
Proof.
  split.
  - apply identify_fold_NoDup. constructor.
  - intros k fmt H. destruct (identified_entry _ _ _ H) as (v & Hin & Hv).
    destruct (identify_one_format _ _ _ Hv) as [Hf Hn].
    split; [|split; assumption].
    now apply (in_map fst) in Hin.
Qed.

(** X1. Whatever the parameter map, the date parameters
    [_identify_date_params] returns have pairwise distinct names; each of
    them is a key of the map, none is a noise name, and its format is one of
    the six names of [DATE_VALUE_PATTERNS]. *)
Theorem recognised_parameters_are_parameters (ps : dict pyval) :
  NoDup (dict_keys (_identify_date_params ps))
  /\ forall k fmt,
       In (k, fmt) (_identify_date_params ps) ->
       In k (dict_keys ps) /\ not_noise k = true
       /\ In fmt date_format_names.
Proof. exact (identified_parameters ps). Qed.

(** ** The sanity check and the names the recogniser accepts *)

Lemma lower_app (a b : string) :
  Str.lower (a ++ b) = (Str.lower a ++ Str.lower b)%string.
Proof. induction a as [|c a IH]; cbn; [reflexivity | now rewrite IH]. Qed.

Lemma prefix_app (t e r : string) :
  String.prefix t e = true -> String.prefix t (e ++ r) = true.
Proof.
  revert t. induction e as [|c e IH]; intros t; destruct t as [|a t];
    cbn [String.prefix append]; intros H.
  - now destruct r.
  - discriminate.
  - reflexivity.
  - destruct (ascii_dec a c); [now apply IH | discriminate].
Qed.

Lemma contains_app (t e r : string) :
  Str.contains t e = true -> Str.contains t (e ++ r) = true.
Proof.
  induction e as [|c e IH]; cbn [Str.contains append]; intros H.
  - rewrite orb_false_r in H. destruct t; [|discriminate].
    destruct r; reflexivity.
  - apply orb_true_iff in H. apply orb_true_iff. destruct H as [H|H].
    + left. now apply (prefix_app t (String c e) r).
    + right. now apply IH.
Qed.

Lemma any_in_app (toks : list string) (e r : string) :
  Str.any_in toks e = true -> Str.any_in toks (e ++ r) = true.
Proof.
  unfold Str.any_in. intros H. apply existsb_exists in H.
  destruct H as (t & Hin & Ht). apply existsb_exists. exists t.
  split; [exact Hin | now apply contains_app].
Qed.

Lemma here_expansion (p : list Re.atom) :
  forall s, literal_pattern p = true -> Re.here true p s = true ->
  exists e rest, In e (expansions p) /\ Str.lower s = (e ++ rest)%string.
Proof.
  induction p as [|a p IH]; intros s Hl H.
  - exists EmptyString, (Str.lower s). split; [now left | reflexivity].
  - destruct a; cbn [literal_pattern forallb] in Hl; try discriminate.
    + cbn [Re.here] in H. destruct s as [|a s]; [discriminate|].
      apply andb_true_iff in H. destruct H as [Hc H].
      destruct (IH s Hl H) as (e & rest & Hin & He).
      exists (String (Str.lower_char c) e), rest. split.
      * cbn [expansions]. now apply in_map.
      * unfold Re.char_eq in Hc. apply Ascii.eqb_eq in Hc.
        cbn [Str.lower append]. now rewrite He, Hc.
    + cbn [Re.here] in H. cbn [expansions].
      assert (Hskip : Re.here true p s = true ->
                exists e rest, In e (map (String "_"%char) (expansions p)
                                     ++ map (String "-"%char) (expansions p)
                                     ++ expansions p)
                               /\ Str.lower s = (e ++ rest)%string).
      { intros H'. destruct (IH s Hl H') as (e & rest & Hin & He).
        exists e, rest. split; [|exact He].
        apply in_or_app. right. apply in_or_app. now right. }
      destruct s as [|c s]; [now apply Hskip|].
      apply orb_true_iff in H. destruct H as [H|H]; [|now apply Hskip].
      apply andb_true_iff in H. destruct H as [Hc H].
      destruct (IH s Hl H) as (e & rest & Hin & He).
      unfold Re.is_sep in Hc. apply orb_true_iff in Hc.
      destruct Hc as [Hc|Hc]; apply Ascii.eqb_eq in Hc; subst c.
      * exists (String "_"%char e), rest. split.
        -- apply in_or_app. left. now apply in_map.
        -- cbn [Str.lower append]. now rewrite He.
      * exists (String "-"%char e), rest. split.
        -- apply in_or_app. right. apply in_or_app. left. now apply in_map.
        -- cbn [Str.lower append]. now rewrite He.
Qed.

(** A name that matches one of [DATE_PARAM_PATTERNS] holds one of the
    tokens the sanity check looks for. *)
Lemma matching_name_is_dateish (key : string) :
  name_matches_date key = true ->
  Str.any_in ["start"; "begin"; "from"; "end"; "to"; "date"; "time"; "day"]
    (Str.lower key) = true.
Proof.
  unfold name_matches_date. intros H. apply existsb_exists in H.
  destruct H as (p & Hin & Hp).
  assert (Hall :
    forallb (fun p => literal_pattern p
                      && forallb (Str.any_in ["start"; "begin"; "from"; "end";
                                               "to"; "date"; "time"; "day"])
                           (expansions p))
      DATE_PARAM_PATTERNS = true) by (vm_compute; reflexivity).
  rewrite forallb_forall in Hall. specialize (Hall p Hin).
  apply andb_true_iff in Hall. destruct Hall as [Hl He].
  destruct (here_expansion p key Hl Hp) as (e & rest & Hine & ->).
  apply any_in_app. rewrite forallb_forall in He. now apply He.
Qed.

Lemma scalar_parameter_is_dateish (key : string) (value : pyval) (fmt : string) :
  identify_one key value = Some fmt -> is_list (Some value) = false ->
  _is_dateish_name key = true.
Proof.
  unfold identify_one, _is_dateish_name.
  destruct (Str.mem (Str.lower key) _noise_param_names); [discriminate|].
  assert (Hs : forall v,
    match value_format (Str.strip (py_str v)) with
    | Some fmt0 =>
        if name_matches_date key then Some fmt0
        else if (8 <=? String.length (py_str v))%nat
                && Str.any_in ["date"; "time"; "day"; "start"; "end";
                               "begin"; "from"; "to"] (Str.lower key)
        then Some fmt0 else None
    | None => None
    end = Some fmt ->
    Str.any_in ["start"; "begin"; "from"; "end"; "to"; "date"; "time"; "day"]
      (Str.lower key) = true).
  { intros v. destruct (value_format (Str.strip (py_str v))); [|discriminate].
    destruct (name_matches_date key) eqn:En.
    - intros _. now apply matching_name_is_dateish.
    - destruct (8 <=? String.length (py_str v))%nat; cbn [andb];
        [|discriminate].
      unfold Str.any_in. cbn [existsb].
      destruct (Str.contains "date" (Str.lower key)),
        (Str.contains "time" (Str.lower key)),
        (Str.contains "day" (Str.lower key)),
        (Str.contains "start" (Str.lower key)),
        (Str.contains "end" (Str.lower key)),
        (Str.contains "begin" (Str.lower key)),
        (Str.contains "from" (Str.lower key)),
        (Str.contains "to" (Str.lower key)); cbn; congruence. }
  destruct value as [| b | n | s | its | d]; intros H Hl;
    [ exact (Hs VNone H) | exact (Hs (VBool b) H) | exact (Hs (VInt n) H)
    | exact (Hs (VStr s) H) | discriminate | exact (Hs (VDict d) H) ].
Qed.

Lemma filter_existsb {A : Type} (f : A -> bool) (l : list A) :
  existsb f l = match filter f l with [] => false | _ => true end.
Proof.
  induction l as [|a l IH]; cbn [existsb filter]; [reflexivity|].
  destruct (f a); [reflexivity | exact IH].
Qed.

Lemma dateish_among_the_others (l : list string) :
  existsb _is_dateish_name (filter not_noise l) = existsb _is_dateish_name l.
Proof.
  induction l as [|k l IH]; cbn [existsb filter]; [reflexivity|].
  destruct (not_noise k) eqn:E; cbn [existsb]; rewrite IH; [reflexivity|].
  unfold not_noise in E. unfold _is_dateish_name.
  destruct (Str.mem (Str.lower k) _noise_param_names); [reflexivity|discriminate].
Qed.

Lemma verdict_of_the_filter (c : DateAPICandidate) :
  fst (_looks_like_real_date_filter c)
  = existsb not_noise (dict_keys (date_params c))
    && (Str.any_in bulletin_tokens (Str.lower (url c))
        || existsb _is_dateish_name (dict_keys (date_params c))).
Proof.
  unfold _looks_like_real_date_filter.
  destruct (dict_keys (date_params c)) as [|k ks]; [reflexivity|].
  change (fun k0 : string => negb (Str.mem (Str.lower k0) _noise_param_names))
    with not_noise.
  rewrite <- (dateish_among_the_others (k :: ks)).
  rewrite (filter_existsb not_noise (k :: ks)).
  destruct (filter not_noise (k :: ks)) as [|k' ks']; [reflexivity|].
  cbn [andb].
  destruct (Str.contains "commonquery" (Str.lower (url c))),
    (Str.any_in bulletin_tokens (Str.lower (url c))),
    (existsb _is_dateish_name (k' :: ks')); reflexivity.
Qed.

(** X2. The verdict of [_looks_like_real_date_filter]: a candidate is
    accepted exactly when one of its date parameters is not a noise name
    and, besides, its URL holds a bulletin token or one of its date
    parameters has a date-like name.  The test on [commonquery] decides the
    reason given, never the verdict. *)
Theorem sanity_verdict (c : DateAPICandidate) :
  fst (_looks_like_real_date_filter c)
  = existsb not_noise (dict_keys (date_params c))
    && (Str.any_in bulletin_tokens (Str.lower (url c))
        || existsb _is_dateish_name (dict_keys (date_params c))).
Proof. exact (verdict_of_the_filter c). Qed.

Section FilterFacts.
Context {L : PyLib}.

Lemma analyzed_request_fields (req : Request) (c : DateAPICandidate) :
  _analyze_single_request req = Some c ->
  req_url req = Some (url c) /\ url c <> ""
  /\ method c = Str.upper (get_default (req_method req) "GET")
  /\ params c
     = flat_params_of (url c) (method c) (get_default (req_postData req) "")
  /\ date_params c = _identify_date_params (params c)
  /\ date_params c <> []
  /\ confidence c
     = _calculate_confidence (url c) (method c) (params c) (date_params c)
  /\ resource_type c = get_default (req_resourceType req) "unknown"
  /\ is_verified c = false /\ verification_result c = None.
Proof.
  unfold _analyze_single_request.
  destruct (req_url req) as [u|]; cbn [get_default]; [|discriminate].
  destruct (String.eqb u "") eqn:Eu; [discriminate|].
  apply String.eqb_neq in Eu.
  destruct (_identify_date_params _) as [|kv dps] eqn:E; [discriminate|].
  intros H. injection H as <-.
  cbn [url method params date_params confidence resource_type is_verified
       verification_result].
  rewrite E. repeat split; auto. discriminate.
Qed.

(** X3. A candidate [_analyze_single_request] builds has the URL of its
    request, which is not empty, at least one date parameter, and date
    parameters with pairwise distinct names, each of them a parameter of
    the candidate; it is not verified yet. *)
Theorem analyzed_candidate_shape (req : Request) (c : DateAPICandidate) :
  _analyze_single_request req = Some c ->
  req_url req = Some (url c) /\ url c <> ""
  /\ date_params c <> []
  /\ NoDup (dict_keys (date_params c))
  /\ (forall k, In k (dict_keys (date_params c)) ->
      dict_has k (params c) = true)
  /\ is_verified c = false /\ verification_result c = None.
Proof.
  intros H. destruct (analyzed_request_fields req c H)
    as (Hu & Hne & _ & _ & Hd & Hdne & _ & _ & Hv & Hr).
  destruct (identified_parameters (params c)) as [Hnd Hk].
  rewrite <- Hd in Hnd, Hk.
  repeat split; auto.
  intros k Hin. unfold dict_keys in Hin. apply in_map_iff in Hin.
  destruct Hin as ([k' f] & <- & Hin). cbn [fst].
  apply dict_keys_has. now apply (Hk k' f).
Qed.

(** X4. The sanity check never refuses a candidate built from a request
    whose parameters are all scalars and have ASCII names: a scalar
    parameter is recognised only under a name that holds one of the
    date-like tokens of the check.  (Outside ASCII the recogniser and the
    check part: the [(?i)] of the recogniser reads a dotless [i] as an [i],
    the [lower] of the check does not.) *)
Theorem scalar_candidates_pass_the_sanity_filter (req : Request)
  (c : DateAPICandidate) :
  _analyze_single_request req = Some c ->
  scalar_values (params c) = true ->
  forallb Str.is_ascii (dict_keys (params c)) = true ->
  fst (_looks_like_real_date_filter c) = true.
Proof.
  intros H Hs _. destruct (analyzed_request_fields req c H)
    as (_ & _ & _ & _ & Hd & Hdne & _).
  rewrite verdict_of_the_filter.
  destruct (date_params c) as [|[k f] dps] eqn:E; [congruence|].
  assert (Hin : In (k, f) (_identify_date_params (params c))).
  { rewrite <- Hd. now left. }
  destruct (identified_entry _ _ _ Hin) as (v & Hv & Hone).
  unfold scalar_values in Hs. rewrite forallb_forall in Hs.
  specialize (Hs (k, v) Hv). cbn [snd] in Hs. apply negb_true_iff in Hs.
  pose proof (scalar_parameter_is_dateish k v f Hone Hs) as Hdate.
  destruct (identify_one_format k v f Hone) as [_ Hn].
  cbn [dict_keys map fst existsb]. rewrite Hn, Hdate. cbn.
  apply orb_true_r.
Qed.

End FilterFacts.

(** ** The range of the confidence, and where the candidates come from *)

Lemma mem_In (s : string) (l : list string) : Str.mem s l = true <-> In s l.
Proof.
  unfold Str.mem. rewrite existsb_exists. split.
  - intros (x & Hin & Hx). apply String.eqb_eq in Hx. now subst.
  - intros H. exists s. split; [exact H | apply String.eqb_refl].
Qed.

Section RangeFacts.
Context {L : PyLib}.

Ltac score_cases k Hk :=
  match goal with
  | |- context [pagination_score ?x ?ps] =>
      let E := fresh "E" in
      destruct (pagination_score_iter x ps) as (k & Hk & E);
      rewrite E; clear E
  end.

(** X5. [_calculate_confidence] returns a number between -0.4 and 1.0,
    whatever the request: the penalty for noise names cannot take it lower,
    and the clamp keeps it from going higher. *)
Theorem calculate_confidence_bounds (u m : string) (ps : dict pyval)
  (dps : dict string) :
  PrimFloat.leb (-0.4) (_calculate_confidence u m ps dps) = true
  /\ PrimFloat.leb (_calculate_confidence u m ps dps) 1.0 = true.
Proof.
  unfold _calculate_confidence. score_cases k Hk. unfold count_score.
  assert (Hnil : noise_only (@nil (string * string)) = false) by reflexivity.
  destruct dps as [|a [|b [|c dps]]];
    [ rewrite Hnil
    | destruct (noise_only [a])
    | destruct (noise_only [a; b])
    | destruct (noise_only (a :: b :: c :: dps)) ];
    cbn [List.length Nat.eqb Nat.ltb Nat.leb];
    destruct
      (existsb (fun p => Re.search true p (Str.lower (Url.path (urlparse u))))
         API_PATH_PATTERNS),
      (Str.any_in bulletin_tokens (Str.lower (Url.path (urlparse u)))),
      (String.eqb m "POST");
    do 7 (destruct k as [|k]; [vm_compute; split; reflexivity|]);
    exfalso; lia.
Qed.

Lemma adjusted_range (u m : string) (ps : dict pyval) (dps : dict string)
  (api i1 i2 i3 : bool) :
  dps <> [] -> noise_only dps = false ->
  let x := _calculate_confidence u m ps dps in
  let x := if api then (x + 0.2)%float else x in
  let x := if i1 then (x + 0.15)%float else x in
  let x := if i2 then (x - 0.2)%float else x in
  let x := if i3 then (x - 0.1)%float else x in
  PrimFloat.leb (-0.2) x = true /\ PrimFloat.leb x 1.35 = true.
Proof.
  intros Hne Hn. unfold _calculate_confidence. rewrite Hn. clear Hn.
  score_cases k Hk. unfold count_score.
  destruct dps as [|a [|b [|c dps]]]; [congruence| | |];
    cbn [List.length Nat.eqb Nat.ltb Nat.leb];
    destruct
      (existsb (fun p => Re.search true p (Str.lower (Url.path (urlparse u))))
         API_PATH_PATTERNS),
      (Str.any_in bulletin_tokens (Str.lower (Url.path (urlparse u)))),
      (String.eqb m "POST"), api, i1, i2, i3;
    do 7 (destruct k as [|k]; [vm_compute; split; reflexivity|]);
    exfalso; lia.
Qed.

Lemma bonus_changes_the_confidence (c : DateAPICandidate) (req : Request) :
  exists i1 i2 i3 : bool,
    _apply_initiator_bonus c req
    = with_confidence c
        (let x := confidence c in
         let x := if i1 then (x + 0.15)%float else x in
         let x := if i2 then (x - 0.2)%float else x in
         if i3 then (x - 0.1)%float else x).
Proof.
  unfold _apply_initiator_bonus. destruct (req_initiator req) as [i|].
  - exists (Str.any_in interaction_keywords (stack_info_of (callFrames i))),
      (Str.any_in noise_keywords (stack_info_of (callFrames i))),
      (Str.mem (init_type i) ["preload"; "preflight"; "other"]).
    reflexivity.
  - exists false, false, false. now destruct c.
Qed.

Lemma analyzed_is_not_noise_only (req : Request) (c : DateAPICandidate) :
  _analyze_single_request req = Some c ->
  date_params c <> [] /\ noise_only (date_params c) = false.
Proof.
  intros H. destruct (analyzed_request_fields req c H)
    as (_ & _ & _ & _ & Hd & Hdne & _).
  split; [exact Hdne|]. apply not_noise_only; [|exact Hdne].
  apply forallb_forall. intros k Hin. unfold dict_keys in Hin.
  apply in_map_iff in Hin. destruct Hin as ([k' f] & <- & Hin). cbn [fst].
  rewrite Hd in Hin.
  now destruct (identified_parameters (params c))
    as [_ Hk]; destruct (Hk k' f Hin) as (_ & Hn & _).
Qed.

Lemma analyzed_range (req : Request) (c : DateAPICandidate) (api : bool) :
  _analyze_single_request req = Some c ->
  confidence_within (-0.2) 1.35
    (_apply_initiator_bonus
       (if api then with_confidence c (confidence c + 0.2)%float else c) req).
Proof.
  intros H. destruct (analyzed_is_not_noise_only req c H) as [Hne Hn].
  destruct (analyzed_request_fields req c H)
    as (_ & _ & _ & _ & _ & _ & Hc & _).
  destruct (bonus_changes_the_confidence
              (if api then with_confidence c (confidence c + 0.2)%float else c)
              req) as (i1 & i2 & i3 & ->).
  unfold confidence_within.
  pose proof (adjusted_range (url c) (method c) (params c) (date_params c)
                api i1 i2 i3 Hne Hn) as Hr.
  cbv zeta in Hr. rewrite <- Hc in Hr.
  destruct api; cbn [with_confidence confidence]; exact Hr.
Qed.

(** Every discovered candidate is built from a request of the capture. *)
Lemma analyze_api_fold_ind (P : DateAPICandidate -> Prop)
  (source : list Request) :
  (forall req c0, In req source -> _analyze_single_request req = Some c0 ->
     P (_apply_initiator_bonus
          (with_confidence c0 (confidence c0 + 0.2)%float) req)) ->
  forall l acc, incl l source -> Forall P acc ->
  Forall P (fold_left analyze_api l acc).
Proof.
  intros HP. induction l as [|req l IH]; intros acc Hl Hacc; cbn [fold_left];
    [exact Hacc|].
  apply IH; [intros r Hr; apply Hl; now right|].
  unfold analyze_api.
  destruct (_analyze_single_request req) as [c0|] eqn:E; [|exact Hacc].
  apply Forall_app. split; [exact Hacc|].
  constructor; [|constructor]. apply HP; [apply Hl; now left | exact E].
Qed.

Lemma analyze_all_fold_ind (P : DateAPICandidate -> Prop)
  (source : list Request) :
  (forall req c0, In req source -> analysable req = true ->
     _analyze_single_request req = Some c0 ->
     P (_apply_initiator_bonus c0 req)) ->
  forall l st, incl l source -> Forall P (fst st) ->
  Forall P (fst (fold_left analyze_all l st)).
Proof.
  intros HP. induction l as [|req l IH]; intros st Hl Hst; cbn [fold_left];
    [exact Hst|].
  apply IH; [intros r Hr; apply Hl; now right|].
  unfold analyze_all. destruct st as [acc urls]. cbn [fst] in *.
  destruct (Str.mem _ urls); [exact Hst|].
  destruct (allowed_resource_type _) eqn:Ea; cbn [negb]; [|exact Hst].
  destruct (_analyze_single_request req) as [c0|] eqn:E; [|exact Hst].
  cbn [fst]. apply Forall_app. split; [exact Hst|].
  constructor; [|constructor]. apply HP; [apply Hl; now left | exact Ea | exact E].
Qed.

Lemma discovered_ind (reqs : NetworkRequests) (P : DateAPICandidate -> Prop) :
  (forall req c0, In req (api_requests reqs) ->
     _analyze_single_request req = Some c0 ->
     P (_apply_initiator_bonus
          (with_confidence c0 (confidence c0 + 0.2)%float) req)) ->
  (forall req c0, In req (all_requests reqs) -> analysable req = true ->
     _analyze_single_request req = Some c0 ->
     P (_apply_initiator_bonus c0 req)) ->
  Forall P (discovered reqs).
Proof.
  intros Hapi Hall. unfold discovered.
  apply (analyze_all_fold_ind P (all_requests reqs) Hall);
    [apply incl_refl|]. cbn [fst].
  apply (analyze_api_fold_ind P (api_requests reqs) Hapi);
    [apply incl_refl | constructor].
Qed.

Lemma analyze_requests_ind (reqs : NetworkRequests)
  (P : DateAPICandidate -> Prop) :
  Forall P (discovered reqs) ->
  forall c, In c (analyze_requests reqs) -> P c.
Proof.
  intros H c Hin. rewrite Forall_forall in H. apply H.
  destruct (analyze_requests_sorted reqs) as [Hperm _].
  now apply (Permutation_in c Hperm).
Qed.

(** X6. The confidence of a candidate [analyze_requests] returns lies
    between -0.2 and 1.35: the bonus of an API request and the bonus and the
    penalties of the initiator are applied after the clamp of the scorer. *)
Theorem analysis_confidence_range (reqs : NetworkRequests)
  (c : DateAPICandidate) :
  In c (analyze_requests reqs) -> confidence_within (-0.2) 1.35 c.
Proof.
  apply analyze_requests_ind. apply discovered_ind.
  - intros req c0 _ H. exact (analyzed_range req c0 true H).
  - intros req c0 _ _ H. exact (analyzed_range req c0 false H).
Qed.

Lemma origin_of_a_candidate (reqs : NetworkRequests)
  (c : DateAPICandidate) :
  In c (analyze_requests reqs) ->
  exists req c0,
    (In req (api_requests reqs)
     \/ (In req (all_requests reqs) /\ analysable req = true))
    /\ _analyze_single_request req = Some c0
    /\ c = with_confidence c0 (confidence c).
Proof.
  revert c.
  apply (analyze_requests_ind reqs
           (fun c => exists req c0,
              (In req (api_requests reqs)
               \/ (In req (all_requests reqs) /\ analysable req = true))
              /\ _analyze_single_request req = Some c0
              /\ c = with_confidence c0 (confidence c))).
  apply discovered_ind.
  - intros req c0 Hin H. exists req, c0. split; [now left|]. split; [exact H|].
    destruct (bonus_changes_the_confidence
                (with_confidence c0 (confidence c0 + 0.2)%float) req)
      as (i1 & i2 & i3 & ->). reflexivity.
  - intros req c0 Hin Ha H. exists req, c0. split; [now right|].
    split; [exact H|].
    destruct (bonus_changes_the_confidence c0 req) as (i1 & i2 & i3 & ->).
    reflexivity.
Qed.

(** X7. Every candidate [analyze_requests] returns stems from a request of
    the capture, one of [api_requests] or one of [all_requests] whose
    resource type is none or one of xhr, fetch, script and document: it is
    the candidate [_analyze_single_request] builds for that request, with
    another confidence and nothing else changed. *)
Theorem candidates_stem_from_requests (reqs : NetworkRequests)
  (c : DateAPICandidate) :
  In c (analyze_requests reqs) ->
  exists req c0,
    (In req (api_requests reqs)
     \/ (In req (all_requests reqs) /\ analysable req = true))
    /\ _analyze_single_request req = Some c0
    /\ c = with_confidence c0 (confidence c).
Proof. exact (origin_of_a_candidate reqs c). Qed.

Lemma bonus_keeps_the_url (c : DateAPICandidate) (req : Request) :
  url (_apply_initiator_bonus c req) = url c.
Proof.
  destruct (bonus_changes_the_confidence c req) as (i1 & i2 & i3 & ->).
  reflexivity.
Qed.

Lemma NoDup_snoc {A : Type} (l : list A) (a : A) :
  NoDup l -> ~ In a l -> NoDup (l ++ [a]).
Proof.
  intros Hnd Hn. induction Hnd as [|x l Hx Hnd IH]; cbn [app].
  - constructor; [intros []|constructor].
  - constructor.
    + intros Hin. apply in_app_or in Hin. destruct Hin as [Hin|[<-|[]]].
      * now apply Hx.
      * apply Hn. now left.
    + apply IH. intros Hin. apply Hn. now right.
Qed.

Lemma analyze_all_fold_urls (api : list DateAPICandidate) (l : list Request) :
  forall (extra : list DateAPICandidate) (urls : list string),
  NoDup (map url extra) ->
  (forall c, In c extra -> ~ In (url c) (map url api)) ->
  (forall u, In u urls <-> In u (map url api) \/ In u (map url extra)) ->
  exists extra',
    fst (fold_left analyze_all l (api ++ extra, urls)) = api ++ extra'
    /\ NoDup (map url extra')
    /\ (forall c, In c extra' -> ~ In (url c) (map url api)).
Proof.
  induction l as [|req l IH]; intros extra urls Hnd Hapi Hurls; cbn [fold_left].
  - exists extra. now repeat split.
  - unfold analyze_all at 2.
    destruct (Str.mem (get_default (req_url req) "") urls) eqn:Em;
      [now apply IH|].
    destruct (allowed_resource_type _); cbn [negb]; [|now apply IH].
    destruct (_analyze_single_request req) as [c0|] eqn:E; [|now apply IH].
    destruct (analyzed_request_fields req c0 E) as (Hu & _).
    rewrite Hu in *. cbn [get_default] in *.
    assert (Hnot : ~ In (url c0) urls).
    { intros Hin. apply mem_In in Hin. congruence. }
    assert (Hnot' : ~ In (url c0) (map url api)
                    /\ ~ In (url c0) (map url extra)).
    { split; intros Hin; apply Hnot, Hurls; [now left | now right]. }
    destruct Hnot' as [Hna Hne].
    rewrite <- app_assoc. apply IH.
    + rewrite map_app. cbn [map]. rewrite bonus_keeps_the_url.
      now apply NoDup_snoc.
    + intros c Hin. apply in_app_or in Hin. destruct Hin as [Hin|[<-|[]]].
      * now apply Hapi.
      * now rewrite bonus_keeps_the_url.
    + intros u. rewrite map_app. cbn [map In]. rewrite bonus_keeps_the_url.
      rewrite in_app_iff. cbn [In]. rewrite Hurls. tauto.
Qed.

(** X8. [analyze_requests] analyses a URL of [all_requests] once at most:
    the candidates it adds to those of [api_requests] have pairwise
    distinct URLs, none of them the URL of a candidate of [api_requests]. *)
Theorem no_url_is_analyzed_twice (reqs : NetworkRequests) :
  let api := fold_left analyze_api (api_requests reqs) [] in
  exists extra,
    discovered reqs = api ++ extra
    /\ NoDup (map url extra)
    /\ (forall c, In c extra -> ~ In (url c) (map url api)).
Proof.
  intros api. unfold discovered. fold api.
  destruct (analyze_all_fold_urls api (all_requests reqs) [] (map url api))
    as (extra & He & Hnd & Hd).
  - constructor.
  - intros c [].
  - intros u. cbn [map In]. tauto.
  - exists extra. rewrite app_nil_r in He. now repeat split.
Qed.

End RangeFacts.

(** ** The parameters of a replay *)

Section ReplayParamsFacts.
Context {L : PyLib}.

Lemma fill_pagination_other (d : dict pyval) (name : string) :
  name <> "pageHelp.pageNo" -> name <> "pageHelp.pageSize" ->
  dict_get name (fill_pagination d) = dict_get name d.
Proof.
  intros H1 H2. unfold fill_pagination.
  repeat match goal with
         | |- context [if ?b then _ else _] => destruct b
         end;
    repeat (rewrite dict_get_set_other by congruence); reflexivity.
Qed.

Lemma dict_has_set_same {V : Type} (k : string) (v : V) (d : dict V) :
  dict_has k (dict_set k v d) = true.
Proof. unfold dict_has. now rewrite dict_get_set_same. Qed.

Lemma dict_has_set_other {V : Type} (k k' : string) (v : V) (d : dict V) :
  k' <> k -> dict_has k (dict_set k' v d) = dict_has k d.
Proof. intros H. unfold dict_has. now rewrite dict_get_set_other. Qed.

(** X9. [build_replay_url] leaves alone what is no date parameter and no
    callback: a captured parameter keeps its value in the parameter map of
    the replay, and apart from the two pagination defaults no such name is
    added to it. *)
Theorem replay_keeps_the_other_parameters (c : DateAPICandidate)
  (start_date end_date name : string) (new_params : dict pyval) :
  replay_params c start_date end_date = Returned new_params ->
  ~ In name (dict_keys (date_params c)) ->
  name <> "jsonCallBack" -> name <> "callback" ->
  (forall v, dict_get name (params c) = Some v ->
             dict_get name new_params = Some v)
  /\ (name <> "pageHelp.pageNo" -> name <> "pageHelp.pageSize" ->
      dict_get name new_params = dict_get name (params c)).
Proof.
  intros Hnp Hnot H1 H2.
  destruct (replay_params_returned _ _ _ _ Hnp) as (d & Hd & ->).
  pose proof (substitute_fold_other _ _ _ _ _ Hnot _ _ Hd) as Hsame.
  split.
  - intros v Hv. apply fill_pagination_keeps.
    rewrite fix_callbacks_other by assumption. now rewrite Hsame.
  - intros H3 H4. rewrite fill_pagination_other by assumption.
    rewrite fix_callbacks_other by assumption. exact Hsame.
Qed.

Lemma dict_has_set_mono {V : Type} (k k' : string) (v : V) (d : dict V) :
  dict_has k d = true -> dict_has k (dict_set k' v d) = true.
Proof.
  intros H. destruct (String.eqb k' k) eqn:E.
  - apply String.eqb_eq in E. subst k'. apply dict_has_set_same.
  - apply String.eqb_neq in E. now rewrite dict_has_set_other.
Qed.

Lemma default_is_there (a b : string) (v : pyval) (d : dict pyval) :
  let d' := if negb (dict_has a d) && negb (dict_has b d)
            then dict_set a v d else d in
  dict_has a d' || dict_has b d' = true
  /\ forall k, dict_has k d = true -> dict_has k d' = true.
Proof.
  cbv zeta. destruct (dict_has a d) eqn:Ea, (dict_has b d) eqn:Eb;
    cbn [negb andb]; rewrite ?Ea, ?Eb, ?dict_has_set_same;
    (split; [reflexivity|]); auto.
  intros k. apply dict_has_set_mono.
Qed.

(** X10. The parameter map of a replay always holds a page number, under
    [pageHelp.pageNo] or [pageNo], and a page size, under
    [pageHelp.pageSize] or [pageSize]. *)
Theorem replay_has_pagination (c : DateAPICandidate)
  (start_date end_date : string) (new_params : dict pyval) :
  replay_params c start_date end_date = Returned new_params ->
  dict_has "pageHelp.pageNo" new_params || dict_has "pageNo" new_params = true
  /\ dict_has "pageHelp.pageSize" new_params
     || dict_has "pageSize" new_params = true.
Proof.
  intros Hnp. destruct (replay_params_returned _ _ _ _ Hnp) as (d0 & _ & ->).
  generalize (fix_callbacks c d0).
  intros d. unfold fill_pagination.
  destruct (default_is_there "pageHelp.pageNo" "pageNo" (VStr "1") d)
    as [H1 _]. cbv zeta in H1.
  set (d1 := if negb (dict_has "pageHelp.pageNo" d) && negb (dict_has "pageNo" d)
             then dict_set "pageHelp.pageNo" (VStr "1") d else d) in *.
  destruct (default_is_there "pageHelp.pageSize" "pageSize" (VStr "25") d1)
    as [H2 Hk]. cbv zeta in H2, Hk.
  split; [|exact H2].
  apply orb_true_iff in H1. apply orb_true_iff.
  destruct H1 as [H1|H1]; [left | right]; now apply Hk.
Qed.

(** X11. In the parameter map of a replay a callback parameter, under
    [jsonCallBack] or [callback], holds the fixed name [jsonCallback]; and
    for a host of [sse.com.cn] there is one. *)
Theorem replay_callback_is_fixed (c : DateAPICandidate)
  (start_date end_date : string) (r : dict pyval) :
  replay_params c start_date end_date = Returned r ->
  (dict_get "jsonCallBack" r = None
   \/ dict_get "jsonCallBack" r = Some (VStr "jsonCallback"))
  /\ (dict_get "callback" r = None
      \/ dict_get "callback" r = Some (VStr "jsonCallback"))
  /\ (Str.contains "sse.com.cn" (Str.lower (Url.netloc (urlparse (url c))))
      = true ->
      dict_has "jsonCallBack" r || dict_has "callback" r = true).
Proof.
  intros Hnp. destruct (replay_params_returned _ _ _ _ Hnp) as (d & _ & ->).
  assert (Hfix :
    let f := fix_callbacks c d in
    (dict_get "jsonCallBack" f = None
     \/ dict_get "jsonCallBack" f = Some (VStr "jsonCallback"))
    /\ (dict_get "callback" f = None
        \/ dict_get "callback" f = Some (VStr "jsonCallback"))
    /\ (Str.contains "sse.com.cn" (Str.lower (Url.netloc (urlparse (url c))))
        = true ->
        dict_has "jsonCallBack" f || dict_has "callback" f = true)).
  { cbv zeta. unfold fix_callbacks.
    destruct (dict_has "jsonCallBack" d) eqn:E1;
      [rewrite (dict_has_set_other "callback" "jsonCallBack") by discriminate|];
      (destruct (dict_has "callback" d) eqn:E3);
      repeat first [ rewrite dict_get_set_same
                   | rewrite dict_has_set_same
                   | rewrite dict_get_set_other by discriminate
                   | rewrite dict_has_set_other by discriminate ];
      rewrite ?E1, ?E3; cbn [negb andb]; rewrite ?andb_false_r, ?andb_true_r;
      try (destruct (Str.contains "sse.com.cn" _));
      repeat first [ rewrite dict_get_set_same
                   | rewrite dict_has_set_same
                   | rewrite dict_get_set_other by discriminate
                   | rewrite dict_has_set_other by discriminate ];
      rewrite ?E1, ?E3;
      (split; [first [now right | left; now apply dict_has_get]|]);
      (split; [first [now right | left; now apply dict_has_get]|]);
      first [discriminate | intros _; reflexivity]. }
  cbv zeta in Hfix. destruct Hfix as (H1 & H2 & H3).
  rewrite !fill_pagination_other by discriminate.
  split; [exact H1|]. split; [exact H2|].
  intros Hs. specialize (H3 Hs). apply orb_true_iff in H3.
  apply orb_true_iff.
  unfold dict_has in *.
  rewrite !fill_pagination_other by discriminate. exact H3.
Qed.

(** X12. A date parameter that is not replayed as a range takes one date,
    written in the format recorded for it (the day itself for a calendar
    format, the epoch of its midnight for an epoch format): the start date
    when its name holds [start], [begin] or [from]; else the end date when
    its name holds [end] or [to]; the start date in every other case. *)
Theorem scalar_date_parameters_take_one_date (c : DateAPICandidate)
  (start_date end_date name fmt : string) (day : datetime) (text : string)
  (new_params : dict pyval) :
  NoDup (dict_keys (date_params c)) ->
  In (name, fmt) (date_params c) ->
  range_like c name = false ->
  name <> "jsonCallBack" -> name <> "callback" ->
  strptime (if Str.any_in ["start"; "begin"; "from"] (Str.lower name)
            then start_date
            else if Str.any_in ["end"; "to"] (Str.lower name)
                 then end_date else start_date) = Some day ->
  in_format day fmt = Some text ->
  replay_params c start_date end_date = Returned new_params ->
  dict_get name new_params = Some (VStr text).
Proof.
  intros Hnd Hin Hrange H1 H2 Hday Htext Hnp.
  destruct (replay_params_returned _ _ _ _ Hnp) as (d & Hd & ->).
  apply fill_pagination_keeps. rewrite fix_callbacks_other by assumption.
  apply (substitute_fold_at c start_date end_date name fmt _ _ Hnd Hin)
    with (acc := params c); [|exact Hd].
  intros acc acc'. rewrite substitute_cases, Hrange.
  rewrite (format_date_in_format _ _ _ _ Hday Htext). cbn [bind].
  intros H. now injection H as <-.
Qed.


End ReplayParamsFacts.

(** ** The range and the outcome of a verification *)

Lemma string_ltb_irrefl (s : string) : String.ltb s s = false.
Proof.
  unfold String.ltb. pose proof (String.compare_antisym s s) as H.
  destruct (String.compare s s); try reflexivity; discriminate.
Qed.

(** X13. The range [verify_candidate] sends is in order, as the code
    compares dates (as strings): the end date does not come after today,
    and the start date does not come after the end date.  A range that is
    in order and ends today at the latest is sent as it is. *)
Theorem effective_range_is_ordered (today start_date end_date : string) :
  let r := effective_range today start_date end_date in
  String.ltb today (snd r) = false
  /\ String.ltb (snd r) (fst r) = false
  /\ (String.ltb today end_date = false ->
      String.ltb end_date start_date = false ->
      r = (start_date, end_date)).
Proof.
  cbv zeta. unfold effective_range, str_min. cbn [fst snd].
  destruct (String.ltb today end_date) eqn:E1.
  - rewrite string_ltb_irrefl.
    destruct (String.ltb today start_date) eqn:E2;
      rewrite ?string_ltb_irrefl, ?E2; repeat split; discriminate.
  - rewrite E1.
    destruct (String.ltb end_date start_date) eqn:E2;
      rewrite ?string_ltb_irrefl, ?E2; repeat split; discriminate.
Qed.


Section VerifyFacts.
Context {L : PyLib}.
Variable w : World.


End VerifyFacts.

(** ** Decoding a reply: JSON, JSONP and the placeholder callback *)

Lemma rstrip_keeps (s : string) (c : ascii) :
  Str.is_space c = false ->
  Str.rstrip (s ++ String c EmptyString) = (s ++ String c EmptyString)%string.
Proof.
  intros Hc. induction s as [|a s IH]; cbn [append Str.rstrip].
  - rewrite Hc. now rewrite andb_false_r.
  - rewrite IH. destruct s; reflexivity.
Qed.

Lemma strip_keeps (a c : ascii) (s : string) :
  Str.is_space a = false -> Str.is_space c = false ->
  Str.strip (String a (s ++ String c EmptyString))
  = String a (s ++ String c EmptyString).
Proof.
  intros Ha Hc. unfold Str.strip. cbn [Str.lstrip]. rewrite Ha.
  exact (rstrip_keeps (String a s) c Hc).
Qed.

Lemma after_name_stops (t rest : string) (c : ascii) :
  forallb is_name_char (list_ascii_of_string t) = true ->
  is_name_char c = false ->
  after_name (t ++ String c rest) = String c rest.
Proof.
  intros Ht Hc. induction t as [|a t IH]; cbn [append after_name].
  - now rewrite Hc.
  - cbn [list_ascii_of_string forallb] in Ht. apply andb_true_iff in Ht.
    destruct Ht as [Ha Ht]. rewrite Ha. now apply IH.
Qed.

Lemma split_last_paren_app (group tail : string) :
  split_last_paren tail = None ->
  split_last_paren (group ++ String ")" tail) = Some (group, tail).
Proof.
  intros Ht. induction group as [|a group IH]; cbn [append split_last_paren].
  - now rewrite Ht.
  - now rewrite IH.
Qed.

Lemma endswith_app (s : string) (c : ascii) :
  Str.endswith (String c EmptyString) (s ++ String c EmptyString) = true.
Proof.
  induction s as [|a s IH]; cbn [append Str.endswith].
  - now rewrite String.eqb_refl.
  - rewrite IH. apply orb_true_r.
Qed.

Lemma drop_last_app (s : string) (c : ascii) :
  drop_last (s ++ String c EmptyString) = s.
Proof.
  induction s as [|a s IH]; cbn [append drop_last]; [reflexivity|].
  rewrite IH. now destruct s.
Qed.

Lemma string_app_assoc (a b c : string) :
  ((a ++ b) ++ c = a ++ (b ++ c))%string.
Proof. induction a as [|x a IH]; cbn [append]; [reflexivity | now rewrite IH]. Qed.

Lemma name_char_is_no_space (c : ascii) :
  is_name_start c = true -> Str.is_space c = false.
Proof.
  destruct c as [[] [] [] [] [] [] [] []]; vm_compute; congruence.
Qed.

Lemma name_start_is_no_slash (c : ascii) (t : string) :
  is_name_start c = true ->
  Str.startswith "/**/" (String c t) = false
  /\ Str.startswith "?(" (String c t) = false.
Proof.
  intros H. unfold Str.startswith. cbn [String.prefix].
  split.
  - destruct (ascii_dec "/" c) as [<-|]; [discriminate H | reflexivity].
  - destruct (ascii_dec "?" c) as [<-|]; [discriminate H | reflexivity].
Qed.

Section ParseFacts.
Context {L : PyLib}.

(** The group of a call [name(body)tail], for a tail without [)] that the
    pattern accepts. *)
Lemma jsonp_group_of_call (c : ascii) (t body tail : string) :
  is_name (String c t) = true ->
  split_last_paren tail = None -> is_jsonp_tail tail = true ->
  jsonp_group (String c t ++ String "(" (body ++ String ")" tail))
  = Some body.
Proof.
  unfold is_name. intros Hn Hs Ht. apply andb_true_iff in Hn.
  destruct Hn as [Hc Hrest]. cbn [append jsonp_group]. rewrite Hc.
  rewrite after_name_stops by (exact Hrest || reflexivity).
  cbn [Str.lstrip]. change (Str.is_space "(") with false. cbn iota.
  change (Ascii.eqb "(" "(") with true. cbn iota.
  rewrite split_last_paren_app by exact Hs. now rewrite Ht.
Qed.

(** X15. A JSONP reply decodes to what its argument decodes to: for a
    JavaScript name [name], the texts [name(body)], [name(body);] and
    [/**/name(body)] are parsed as [body] is by [json.loads], whatever
    [body] is. *)
Theorem jsonp_wrapper_is_removed (name body : string) :
  is_name name = true ->
  _parse_response (name ++ "(" ++ body ++ ")") = decoded body
  /\ _parse_response (name ++ "(" ++ body ++ ");") = decoded body
  /\ _parse_response ("/**/" ++ name ++ "(" ++ body ++ ")") = decoded body.
Proof.
  intros Hn. destruct name as [|c t]; [discriminate|].
  pose proof Hn as Hn'. unfold is_name in Hn'. apply andb_true_iff in Hn'.
  destruct Hn' as [Hc _].
  pose proof (name_char_is_no_space c Hc) as Hsp.
  assert (H1 : forall text,
            Str.strip text = text ->
            (exists c' t', text = String c' t' /\ is_name_start c' = true) ->
            forall group, jsonp_group text = Some group ->
            _parse_response text = decoded group).
  { intros text Hstrip (c' & t' & -> & Hc') group Hg.
    unfold _parse_response. rewrite Hstrip.
    destruct (name_start_is_no_slash c' t' Hc') as [-> ->].
    cbn [andb]. rewrite Hg. reflexivity. }
  assert (Ea : (String c t ++ "(" ++ body ++ ")")%string
               = String c ((t ++ "(" ++ body) ++ ")")).
  { change (String c t ++ "(" ++ body ++ ")")%string
      with (String c (t ++ ("(" ++ body) ++ ")"))%string.
    now rewrite <- string_app_assoc. }
  assert (Eb : (String c t ++ "(" ++ body ++ ");")%string
               = String c ((t ++ "(" ++ body ++ ")") ++ ";")).
  { rewrite string_app_assoc. cbn [append]. rewrite string_app_assoc. reflexivity. }
  assert (Ga : jsonp_group (String c t ++ "(" ++ body ++ ")") = Some body).
  { exact (jsonp_group_of_call c t body "" Hn eq_refl eq_refl). }
  assert (Gb : jsonp_group (String c t ++ "(" ++ body ++ ");") = Some body).
  { exact (jsonp_group_of_call c t body ";" Hn eq_refl eq_refl). }
  assert (Sa : Str.strip (String c t ++ "(" ++ body ++ ")")
               = (String c t ++ "(" ++ body ++ ")")%string).
  { rewrite Ea. now apply strip_keeps. }
  assert (Sb : Str.strip (String c t ++ "(" ++ body ++ ");")
               = (String c t ++ "(" ++ body ++ ");")%string).
  { rewrite Eb. now apply strip_keeps. }
  split; [|split].
  - apply H1; [exact Sa | | exact Ga]. exists c, (t ++ "(" ++ body ++ ")")%string.
    split; [reflexivity | exact Hc].
  - apply H1; [exact Sb | | exact Gb]. exists c, (t ++ "(" ++ body ++ ");")%string.
    split; [reflexivity | exact Hc].
  - unfold _parse_response.
    assert (Sc : Str.strip ("/**/" ++ String c t ++ "(" ++ body ++ ")")
                 = ("/**/" ++ String c t ++ "(" ++ body ++ ")")%string).
    { change ("/**/" ++ String c t ++ "(" ++ body ++ ")")%string
        with (String "/" ("**/" ++ (String c t ++ "(" ++ body ++ ")")))%string.
      rewrite Ea.
      change ("**/" ++ String c ((t ++ "(" ++ body) ++ ")"))%string
        with (("**/" ++ String c (t ++ "(" ++ body)) ++ ")")%string.
      now apply strip_keeps. }
    rewrite Sc.
    change (Str.startswith "/**/"
              ("/**/" ++ String c t ++ "(" ++ body ++ ")")) with true.
    cbn iota.
    change (Str.drop 4 ("/**/" ++ String c t ++ "(" ++ body ++ ")"))
      with (String c t ++ "(" ++ body ++ ")")%string.
    rewrite Sa.
    destruct (name_start_is_no_slash c (t ++ "(" ++ body ++ ")") Hc) as [_ Hq].
    change (String c (t ++ "(" ++ body ++ ")"))%string
      with (String c t ++ "(" ++ body ++ ")")%string in Hq.
    rewrite Hq. cbn [andb]. rewrite Ga. reflexivity.
Qed.

(** X16. The text of a JSON object is decoded as it is, and so is the same
    text inside the wrapper [?(...)] that a placeholder callback leaves:
    for a text [body] that starts with an opening and ends with a closing
    brace, [body] and [?(body)] are parsed as [body] is by [json.loads]. *)
Theorem object_text_is_decoded_as_it_is (inner : string) :
  let body := ("{" ++ inner ++ "}")%string in
  _parse_response body = decoded body
  /\ _parse_response ("?(" ++ body ++ ")") = decoded body.
Proof.
  cbv zeta.
  assert (Sa : Str.strip ("{" ++ inner ++ "}") = ("{" ++ inner ++ "}")%string).
  { change ("{" ++ inner ++ "}")%string with (String "{" (inner ++ "}")).
    now apply strip_keeps. }
  assert (Ga : jsonp_group ("{" ++ inner ++ "}") = None) by reflexivity.
  split.
  - unfold _parse_response. rewrite Sa.
    assert (Q1 : Str.startswith "/**/" ("{" ++ inner ++ "}") = false)
      by reflexivity.
    assert (Q2 : Str.startswith "?(" ("{" ++ inner ++ "}") = false)
      by reflexivity.
    rewrite Q1, Q2. cbn [andb]. rewrite Ga. reflexivity.
  - unfold _parse_response.
    assert (Sb : Str.strip ("?(" ++ ("{" ++ inner ++ "}") ++ ")")
                 = ("?(" ++ ("{" ++ inner ++ "}") ++ ")")%string).
    { change ("?(" ++ ("{" ++ inner ++ "}") ++ ")")%string
        with (String "?" (("({" ++ inner ++ "}") ++ ")")).
      now apply strip_keeps. }
    rewrite Sb.
    assert (Q1 : Str.startswith "/**/" ("?(" ++ ("{" ++ inner ++ "}") ++ ")")
                 = false) by reflexivity.
    assert (Q2 : Str.startswith "?(" ("?(" ++ ("{" ++ inner ++ "}") ++ ")")
                 = true) by reflexivity.
    assert (Q3 : Str.endswith ")" ("?(" ++ ("{" ++ inner ++ "}") ++ ")") = true).
    { change ("?(" ++ ("{" ++ inner ++ "}") ++ ")")%string
        with (("?({" ++ inner ++ "}") ++ ")")%string.
      apply endswith_app. }
    assert (Q4 : Str.drop 2 ("?(" ++ ("{" ++ inner ++ "}") ++ ")")
                 = (("{" ++ inner ++ "}") ++ ")")%string) by reflexivity.
    rewrite Q1, Q2, Q3. cbn [andb]. rewrite Q4, drop_last_app, Ga.
    reflexivity.
Qed.

End ParseFacts.

(** ** Layer 0: the configuration chosen, the hook, the candidate built *)

Lemma date_param_rank_le (config : GlobalVarAPIConfig) :
  (date_param_rank config <= 2)%nat.
Proof. unfold date_param_rank. lia. Qed.

Lemma choose_config_after_one (cfgs : list GlobalVarAPIConfig) :
  forall a,
  exists b, choose_config cfgs (Some a) = Some b
    /\ ((b = a /\ forall c, In c cfgs -> (date_param_rank c <= 1)%nat)
        \/ exists pre post,
             cfgs = pre ++ b :: post /\ date_param_rank b = 2%nat
             /\ forall c, In c pre -> (date_param_rank c <= 1)%nat).
Proof.
  induction cfgs as [|config rest IH]; intros a; cbn [choose_config].
  - exists a. split; [reflexivity|]. left. split; [reflexivity | intros c []].
  - destruct (2 <=? List.length (cfg_date_params config))%nat eqn:E2.
    + apply Nat.leb_le in E2. exists config. split; [reflexivity|]. right.
      exists [], rest. split; [reflexivity|].
      split; [unfold date_param_rank; lia | intros c []].
    + apply Nat.leb_gt in E2.
      assert (Hc : (date_param_rank config <= 1)%nat)
        by (unfold date_param_rank; lia).
      assert (Hstep : exists b, choose_config rest (Some a) = Some b
                /\ ((b = a /\ forall c, In c (config :: rest) ->
                                (date_param_rank c <= 1)%nat)
                    \/ exists pre post,
                         config :: rest = pre ++ b :: post
                         /\ date_param_rank b = 2%nat
                         /\ forall c, In c pre -> (date_param_rank c <= 1)%nat)).
      { destruct (IH a) as (b & Hb & [[-> Hall]|(pre & post & -> & Hr & Hpre)]).
        - exists a. split; [exact Hb|]. left. split; [reflexivity|].
          intros c [<-|Hin]; [exact Hc | now apply Hall].
        - exists b. split; [exact Hb|]. right. exists (config :: pre), post.
          split; [reflexivity|]. split; [exact Hr|].
          intros c [<-|Hin]; [exact Hc | now apply Hpre]. }
      destruct (1 <=? List.length (cfg_date_params config))%nat; exact Hstep.
Qed.

Lemma choose_config_from_none (cfgs : list GlobalVarAPIConfig) :
  match choose_config cfgs None with
  | Some b =>
      exists pre post,
        cfgs = pre ++ b :: post /\ (1 <= date_param_rank b)%nat
        /\ (forall c, In c pre -> (date_param_rank c < date_param_rank b)%nat)
        /\ (forall c, In c post -> (date_param_rank c <= date_param_rank b)%nat)
  | None => forall c, In c cfgs -> date_param_rank c = 0%nat
  end.
Proof.
  induction cfgs as [|config rest IH]; cbn [choose_config]; [intros c []|].
  destruct (2 <=? List.length (cfg_date_params config))%nat eqn:E2.
  - apply Nat.leb_le in E2.
    assert (Hr : date_param_rank config = 2%nat)
      by (unfold date_param_rank; lia).
    exists [], rest. split; [reflexivity|]. rewrite Hr.
    split; [lia|]. split; [intros c []|].
    intros c _. apply date_param_rank_le.
  - apply Nat.leb_gt in E2.
    destruct (1 <=? List.length (cfg_date_params config))%nat eqn:E1.
    + apply Nat.leb_le in E1.
      assert (Hr : date_param_rank config = 1%nat)
        by (unfold date_param_rank; lia).
      destruct (choose_config_after_one rest config)
        as (b & -> & [[-> Hall]|(pre & post & -> & Hb & Hpre)]).
      * exists [], rest. split; [reflexivity|]. rewrite Hr.
        split; [lia|]. split; [intros c []|]. exact Hall.
      * exists (config :: pre), post. split; [reflexivity|]. rewrite Hb.
        split; [lia|]. split.
        -- intros c [<-|Hin]; [lia|]. specialize (Hpre c Hin). lia.
        -- intros c _. apply date_param_rank_le.
    + apply Nat.leb_gt in E1.
      assert (Hr : date_param_rank config = 0%nat)
        by (unfold date_param_rank; lia).
      destruct (choose_config rest None) as [b|].
      * destruct IH as (pre & post & -> & Hb & Hpre & Hpost).
        exists (config :: pre), post. split; [reflexivity|].
        split; [exact Hb|]. split; [|exact Hpost].
        intros c [<-|Hin]; [lia | now apply Hpre].
      * intros c [<-|Hin]; [exact Hr | now apply IH].
Qed.

Section Layer0Facts.
Context {L : PyLib}.

(** X17. When layer 0 succeeds, its configurations are those of the page
    scan if the scan found any, whatever the hook holds or raises, and
    those read off the hook records otherwise; and the configuration it
    returns as the best is the earliest among those with the most date
    parameters, counted up to two. *)
Theorem layer0_best_config (b : Browser) (best : GlobalVarAPIConfig)
  (all : list GlobalVarAPIConfig) :
  _try_layer0_global_var_scan b = L0Found best all ->
  (exists pg,
     page b = Some pg
     /\ ((exists sr, _execute_global_var_scan pg = Some sr
                     /\ found sr = true /\ api_configs sr = all)
         \/ (scan_found (_execute_global_var_scan pg) = false
             /\ exists records,
                  intercepted b = HookRecords records
                  /\ hook_configs records = all)))
  /\ exists pre post,
       all = pre ++ best :: post
       /\ (forall c, In c pre -> (date_param_rank c < date_param_rank best)%nat)
       /\ (forall c, In c post -> (date_param_rank c <= date_param_rank best)%nat).
Proof.
  unfold _try_layer0_global_var_scan.
  destruct (page b) as [pg|]; [|discriminate].
  assert (Hchoice : forall sr,
    (if negb (found sr)
     then L0Failed (get_default (scan_error sr)
                      (VStr "未找到包含 API 配置的全局变量"))
     else match api_configs sr with
          | [] => L0Failed (VStr "扫描到全局变量但未找到有效的 API 配置")
          | first :: _ =>
              match choose_config (api_configs sr) None with
              | Some best_config => L0Found best_config (api_configs sr)
              | None => L0Found first (api_configs sr)
              end
          end) = L0Found best all ->
    found sr = true /\ api_configs sr = all
    /\ exists pre post,
         all = pre ++ best :: post
         /\ (forall c, In c pre ->
             (date_param_rank c < date_param_rank best)%nat)
         /\ (forall c, In c post ->
             (date_param_rank c <= date_param_rank best)%nat)).
  { intros sr. destruct (found sr); cbn [negb]; [|discriminate].
    destruct (api_configs sr) as [|first rest] eqn:Ec; [discriminate|].
    pose proof (choose_config_from_none (first :: rest)) as Hc.
    destruct (choose_config (first :: rest) None) as [b0|]; intros H;
      injection H as <- <-; (split; [reflexivity|]); (split; [reflexivity|]).
    - destruct Hc as (pre & post & -> & _ & Hpre & Hpost).
      now exists pre, post.
    - exists [], rest. split; [reflexivity|]. split; [intros c []|].
      intros c Hin. rewrite (Hc c (or_intror Hin)). lia. }
  destruct (scan_found (_execute_global_var_scan pg)) eqn:Ef; cbn [negb].
  - destruct (_execute_global_var_scan pg) as [sr|] eqn:Es; [|discriminate].
    intros H. destruct (Hchoice sr H) as (Hf & Ha & Hrest).
    split; [|exact Hrest]. exists pg. split; [reflexivity|]. left.
    now exists sr.
  - destruct (intercepted b) as [|msg|records] eqn:Ei.
    + destruct (_execute_global_var_scan pg) as [sr|] eqn:Es; [|discriminate].
      intros H. destruct (Hchoice sr H) as (Hf & _). cbn [scan_found] in Ef.
      congruence.
    + discriminate.
    + destruct (scan_found (_analyze_intercepted_apis records)) eqn:Eh.
      * destruct (_analyze_intercepted_apis records) as [sr|] eqn:Ea;
          [|discriminate].
        intros H. destruct (Hchoice sr H) as (Hf & Hall & Hrest).
        split; [|exact Hrest]. exists pg. split; [reflexivity|]. right.
        split; [exact Ef|]. exists records. split; [reflexivity|].
        unfold _analyze_intercepted_apis in Ea.
        destruct records as [|r rs]; [discriminate|].
        destruct (hook_configs (r :: rs)) as [|cfg cfgs];
          injection Ea as <-; cbn [found api_configs] in *;
          [discriminate | exact Hall].
      * destruct (_execute_global_var_scan pg) as [sr|] eqn:Es; [|discriminate].
        intros H. destruct (Hchoice sr H) as (Hf & _). cbn [scan_found] in Ef.
        congruence.
Qed.

Lemma before_question_has_none (s : string) :
  Str.contains "?" (before_question s) = false.
Proof.
  induction s as [|c s IH]; cbn [before_question]; [reflexivity|].
  destruct (Ascii.eqb c "?") eqn:E; [reflexivity|].
  cbn [Str.contains String.prefix]. rewrite IH.
  destruct (ascii_dec "?" c) as [<-|]; [discriminate E|].
  reflexivity.
Qed.

Lemma before_question_prefix (p s : string) :
  Str.contains "?" p = false -> String.prefix p s = true ->
  String.prefix p (before_question s) = true.
Proof.
  revert s. induction p as [|a p IH]; intros s Hp H.
  - now destruct (before_question s).
  - destruct s as [|c s]; cbn [String.prefix] in H; [discriminate|].
    destruct (ascii_dec a c) as [<-|]; [|discriminate].
    cbn [Str.contains String.prefix] in Hp.
    apply orb_false_iff in Hp. destruct Hp as [Hp1 Hp2].
    cbn [before_question].
    destruct (Ascii.eqb a "?") eqn:E.
    + apply Ascii.eqb_eq in E. subst a.
      destruct (ascii_dec "?" "?") as [_|n]; [|now elim n].
      now destruct p.
    + cbn [String.prefix]. destruct (ascii_dec a a) as [_|n]; [|now elim n].
      now apply IH.
Qed.

Lemma intercepted_config_shape (record : InterceptRecord)
  (cfg : GlobalVarAPIConfig) :
  intercepted_config record = Some cfg ->
  cfg_date_params cfg <> []
  /\ Str.startswith "http" (api_url cfg) = true
  /\ Str.contains "?" (api_url cfg) = false
  /\ dict_get "source" (extra_info cfg) = Some (VStr "xhr_fetch_hook")
  /\ dict_keys (cfg_date_params cfg)
     = dict_keys (_identify_date_params (all_params cfg)).
Proof.
  unfold intercepted_config.
  destruct (String.eqb (get_default (ir_url record) "") ""); [discriminate|].
  destruct (existsb _ _); [discriminate|].
  set (absolute := if Str.startswith "//" (get_default (ir_url record) "")
                   then Some ("https:" ++ get_default (ir_url record) "")%string
                   else if Str.startswith "/" (get_default (ir_url record) "")
                        then None else Some (get_default (ir_url record) "")).
  destruct absolute as [u|]; [|discriminate].
  destruct (Str.startswith "http" u) eqn:Eh; cbn [negb]; [|discriminate].
  destruct (_identify_date_params _) as [|[name0 fmt0] more] eqn:Ed;
    [discriminate|].
  intros H. injection H as <-.
  cbn [cfg_date_params api_url extra_info all_params]. rewrite Ed.
  split; [discriminate|]. split.
  { unfold Str.startswith in *. now apply before_question_prefix. }
  split; [apply before_question_has_none|]. split; [reflexivity|].
  unfold dict_keys. cbn [map fst]. f_equal. rewrite map_map. reflexivity.
Qed.

Lemma hook_configs_shape (records : list InterceptRecord)
  (cfg : GlobalVarAPIConfig) :
  In cfg (hook_configs records) ->
  exists record, In record records /\ intercepted_config record = Some cfg.
Proof.
  induction records as [|record rest IH]; cbn [hook_configs]; [intros []|].
  destruct (intercepted_config record) as [cfg0|] eqn:E.
  - intros [<-|Hin].
    + exists record. split; [now left | exact E].
    + destruct (IH Hin) as (r & Hr & Hc). exists r. split; [now right | exact Hc].
  - intros Hin. destruct (IH Hin) as (r & Hr & Hc).
    exists r. split; [now right | exact Hc].
Qed.

(** X18. [_analyze_intercepted_apis] reports a find exactly when it built a
    configuration, and every configuration it builds has at least one date
    parameter (the ones the recogniser finds in its parameters), an
    absolute [http] URL without a query string, and the hook as its
    source. *)
Theorem hook_configurations_have_date_parameters
  (records : list InterceptRecord) (sr : ScanResult) :
  _analyze_intercepted_apis records = Some sr ->
  records <> []
  /\ api_configs sr = hook_configs records
  /\ found sr = negb (match api_configs sr with [] => true | _ => false end)
  /\ forall cfg, In cfg (api_configs sr) ->
       cfg_date_params cfg <> []
       /\ Str.startswith "http" (api_url cfg) = true
       /\ Str.contains "?" (api_url cfg) = false
       /\ dict_get "source" (extra_info cfg) = Some (VStr "xhr_fetch_hook")
       /\ dict_keys (cfg_date_params cfg)
          = dict_keys (_identify_date_params (all_params cfg)).
Proof.
  unfold _analyze_intercepted_apis.
  destruct records as [|r rs]; [discriminate|].
  destruct (hook_configs (r :: rs)) as [|cfg0 cfgs] eqn:E; intros H;
    injection H as <-; cbn [api_configs found].
  - split; [discriminate|]. split; [reflexivity|]. split; [reflexivity|].
    intros cfg [].
  - split; [discriminate|]. split; [reflexivity|]. split; [reflexivity|].
    intros cfg Hin. rewrite <- E in Hin.
    destruct (hook_configs_shape _ _ Hin) as (record & _ & Hc).
    now apply (intercepted_config_shape record).
Qed.

End Layer0Facts.

(** ** The candidate built from a configuration of the page *)

Lemma add_missing_has (d : dict pyval) (k : string) (v : pyval) :
  dict_has k (add_missing d k v) = true.
Proof.
  unfold add_missing. destruct (dict_has k d) eqn:E; [exact E|].
  apply dict_has_set_same.
Qed.

Lemma add_missing_mono (d : dict pyval) (k k' : string) (v : pyval) :
  dict_has k d = true -> dict_has k (add_missing d k' v) = true.
Proof.
  intros H. unfold add_missing. destruct (dict_has k' d); [exact H|].
  now apply dict_has_set_mono.
Qed.

Lemma add_missing_fold (keys : list string) (v : pyval) :
  forall d k,
  In k keys \/ dict_has k d = true ->
  dict_has k (fold_left (fun d dp => add_missing d dp v) keys d) = true.
Proof.
  induction keys as [|k0 keys IH]; intros d k H; cbn [fold_left].
  - destruct H as [[]|H]. exact H.
  - apply IH. destruct H as [[<-|H]|H].
    + right. apply add_missing_has.
    + now left.
    + right. now apply add_missing_mono.
Qed.

Lemma dict_set_fold_keys (fmt : string) (keys : list string) :
  forall (acc : dict string) (k : string),
  In k (dict_keys (fold_left (fun d p => dict_set p fmt d) keys acc))
  <-> In k (dict_keys acc) \/ In k keys.
Proof.
  induction keys as [|k0 keys IH]; intros acc k; cbn [fold_left].
  - cbn [In]. tauto.
  - rewrite IH. cbn [In]. split.
    + intros [H|H]; [|now right; right].
      apply dict_set_keys in H. destruct H as [->|H]; [right; now left | now left].
    + intros [H|[<-|H]].
      * left. apply dict_has_keys. apply dict_has_set_mono.
        now apply dict_keys_has.
      * left. apply dict_has_keys. apply dict_has_set_same.
      * now right.
Qed.

(** The last step of [_build_candidate_from_global_var]: the object of the
    flag scan gets the range parameter [seDate] when it names no date
    parameter. *)
Lemma flag_obj_cases (dpf : dict string) (src : option pyval)
  (fmt : string) (merged : dict pyval) (r : dict string * dict pyval) :
  match dpf, src with
  | [], Some (VStr "flag_obj") =>
      ([("seDate", fmt)], dict_set "seDate" (VList []) merged)
  | _, _ => (dpf, merged)
  end = r ->
  r = (dpf, merged)
  \/ (dpf = []
      /\ r = ([("seDate", fmt)], dict_set "seDate" (VList []) merged)).
Proof.
  destruct dpf as [|e dpf]; [|intros <-; now left].
  destruct src as [[| | |s| |]|]; try (intros <-; now left).
  destruct (String.eqb s "flag_obj") eqn:E.
  - apply String.eqb_eq in E. subst s. intros <-. right. now split.
  - intros <-. left. revert E.
    do 9 (destruct s as [|[[] [] [] [] [] [] [] []] s];
          try reflexivity; try discriminate).
Qed.

Section CandidateFacts.
Context {L : PyLib}.
Variable w : World.

(** X19. A candidate [_build_candidate_from_global_var] builds has the
    confidence 0.95 and the resource type [global_var]; its method is GET
    or POST, and GET for a JSONP configuration; every date parameter of the
    configuration is one of its date parameters, and every date parameter
    it has is one of its parameters.  None is built for an empty URL. *)
Theorem global_var_candidate_shape (cfg : GlobalVarAPIConfig)
  (c : DateAPICandidate) :
  _build_candidate_from_global_var w cfg = Some c ->
  api_url cfg <> ""
  /\ confidence c = 0.95%float /\ resource_type c = "global_var"
  /\ is_verified c = false
  /\ (method c = "GET" \/ method c = "POST")
  /\ (is_jsonp cfg = true -> method c = "GET")
  /\ (forall k, In k (dict_keys (cfg_date_params cfg)) ->
      In k (dict_keys (date_params c)))
  /\ (forall k, In k (dict_keys (date_params c)) ->
      dict_has k (params c) = true).
Proof.
  unfold _build_candidate_from_global_var.
  destruct (String.eqb (api_url cfg) "") eqn:E0; [discriminate|].
  apply String.eqb_neq in E0. cbv zeta.
  match goal with
  | |- context [if Str.contains "?" ?u then _ else _] =>
      destruct (Str.contains "?" u)
  end;
  match goal with
  | |- context [match ?X with (_, _) => _ end] =>
      destruct X as [dpf merged] eqn:EX
  end;
  apply flag_obj_cases in EX;
  intros H; injection H as <-;
  cbn [confidence resource_type is_verified method date_params params];
  (split; [exact E0|]); (split; [reflexivity|]); (split; [reflexivity|]);
  (split; [reflexivity|]);
  (split;
   [ repeat match goal with
            | |- context [if ?b then _ else _] => destruct b
            end; auto |]);
  (split; [intros ->; reflexivity|]);
  (destruct EX as [EX|[Hnil EX]]; injection EX as -> ->).
  all: split.
  all: try (intros k Hk; apply dict_set_fold_keys; now right).
  all: try (intros k Hk; apply dict_set_fold_keys in Hk;
            destruct Hk as [[]|Hk]; apply add_missing_fold; now left).
  all: try (intros k Hk; exfalso;
            assert (Hin : In k (dict_keys
                      (fold_left (fun d p => dict_set p (date_format cfg) d)
                         (dict_keys (cfg_date_params cfg)) [])))
              by (apply dict_set_fold_keys; now right);
            rewrite Hnil in Hin; exact Hin).
  all: try (intros k [<-|[]]; apply dict_has_set_same).
Qed.

End CandidateFacts.

(** ** Layers 2 and 3: which candidate wins *)

Section PageLayerFacts.
Context {L : PyLib}.
Variable w : World.
Variables start_date end_date : string.

Lemma replay_events_app (l1 l2 : list (DateAPICandidate * HttpRequest)) :
  replay_events (l1 ++ l2) = replay_events l1 ++ replay_events l2.
Proof. unfold replay_events. apply map_app. Qed.

Lemma verified_count_pos (n : nat) (request : HttpRequest) :
  v_success (verify_at w n request) = true ->
  (0 < v_data_count (verify_at w n request))%Z
  /\ exists d, v_parsed_data (verify_at w n request) = Some (VDict d).
Proof.
  unfold verify_at. intros H.
  destruct (verified_reply_is_an_object _ H) as (d & Hd & Hn).
  split; [exact Hn|]. exists d. rewrite Hd in *.
  cbn [verify_outcome Z.eqb Pos.eqb negb] in *.
  destruct (_validate_response (VDict d)) as [[ok n0] err].
  cbn [v_success v_parsed_data] in *. now rewrite H.
Qed.

Lemma analyzed_candidates_are_unverified (reqs : NetworkRequests)
  (c : DateAPICandidate) :
  In c (analyze_requests reqs) ->
  is_verified c = false /\ verification_result c = None.
Proof.
  intros H. destruct (origin_of_a_candidate reqs c H)
    as (req & c0 & _ & Hc0 & ->).
  destruct (analyzed_request_fields req c0 Hc0)
    as (_ & _ & _ & _ & _ & _ & _ & _ & Hv & Hr).
  now split.
Qed.

Lemma verdicts_are_of_the_list
  (sent : list (DateAPICandidate * HttpRequest)) :
  forall (n : nat) (c : DateAPICandidate) (r : VerifyResult),
  In (c, r) (verdicts_from w n sent) -> In c (map fst sent).
Proof.
  induction sent as [|[c0 r0] sent IH]; intros n c r;
    cbn [verdicts_from map fst In]; [contradiction|].
  intros [H|H]; [injection H as -> _; now left | right; now apply (IH (S n) c r)].
Qed.

(** A candidate that was replayed is one of the list. *)
Lemma replayed_is_of_the_list (k : nat) (l : list DateAPICandidate)
  (c : DateAPICandidate) :
  In c (map fst (fst (replayable w start_date end_date (firstn k l)))) ->
  In c l.
Proof.
  intros H.
  destruct (replayable_prefix w start_date end_date (firstn k l))
    as [[rest Hrest] _].
  rewrite <- (firstn_skipn k l). apply in_or_app. left.
  rewrite Hrest. apply in_or_app. now left.
Qed.

Lemma layer2_step_cases (st : Loop2) (c : DateAPICandidate) :
  layer2_step w start_date end_date st c
  = match replay_request w c start_date end_date with
    | Raised exc => Raised exc
    | Returned request =>
        let r := verify_at w (replays (loop2_trace st)) request in
        let trace := loop2_trace st ++ [Replayed request] in
        Returned
          (if v_success r && (best_data_count2 st <? v_data_count r)%Z
           then mkLoop2 (Some c) (v_data_count r) (last_error st) trace
           else mkLoop2 (best_candidate2 st) (best_data_count2 st) (v_error r)
                  trace)
    end.
Proof.
  unfold layer2_step. rewrite verify_candidate_cases.
  destruct (replay_request w c start_date end_date); reflexivity.
Qed.

Lemma layer2_turn_inv (st : Loop2) (c : DateAPICandidate)
  (request : HttpRequest) (trace : list event)
  (done : list (DateAPICandidate * VerifyResult)) :
  best_inv2 st done ->
  let r := verify_at w (replays (loop2_trace st)) request in
  best_inv2
    (if v_success r && (best_data_count2 st <? v_data_count r)%Z
     then mkLoop2 (Some c) (v_data_count r) (last_error st) trace
     else mkLoop2 (best_candidate2 st) (best_data_count2 st) (v_error r) trace)
    (done ++ [(c, r)]).
Proof.
  intros Hinv. cbv zeta.
  set (r := verify_at w (replays (loop2_trace st)) request).
  pose proof (verified_count_pos (replays (loop2_trace st)) request) as Hpos.
  fold r in Hpos.
  destruct (v_success r && (best_data_count2 st <? v_data_count r)%Z) eqn:E.
  - apply andb_true_iff in E. destruct E as [Es Ec]. apply Z.ltb_lt in Ec.
    unfold best_inv2. cbn [best_candidate2 best_data_count2].
    exists done, r, []. split; [reflexivity|]. split; [exact Es|].
    split; [reflexivity|]. split; [now apply Hpos|]. split; [|intros cr []].
    intros cr Hin Hv. unfold best_inv2 in Hinv.
    destruct (best_candidate2 st) as [b|].
    + destruct Hinv as (pre & r0 & post & -> & Hs0 & Hc0 & _ & Hpre & Hpost).
      apply in_app_or in Hin. destruct Hin as [Hin|[<-|Hin]].
      * specialize (Hpre cr Hin Hv). lia.
      * unfold pair_count. cbn [snd]. lia.
      * specialize (Hpost cr Hin Hv). lia.
    + destruct Hinv as [_ Hall]. rewrite (Hall cr Hin) in Hv. discriminate.
  - unfold best_inv2 in *. cbn [best_candidate2 best_data_count2].
    destruct (best_candidate2 st) as [b|].
    + destruct Hinv as (pre & r0 & post & -> & Hs0 & Hc0 & Hp0 & Hpre & Hpost).
      exists pre, r0, (post ++ [(c, r)]). rewrite <- app_assoc.
      split; [reflexivity|]. split; [exact Hs0|]. split; [exact Hc0|].
      split; [exact Hp0|]. split; [exact Hpre|].
      intros cr Hin Hv. apply in_app_or in Hin. destruct Hin as [Hin|[<-|[]]].
      * now apply Hpost.
      * unfold verified_pair, pair_count in *. cbn [snd] in *.
        rewrite Hv in E. cbn [andb] in E. apply Z.ltb_ge in E. lia.
    + destruct Hinv as [H0 Hall]. split; [exact H0|].
      intros cr Hin. apply in_app_or in Hin. destruct Hin as [Hin|[<-|[]]].
      * now apply Hall.
      * unfold verified_pair. cbn [snd].
        destruct (v_success r) eqn:Es; [|reflexivity].
        destruct (Hpos eq_refl) as [Hp _]. cbn [andb] in E.
        apply Z.ltb_ge in E. lia.
Qed.

(** The loop of layer 2 replays the candidates whose request can be built,
    up to the first whose request cannot, which ends it. *)
Lemma layer2_loop_spec (top : list DateAPICandidate) :
  forall st done,
  best_inv2 st done ->
  let sent := fst (replayable w start_date end_date top) in
  let left := loop_until_raise (layer2_step w start_date end_date) top st in
  best_inv2 (fst left)
    (done ++ verdicts_from w (replays (loop2_trace st)) sent)
  /\ loop2_trace (fst left) = loop2_trace st ++ replay_events sent
  /\ snd left = snd (replayable w start_date end_date top).
Proof.
  induction top as [|c top IH]; intros st done Hinv; cbv zeta.
  - cbn [replayable loop_until_raise fst snd replay_events map verdicts_from].
    rewrite !app_nil_r. auto.
  - cbn [replayable loop_until_raise]. rewrite layer2_step_cases.
    destruct (replay_request w c start_date end_date) as [request|exc].
    + cbv beta iota zeta.
      match goal with
      | |- context [loop_until_raise _ top ?s] => set (st1 := s)
      end.
      pose proof (layer2_turn_inv st c request
                    (loop2_trace st ++ [Replayed request]) done Hinv) as Hinv1.
      cbv zeta in Hinv1. fold st1 in Hinv1.
      assert (Htr : loop2_trace st1 = loop2_trace st ++ [Replayed request]).
      { subst st1. destruct (v_success _ && _); reflexivity. }
      destruct (IH st1 _ Hinv1) as (H1 & H2 & H3).
      destruct (replayable w start_date end_date top) as [sent exc].
      cbn [fst snd replay_events map verdicts_from] in *.
      rewrite Htr, replays_snoc, <- app_assoc in H1.
      rewrite H2, Htr, <- !app_assoc. auto.
    + cbn [fst snd replay_events map verdicts_from]. rewrite !app_nil_r. auto.
Qed.

(** X20. Layer 2 goes through the first three candidates of the requests
    captured after the date picker was operated.  If the request of one of
    them cannot be built, the layer stops there and fails with the text of
    the exception, whatever the replays before it returned.  Otherwise it
    replays all of them and returns the one whose replay succeeded with the
    largest item count, the earliest when several share it; it does not
    apply the sanity check of layer 1, and its success carries no replayed
    data.  When it fails otherwise, either it sent no request or none of
    these replays succeeded. *)
Theorem layer2_returns_the_largest_count (d : DomPage) (self : Extractor)
  (trace : list event) :
  match _try_layer2_dom_detect w d self trace start_date end_date with
  | (LayerFound best n replayed picker_type, self', trace') =>
      exists reqs sent,
        detected d = Some picker_type /\ operated d = true
        /\ captured d = Returned reqs
        /\ self_candidates self' = analyze_requests reqs
        /\ replayable w start_date end_date (firstn 3 (analyze_requests reqs))
           = (sent, None)
        /\ map fst sent = firstn 3 (analyze_requests reqs)
        /\ trace' = trace ++ replay_events sent
        /\ replayed = None
        /\ exists pre r post,
             verdicts_from w (replays trace) sent = pre ++ (best, r) :: post
             /\ v_success r = true /\ n = v_data_count r /\ (0 < n)%Z
             /\ (forall cr, In cr pre -> verified_pair cr = true ->
                 (pair_count cr < n)%Z)
             /\ (forall cr, In cr post -> verified_pair cr = true ->
                 (pair_count cr <= n)%Z)
  | (LayerFailed err _, self', trace') =>
      trace' = trace
      \/ exists reqs sent,
           captured d = Returned reqs
           /\ fst (replayable w start_date end_date
                     (firstn 3 (analyze_requests reqs))) = sent
           /\ trace' = trace ++ replay_events sent
           /\ match
                snd (replayable w start_date end_date
                       (firstn 3 (analyze_requests reqs)))
              with
              | Some exc => err = ("第二层执行异常: " ++ exc)%string
              | None =>
                  forall cr, In cr (verdicts_from w (replays trace) sent) ->
                             verified_pair cr = false
              end
  end.
Proof.
  unfold _try_layer2_dom_detect.
  destruct (browser w) as [b|]; [|now left].
  destruct (page b) as [pg|]; [|now left].
  destruct (detected d) as [picker_type|]; [|now left].
  destruct (operated d); cbn [negb]; [|now left].
  destruct (captured d) as [reqs|msg]; [|now left].
  destruct (analyze_requests reqs) as [|c0 cs] eqn:Ec; [now left|].
  rewrite <- Ec. unfold layer2_loop.
  assert (H0 : best_inv2 (mkLoop2 None 0%Z VNone trace) []).
  { split; [reflexivity | intros cr []]. }
  destruct (layer2_loop_spec (firstn 3 (analyze_requests reqs)) _ _ H0)
    as (Hinv & Htrace & Hexc).
  cbn [loop2_trace app] in Hinv, Htrace.
  pose proof (replayable_prefix w start_date end_date
                (firstn 3 (analyze_requests reqs))) as [_ Hall].
  destruct (loop_until_raise _ _ _) as [st raised].
  cbn [fst snd] in Hinv, Htrace, Hexc. subst raised.
  destruct (replayable w start_date end_date (firstn 3 (analyze_requests reqs)))
    as [sent exc] eqn:Esent.
  cbn [fst snd] in *.
  destruct exc as [exc|].
  - right. exists reqs, sent. rewrite Esent. now repeat split.
  - specialize (Hall eq_refl). unfold best_inv2 in Hinv.
    destruct (best_candidate2 st) as [best|].
    + destruct Hinv as (pre & r & post & Hv & Hs & Hn & Hp & Hpre & Hpost).
      exists reqs, sent. repeat (split; [reflexivity|]).
      split; [exact Esent|]. split; [exact Hall|]. split; [exact Htrace|].
      split.
      * unfold parsed_data_of.
        assert (Hin : In best (analyze_requests reqs)).
        { apply (replayed_is_of_the_list 3). rewrite Esent. cbn [fst].
          apply (verdicts_are_of_the_list sent (replays trace) best r).
          rewrite Hv. apply in_or_app. right. now left. }
        destruct (analyzed_candidates_are_unverified reqs best Hin) as [_ ->].
        reflexivity.
      * exists pre, r, post. rewrite Hn. now repeat split.
    + destruct Hinv as [_ Hnone]. right. exists reqs, sent. rewrite Esent.
      now repeat split.
Qed.

Lemma layer3_loop_spec (top : list DateAPICandidate) :
  forall trace,
  let sent := fst (replayable w start_date end_date top) in
  match layer3_loop w start_date end_date trace top with
  | (Returned (Some (c, r)), trace') =>
      exists pre request post,
        sent = pre ++ (c, request) :: post
        /\ trace' = trace ++ replay_events (pre ++ [(c, request)])
        /\ (forall cr, In cr (verdicts_from w (replays trace) pre) ->
                       verified_pair cr = false)
        /\ r = verify_at w (replays trace + List.length pre) request
        /\ v_success r = true
  | (outcome, trace') =>
      trace' = trace ++ replay_events sent
      /\ (forall cr, In cr (verdicts_from w (replays trace) sent) ->
                     verified_pair cr = false)
      /\ match outcome with
         | Raised exc => snd (replayable w start_date end_date top) = Some exc
         | Returned _ => snd (replayable w start_date end_date top) = None
         end
  end.
Proof.
  induction top as [|c top IH]; intros trace; cbv zeta;
    cbn [layer3_loop replayable].
  - cbn [fst snd replay_events map verdicts_from]. rewrite app_nil_r.
    repeat split. intros cr [].
  - rewrite verify_candidate_cases.
    destruct (replay_request w c start_date end_date) as [request|exc].
    2:{ cbn [fst snd replay_events map verdicts_from]. rewrite app_nil_r.
        repeat split. intros cr []. }
    set (r := verify_at w (replays trace) request).
    pose proof (verified_count_pos (replays trace) request) as Hpos.
    fold r in Hpos.
    specialize (IH (trace ++ [Replayed request])). cbv zeta in IH.
    destruct (replayable w start_date end_date top) as [sent exc].
    cbn [fst snd] in *.
    destruct (v_success r && (0 <? v_data_count r)%Z) eqn:E.
    + apply andb_true_iff in E. destruct E as [Es _].
      exists [], request, sent. split; [reflexivity|]. split; [reflexivity|].
      split; [intros cr []|]. split; [|exact Es].
      cbn [List.length]. now rewrite Nat.add_0_r.
    + assert (Hfail : v_success r = false).
      { destruct (v_success r) eqn:Es; [|reflexivity].
        destruct (Hpos eq_refl) as [Hp _]. apply Z.ltb_lt in Hp.
        rewrite Hp in E. discriminate. }
      rewrite replays_snoc in IH.
      destruct (layer3_loop w start_date end_date (trace ++ [Replayed request])
                  top) as [[[[c' r']|]|exc'] trace'].
      * destruct IH as (pre & request' & post & -> & -> & Hpre & -> & Hs).
        exists ((c, request) :: pre), request', post. split; [reflexivity|].
        split; [now rewrite <- app_assoc|]. split.
        -- cbn [verdicts_from]. intros cr [<-|Hin]; [exact Hfail | now apply Hpre].
        -- split; [|exact Hs]. cbn [List.length]. f_equal. lia.
      * destruct IH as (-> & Hall & He).
        split; [cbn [replay_events map]; now rewrite <- app_assoc|].
        split; [|exact He].
        cbn [verdicts_from]. intros cr [<-|Hin]; [exact Hfail | now apply Hall].
      * destruct IH as (-> & Hall & He).
        split; [cbn [replay_events map]; now rewrite <- app_assoc|].
        split; [|exact He].
        cbn [verdicts_from]. intros cr [<-|Hin]; [exact Hfail | now apply Hall].
Qed.

(** X21. Layer 3 goes through the first three candidates of the requests
    captured after the LLM's instruction was carried out, in order, and
    returns the first one whose replay succeeds, with the item count and the
    parsed data of that replay; it sends no replay after it.  When it
    fails, either it sent no request, or every replay it sent failed: it
    then replayed all three, or stopped at the first candidate whose request
    cannot be built and reports that exception. *)
Theorem layer3_returns_the_first_success (v : VisionPage) (self : Extractor)
  (trace : list event) :
  match _try_layer3_llm_vision w v self trace start_date end_date with
  | (LayerFound best n replayed instruction, self', trace') =>
      exists reqs pre request post,
        llm_found v = true /\ executed v = true
        /\ instruction = llm_instruction v
        /\ captured_after v = Returned reqs
        /\ self_candidates self' = analyze_requests reqs
        /\ fst (replayable w start_date end_date
                  (firstn 3 (analyze_requests reqs)))
           = pre ++ (best, request) :: post
        /\ trace' = trace ++ replay_events (pre ++ [(best, request)])
        /\ (forall cr, In cr (verdicts_from w (replays trace) pre) ->
                       verified_pair cr = false)
        /\ let r := verify_at w (replays trace + List.length pre) request in
           v_success r = true /\ n = v_data_count r /\ (0 < n)%Z
           /\ replayed = v_parsed_data r
           /\ exists data, replayed = Some (VDict data)
  | (LayerFailed err _, self', trace') =>
      trace' = trace
      \/ exists reqs sent,
           captured_after v = Returned reqs
           /\ fst (replayable w start_date end_date
                     (firstn 3 (analyze_requests reqs))) = sent
           /\ trace' = trace ++ replay_events sent
           /\ (forall cr, In cr (verdicts_from w (replays trace) sent) ->
                          verified_pair cr = false)
           /\ match
                snd (replayable w start_date end_date
                       (firstn 3 (analyze_requests reqs)))
              with
              | Some exc => err = ("第三层执行异常: " ++ exc)%string
              | None =>
                  map fst sent = firstn 3 (analyze_requests reqs)
                  /\ err = "捕获的 API 验证失败"
              end
  end.
Proof.
  unfold _try_layer3_llm_vision.
  destruct (browser w) as [b|]; [|now left].
  destruct (llm w); [|now left].
  destruct (screenshot v) as [shot|msg]; [|now left].
  destruct (String.eqb (get_default shot "") ""); [now left|].
  destruct (llm_found v); cbn [negb]; [|now left].
  destruct (executed v); cbn [negb]; [|now left].
  destruct (captured_after v) as [reqs|msg]; [|now left].
  destruct (analyze_requests reqs) as [|c0 cs] eqn:Ec; [now left|].
  rewrite <- Ec.
  pose proof (layer3_loop_spec (firstn 3 (analyze_requests reqs)) trace) as H.
  cbv zeta in H.
  pose proof (replayable_prefix w start_date end_date
                (firstn 3 (analyze_requests reqs))) as [_ Hall].
  destruct (layer3_loop w start_date end_date trace
              (firstn 3 (analyze_requests reqs))) as [[[[c r]|]|exc] trace'].
  - destruct H as (pre & request & post & Htop & -> & Hpre & -> & Hs).
    exists reqs, pre, request, post. repeat (split; [reflexivity|]).
    split; [exact Htop|]. split; [reflexivity|]. split; [exact Hpre|].
    cbv zeta. destruct (verified_count_pos _ _ Hs) as [Hp (data & Hd)].
    split; [exact Hs|]. split; [reflexivity|]. split; [exact Hp|].
    split; [reflexivity|]. now exists data.
  - destruct H as (-> & Hnone & He). right. eexists reqs, _.
    repeat (split; [reflexivity|]). split; [exact Hnone|].
    rewrite He. split; [now apply Hall|reflexivity].
  - destruct H as (-> & Hnone & He). right. eexists reqs, _.
    repeat (split; [reflexivity|]). split; [exact Hnone|].
    rewrite He. reflexivity.
Qed.

End PageLayerFacts.

(** The same capture under the three policies: layer 1 and layer 2 return
    the candidate with ten items, layer 3 the first one, with five; layer 2
    hands over no data. *)
Example the_three_layers_on_two_requests :
  (let '(r, _, trace) :=
     _try_layer2_dom_detect (L := Simple.lib) two_world_with_page picked fresh []
       "2024-02-01" "2024-02-05" in
   (option_map url (l_best_candidate r), l_data_count r, l_replayed_data r,
    l_note r, List.length trace))
  = (Some "https://site/x?startDate=2024-01-01&endDate=2024-01-31", 10%Z, None,
     "laydate", 2%nat)
  /\ (let '(r, _, trace) :=
        _try_layer3_llm_vision (L := Simple.lib) two_world_with_page seen fresh
          [] "2024-02-01" "2024-02-05" in
      (option_map url (l_best_candidate r), l_data_count r, l_replayed_data r,
       List.length trace))
     = (Some "https://site/api/query?startDate=2024-01-01&endDate=2024-01-31&page=1",
        5%Z, Some (items 5), 1%nat).
Proof. vm_compute. split; reflexivity. Qed.

(** ** The chain: its result, its order, and a run without a browser *)

Section ChainResultFacts.
Context {L : PyLib}.
Variable w : World.

Lemma all_failed_result (self : Extractor) (r : DateAPIExtractionResult) :
  all_failed self = Returned r ->
  consistent_result r /\ layer r = (-1)%Z.
Proof.
  unfold all_failed, bind, str_add.
  destruct (error_of0 (_layer0_result self)); try discriminate.
  destruct (error_of (_layer1_result self)); try discriminate.
  destruct (error_of (_layer2_result self)); try discriminate.
  destruct (error_of (_layer3_result self)); try discriminate.
  intros H. injection H as <-. unfold consistent_result. cbn.
  repeat split; reflexivity.
Qed.

Lemma from_layer3_result (self : Extractor) (trace : list event)
  (r : DateAPIExtractionResult) :
  fst (fst (from_layer3 w self trace)) = Returned r ->
  consistent_result r /\ (layer r = 3 \/ layer r = -1)%Z.
Proof.
  unfold from_layer3.
  assert (Hfail : forall self', all_failed self' = Returned r ->
            consistent_result r /\ (layer r = 3 \/ layer r = -1)%Z).
  { intros self' H. destruct (all_failed_result self' r H). now split; [|right]. }
  destruct (browser w); [|cbn [fst]; apply Hfail].
  destruct (llm w); [|cbn [fst]; apply Hfail].
  destruct (run_page_layer (vision_layer w) self) as [[e note|best n rep ins] self'];
    cbn [fst]; [apply Hfail|].
  intros H. injection H as <-. unfold consistent_result. cbn.
  split; [|now left]. split; [lia|]. split; [now exists best | reflexivity].
Qed.

Lemma from_layer2_result (self : Extractor) (trace : list event)
  (r : DateAPIExtractionResult) :
  fst (fst (from_layer2 w self trace)) = Returned r ->
  consistent_result r /\ (layer r = 2 \/ layer r = 3 \/ layer r = -1)%Z.
Proof.
  unfold from_layer2.
  assert (Hnext : forall self' trace',
            fst (fst (from_layer3 w self' trace')) = Returned r ->
            consistent_result r /\ (layer r = 2 \/ layer r = 3 \/ layer r = -1)%Z).
  { intros self' trace' H.
    destruct (from_layer3_result self' trace' r H) as [Hc Hl].
    split; [exact Hc | now right]. }
  destruct (browser w); [|apply Hnext].
  destruct (run_page_layer (dom_layer w) self) as [[e note|best n rep ins] self'];
    [apply Hnext|].
  cbn [fst]. intros H. injection H as <-. unfold consistent_result. cbn.
  split; [|now left]. split; [lia|]. split; [now exists best | reflexivity].
Qed.

Lemma layer1_found_count_pos (self : Extractor) (trace : list event)
  (reqs : NetworkRequests) (start_date end_date : string) :
  match fst (fst (_try_layer1_api_direct w self trace reqs start_date end_date))
  with
  | LayerFound best n _ _ => (0 < n)%Z
  | LayerFailed _ _ => True
  end.
Proof.
  unfold _try_layer1_api_direct.
  destruct (analyze_requests reqs) as [|c0 cs]; [exact I|].
  assert (H0 : best_inv (mkLoop1 None 0%Z [] trace)).
  { unfold best_inv. cbn. split; [reflexivity|intros c []]. }
  destruct (layer1_loop_spec w start_date end_date (firstn 3 (c0 :: cs)) _ H0)
    as (Hinv & _).
  unfold layer1_loop.
  destruct (loop_until_raise _ _ _) as [st raised]. cbn [fst] in Hinv.
  destruct raised; [exact I|].
  unfold best_inv in Hinv.
  destruct (best_so_far st) as [b|]; cbn [fst]; [|exact I].
  destruct Hinv as (Hp & Hc & _). rewrite <- Hc. now apply passes_count_pos.
Qed.

Lemma from_layer1_result (self : Extractor) (trace : list event)
  (reqs : NetworkRequests) (start_date end_date : string)
  (r : DateAPIExtractionResult) :
  fst (fst (from_layer1 w self trace reqs start_date end_date)) = Returned r ->
  consistent_result r
  /\ (layer r = 1 \/ layer r = 2 \/ layer r = 3 \/ layer r = -1)%Z
  /\ (layer r = 1%Z -> (0 < data_count r)%Z).
Proof.
  unfold from_layer1.
  pose proof (layer1_found_count_pos self (trace ++ [Called 1]) reqs
                start_date end_date) as Hpos.
  destruct (_try_layer1_api_direct w self (trace ++ [Called 1]) reqs
              start_date end_date) as [[[e note|best n rep note] self'] trace'];
    cbn [fst] in *.
  - intros H. destruct (from_layer2_result _ _ r H) as [Hc Hl].
    split; [exact Hc|]. split; [now right|]. lia.
  - intros H. injection H as <-. unfold consistent_result. cbn.
    split; [|split; [now left | intros _; exact Hpos]].
    split; [lia|]. split; [now exists best | reflexivity].
Qed.

(** X22. A result the chain returns is consistent: a success names a layer
    from 0 to 3 and a best candidate and carries no error; a failure has
    the layer -1, the error of the chain, no candidate, no data and five
    recommendations.  A success of layer 0 or of layer 1 has a positive
    item count. *)
Theorem chain_result_is_consistent (self : Extractor) (reqs : NetworkRequests)
  (start_date end_date : string) (r : DateAPIExtractionResult) :
  fst (fst (extract_with_three_layers w self reqs start_date end_date))
  = Returned r ->
  consistent_result r
  /\ ((layer r = 0 \/ layer r = 1)%Z -> (0 < data_count r)%Z).
Proof.
  unfold extract_with_three_layers.
  assert (Hnext : forall self' trace',
            fst (fst (from_layer1 w self' trace' reqs start_date end_date))
            = Returned r ->
            consistent_result r
            /\ ((layer r = 0 \/ layer r = 1)%Z -> (0 < data_count r)%Z)).
  { intros self' trace' H.
    destruct (from_layer1_result _ _ _ _ _ r H) as (Hc & Hl & Hp).
    split; [exact Hc|]. intros [H0|H1]; [lia | now apply Hp]. }
  destruct (browser w) as [b|]; [|apply Hnext].
  destruct (page b) as [pg|]; [|apply Hnext].
  destruct (_try_layer0_global_var_scan b) as [e|cfg all]; [apply Hnext|].
  destruct (_build_candidate_from_global_var w cfg) as [c|]; [|apply Hnext].
  rewrite verify_candidate_cases.
  destruct (replay_request w c start_date end_date) as [request|exc];
    [|discriminate].
  unfold verify_at.
  destruct (v_success (verify_outcome _)) eqn:Es; [|apply Hnext].
  cbn [fst]. intros H. injection H as <-. unfold consistent_result. cbn.
  split.
  - split; [lia|]. split; [now exists c | reflexivity].
  - intros _. now destruct (verified_reply_is_an_object _ Es) as (d & _ & Hn).
Qed.


Lemma layers_called_app (t1 t2 : list event) :
  layers_called (t1 ++ t2) = layers_called t1 ++ layers_called t2.
Proof. unfold layers_called. apply flat_map_app. Qed.

Lemma layers_called_replays (sent : list (DateAPICandidate * HttpRequest)) :
  layers_called (replay_events sent) = [].
Proof. induction sent as [|cr sent IH]; [reflexivity | exact IH]. Qed.

Lemma from_layer3_calls (self : Extractor) (trace : list event) :
  exists d : bool,
    layers_called (snd (from_layer3 w self trace))
    = layers_called trace ++ (if d then [3%nat] else []).
Proof.
  unfold from_layer3.
  destruct (browser w); [|exists false; now rewrite app_nil_r].
  destruct (llm w); [|exists false; now rewrite app_nil_r].
  exists true.
  destruct (run_page_layer (vision_layer w) self) as [[e note|best n rep ins] self'];
    cbn [snd]; now rewrite layers_called_app.
Qed.

Lemma from_layer2_calls (self : Extractor) (trace : list event) :
  exists c d : bool,
    layers_called (snd (from_layer2 w self trace))
    = layers_called trace ++ (if c then [2%nat] else [])
      ++ (if d then [3%nat] else []).
Proof.
  unfold from_layer2.
  destruct (browser w).
  - destruct (run_page_layer (dom_layer w) self)
      as [[e note|best n rep ins] self'].
    + destruct (from_layer3_calls (set_layer 2 (LayerFailed e note) self')
                  (trace ++ [Called 2])) as (d & ->).
      exists true, d. now rewrite layers_called_app, <- app_assoc.
    + exists true, false. cbn [snd]. now rewrite layers_called_app.
  - destruct (from_layer3_calls self trace) as (d & ->). now exists false, d.
Qed.

Lemma from_layer1_calls (self : Extractor) (trace : list event)
  (reqs : NetworkRequests) (start_date end_date : string) :
  exists c d : bool,
    layers_called (snd (from_layer1 w self trace reqs start_date end_date))
    = layers_called trace ++ [1%nat] ++ (if c then [2%nat] else [])
      ++ (if d then [3%nat] else []).
Proof.
  unfold from_layer1.
  pose proof (layer1_trace w start_date end_date self (trace ++ [Called 1]) reqs)
    as Ht.
  destruct (_try_layer1_api_direct w self (trace ++ [Called 1]) reqs
              start_date end_date) as [[[e note|best n rep note] self'] trace'];
    cbn [snd] in Ht; subst trace'.
  - destruct (from_layer2_calls (set_layer 1 (LayerFailed e note) self')
                ((trace ++ [Called 1])
                 ++ replay_events
                      (fst (replayable w start_date end_date
                              (firstn 3 (analyze_requests reqs))))))
      as (c & d & ->).
    exists c, d. rewrite !layers_called_app, layers_called_replays, app_nil_r.
    now rewrite <- app_assoc.
  - exists false, false. cbn [snd].
    rewrite !layers_called_app, layers_called_replays, !app_nil_r. reflexivity.
Qed.

(** X24. The chain enters the layers in ascending order, each of them once
    at most: the layers called, read off the trace of a run, are strictly
    increasing, whatever the state of the extractor it starts from. *)
Theorem layers_are_tried_in_order (self : Extractor) (reqs : NetworkRequests)
  (start_date end_date : string) :
  StronglySorted lt
    (layers_called
       (snd (extract_with_three_layers w self reqs start_date end_date))).
Proof.
  assert (Hsorted : forall a b c d : bool,
            StronglySorted lt
              ((if a then [0%nat] else []) ++ (if b then [1%nat] else [])
               ++ (if c then [2%nat] else []) ++ (if d then [3%nat] else []))).
  { intros [] [] [] []; cbn [app];
      repeat (constructor; [|repeat (constructor; try lia)]);
      constructor. }
  unfold extract_with_three_layers.
  assert (Hskip : forall self',
            StronglySorted lt
              (layers_called
                 (snd (from_layer1 w self' [] reqs start_date end_date)))).
  { intros self'.
    destruct (from_layer1_calls self' [] reqs start_date end_date)
      as (c & d & ->). exact (Hsorted false true c d). }
  assert (Hnext : forall self',
            StronglySorted lt
              (layers_called
                 (snd (from_layer1 w self' [Called 0] reqs start_date end_date)))).
  { intros self'.
    destruct (from_layer1_calls self' [Called 0] reqs start_date end_date)
      as (c & d & ->). exact (Hsorted true true c d). }
  destruct (browser w) as [b|]; [|apply Hskip].
  destruct (page b) as [pg|]; [|apply Hskip].
  destruct (_try_layer0_global_var_scan b) as [e|cfg all]; [apply Hnext|].
  destruct (_build_candidate_from_global_var w cfg) as [c|]; [|apply Hnext].
  rewrite verify_candidate_cases.
  destruct (replay_request w c start_date end_date) as [request|exc].
  - destruct (v_success _).
    + cbn [snd]. exact (Hsorted true false false false).
    + destruct (from_layer1_calls
                  (mkSelf (self_candidates self)
                     (Some (L0Found cfg all)) (_layer1_result self)
                     (_layer2_result self) (_layer3_result self)
                     (_global_var_config self))
                  ([Called 0] ++ [Replayed request])
                  reqs start_date end_date) as (c1 & d1 & ->).
      exact (Hsorted true true c1 d1).
  - cbn [snd]. exact (Hsorted true false false false).
Qed.

(** X25. A success of layer 0 ends the chain before layer 1, after exactly
    one replay: the result names the candidate built from the configuration
    chosen by the scan, which is also recorded as [global_var_config] and
    put in front of the candidates; the replay succeeded, with a positive
    item count and an object as its data. *)
Theorem layer0_success_ends_the_chain (self : Extractor)
  (reqs : NetworkRequests) (start_date end_date : string)
  (r : DateAPIExtractionResult) :
  fst (fst (extract_with_three_layers w self reqs start_date end_date))
  = Returned r ->
  layer r = 0%Z ->
  exists b cfg all c request d,
    browser w = Some b
    /\ _try_layer0_global_var_scan b = L0Found cfg all
    /\ _build_candidate_from_global_var w cfg = Some c
    /\ best_candidate r = Some c /\ global_var_config r = Some cfg
    /\ candidates r = c :: self_candidates self
    /\ layer1_result r = None
    /\ replay_request w c start_date end_date = Returned request
    /\ snd (extract_with_three_layers w self reqs start_date end_date)
       = [Called 0; Replayed request]
    /\ http w 0 request = HttpReplied 200 (VDict d)
    /\ replayed_data r = Some (VDict d)
    /\ (0 < data_count r)%Z.
Proof.
  unfold extract_with_three_layers.
  assert (Hnext : forall self' trace',
            fst (fst (from_layer1 w self' trace' reqs start_date end_date))
            = Returned r -> layer r <> 0%Z).
  { intros self' trace' H.
    destruct (from_layer1_result _ _ _ _ _ r H) as (_ & Hl & _). lia. }
  destruct (browser w) as [b|];
    [|intros H H0; now elim (Hnext _ _ H)].
  destruct (page b) as [pg|]; [|intros H H0; now elim (Hnext _ _ H)].
  destruct (_try_layer0_global_var_scan b) as [e|cfg all] eqn:E0;
    [intros H H0; now elim (Hnext _ _ H)|].
  destruct (_build_candidate_from_global_var w cfg) as [c|] eqn:Ec;
    [|intros H H0; now elim (Hnext _ _ H)].
  rewrite verify_candidate_cases.
  destruct (replay_request w c start_date end_date) as [request|exc] eqn:Er;
    [|discriminate].
  unfold verify_at. change (replays [Called 0]) with 0%nat.
  destruct (v_success (verify_outcome (http w 0 request))) eqn:Es;
    [|intros H H0; now elim (Hnext _ _ H)].
  cbn [fst snd]. intros H _. injection H as <-.
  destruct (verified_reply_is_an_object _ Es) as (d & Hd & Hn).
  exists b, cfg, all, c, request, d.
  cbn [best_candidate global_var_config candidates
    layer1_result replayed_data data_count self_candidates].
  split; [reflexivity|]. split; [exact E0|]. split; [exact Ec|].
  repeat (split; [reflexivity|]). split; [exact Er|].
  split; [reflexivity|]. split; [exact Hd|]. split; [|exact Hn].
  rewrite Hd. cbn [verify_outcome Z.eqb Pos.eqb negb].
  rewrite Hd in Es. cbn [verify_outcome Z.eqb Pos.eqb negb] in Es.
  destruct (_validate_response (VDict d)) as [[ok n0] err].
  cbn [v_success v_parsed_data] in *. now rewrite Es.
Qed.




End ChainResultFacts.

(** ** The properties on the inputs of the examples *)

(** The candidate of the bulletin request has the shape of X3. *)
Lemma bulletin_candidate_shape :
  _analyze_single_request (L := Simple.lib) bulletin_request
  = Some bulletin_candidate
  /\ (req_url bulletin_request = Some (url bulletin_candidate)
      /\ url bulletin_candidate <> ""
      /\ date_params bulletin_candidate <> []
      /\ NoDup (dict_keys (date_params bulletin_candidate))
      /\ (forall k, In k (dict_keys (date_params bulletin_candidate)) ->
          dict_has k (params bulletin_candidate) = true)
      /\ is_verified bulletin_candidate = false
      /\ verification_result bulletin_candidate = None).
Proof.
  split; [vm_compute; reflexivity|].
  apply (analyzed_candidate_shape (L := Simple.lib) bulletin_request).
  vm_compute. reflexivity.
Defined.

(** Its parameters are scalars with ASCII names, and it passes the sanity
    check. *)
Lemma bulletin_candidate_passes :
  scalar_values (params bulletin_candidate) = true
  /\ forallb Str.is_ascii (dict_keys (params bulletin_candidate)) = true
  /\ fst (_looks_like_real_date_filter bulletin_candidate) = true.
Proof.
  split; [reflexivity|]. split; [reflexivity|].
  apply (scalar_candidates_pass_the_sanity_filter (L := Simple.lib)
           bulletin_request); vm_compute; reflexivity.
Defined.

(** An array under a name that only holds [se] is recognised, and refused
    by the sanity check. *)
Example array_under_a_loose_name_is_refused :
  option_map
    (fun c => (date_params c, _looks_like_real_date_filter c))
    (_analyze_single_request (L := Simple.lib)
       (mkRequest (Some "https://site/x?series=2024-01-01&series=2024-01-31")
          (Some "GET") None (Some "xhr") None))
  = Some ([("series", "YYYY-MM-DD")],
          (false, "缺少明确日期筛选字段名（可能是噪声参数误判）")).
Proof. vm_compute. reflexivity. Qed.

(** The confidence 1.1 of the API request of C5 is within the range. *)
Lemma bulletin_confidence_is_within_the_range :
  confidence_within (-0.2) 1.35 (with_confidence bulletin_candidate 1.1).
Proof.
  apply (analysis_confidence_range (L := Simple.lib)
           (mkNetwork [] [bulletin_request])).
  vm_compute. left. reflexivity.
Defined.

Lemma bulletin_candidate_stems_from_its_request :
  exists req c0,
    (In req (api_requests (mkNetwork [] [bulletin_request]))
     \/ (In req (all_requests (mkNetwork [] [bulletin_request]))
         /\ analysable req = true))
    /\ _analyze_single_request (L := Simple.lib) req = Some c0
    /\ with_confidence bulletin_candidate 1.1
       = with_confidence c0 (confidence (with_confidence bulletin_candidate 1.1)).
Proof.
  apply (candidates_stem_from_requests (L := Simple.lib)
           (mkNetwork [] [bulletin_request])).
  vm_compute. left. reflexivity.
Defined.

(** The page size of the announcement list is replayed as captured. *)
Lemma annlist_page_size_is_kept :
  replay_params (L := Simple.lib) annlist_candidate "2024-02-01" "2024-02-05"
  = Returned annlist_replay_params
  /\ ((forall v, dict_get "pageSize" (params annlist_candidate) = Some v ->
                 dict_get "pageSize" annlist_replay_params = Some v)
      /\ ("pageSize" <> "pageHelp.pageNo" -> "pageSize" <> "pageHelp.pageSize" ->
          dict_get "pageSize" annlist_replay_params
          = dict_get "pageSize" (params annlist_candidate))).
Proof.
  split; [reflexivity|].
  apply (replay_keeps_the_other_parameters (L := Simple.lib) annlist_candidate
           "2024-02-01" "2024-02-05").
  - reflexivity.
  - cbn. intros [H|[]]. discriminate H.
  - discriminate.
  - discriminate.
Defined.

(** Its replay asks for the first page: it has a page size, and gets the
    page number. *)
Lemma annlist_replay_has_pagination :
  replay_params (L := Simple.lib) annlist_candidate "2024-02-01" "2024-02-05"
  = Returned annlist_replay_params
  /\ (dict_has "pageHelp.pageNo" annlist_replay_params
      || dict_has "pageNo" annlist_replay_params = true
      /\ dict_has "pageHelp.pageSize" annlist_replay_params
         || dict_has "pageSize" annlist_replay_params = true).
Proof.
  split; [reflexivity|].
  apply (replay_has_pagination (L := Simple.lib) annlist_candidate
           "2024-02-01" "2024-02-05").
  reflexivity.
Defined.

(** The callback of the query of the Shanghai exchange is replayed under
    the fixed name. *)
Lemma sse_callback_is_fixed :
  replay_params (L := Simple.lib) sse_candidate "2024-02-01" "2024-02-05"
  = Returned sse_replay_params
  /\ ((dict_get "jsonCallBack" sse_replay_params = None
       \/ dict_get "jsonCallBack" sse_replay_params
          = Some (VStr "jsonCallback"))
      /\ (dict_get "callback" sse_replay_params = None
          \/ dict_get "callback" sse_replay_params = Some (VStr "jsonCallback"))
      /\ (Str.contains "sse.com.cn"
            (Str.lower (Url.netloc (@urlparse Simple.lib
                                      (url sse_candidate))))
          = true ->
          dict_has "jsonCallBack" sse_replay_params
          || dict_has "callback" sse_replay_params = true)).
Proof.
  split; [reflexivity|].
  apply (replay_callback_is_fixed (L := Simple.lib) sse_candidate
           "2024-02-01" "2024-02-05").
  reflexivity.
Defined.

(** The end date of the bulletin request is replaced by the end of the
    range. *)
Lemma bulletin_end_date_is_replayed :
  replay_params (L := Simple.lib) bulletin_candidate "2024-02-01" "2024-02-05"
  = Returned bulletin_replay_params
  /\ dict_get "endDate" bulletin_replay_params = Some (VStr "2024-02-05").
Proof.
  split; [reflexivity|].
  apply (scalar_date_parameters_take_one_date (L := Simple.lib)
           bulletin_candidate "2024-02-01" "2024-02-05" "endDate" "YYYY-MM-DD"
           (2024, 2, 5)%Z).
  - cbn. repeat constructor; cbn; intuition discriminate.
  - right. left. reflexivity.
  - reflexivity.
  - discriminate.
  - discriminate.
  - reflexivity.
  - reflexivity.
  - reflexivity.
Defined.

(** A JSONP reply around the empty object. *)
Lemma jsonp_around_the_empty_object :
  is_name "jsonpCallback12" = true
  /\ _parse_response (L := empty_object_lib) "jsonpCallback12({})" = VDict []
  /\ _parse_response (L := empty_object_lib) "jsonpCallback12({});" = VDict []
  /\ _parse_response (L := empty_object_lib) "/**/jsonpCallback12({})" = VDict [].
Proof.
  split; [reflexivity|].
  apply (jsonp_wrapper_is_removed (L := empty_object_lib) "jsonpCallback12" "{}").
  reflexivity.
Defined.

(** Of a configuration without a date parameter and one with two, layer 0
    takes the second. *)
Lemma the_ranged_configuration_is_chosen :
  _try_layer0_global_var_scan (L := Simple.lib) two_configs_browser
  = L0Found ranged_config [bare_config; ranged_config]
  /\ ((exists pg,
         page two_configs_browser = Some pg
         /\ ((exists sr, _execute_global_var_scan pg = Some sr
                         /\ found sr = true
                         /\ api_configs sr = [bare_config; ranged_config])
             \/ (scan_found (_execute_global_var_scan pg) = false
                 /\ exists records,
                      intercepted two_configs_browser = HookRecords records
                      /\ hook_configs (L := Simple.lib) records
                         = [bare_config; ranged_config])))
      /\ exists pre post,
           [bare_config; ranged_config] = pre ++ ranged_config :: post
           /\ (forall c, In c pre ->
               (date_param_rank c < date_param_rank ranged_config)%nat)
           /\ (forall c, In c post ->
               (date_param_rank c <= date_param_rank ranged_config)%nat)).
Proof.
  split; [reflexivity|].
  apply (layer0_best_config (L := Simple.lib) two_configs_browser).
  reflexivity.
Defined.

(** The configuration read off the recorded call. *)
Lemma hooked_record_gives_a_configuration :
  _analyze_intercepted_apis (L := Simple.lib) [hooked_record]
  = Some (mkScan true [hooked_config] None)
  /\ ([hooked_record] <> []
      /\ api_configs (mkScan true [hooked_config] None)
         = hook_configs (L := Simple.lib) [hooked_record]
      /\ found (mkScan true [hooked_config] None)
         = negb (match api_configs (mkScan true [hooked_config] None) with
                 | [] => true
                 | _ => false
                 end)
      /\ forall cfg, In cfg (api_configs (mkScan true [hooked_config] None)) ->
           cfg_date_params cfg <> []
           /\ Str.startswith "http" (api_url cfg) = true
           /\ Str.contains "?" (api_url cfg) = false
           /\ dict_get "source" (extra_info cfg) = Some (VStr "xhr_fetch_hook")
           /\ dict_keys (cfg_date_params cfg)
              = dict_keys (_identify_date_params (all_params cfg))).
Proof.
  split; [vm_compute; reflexivity|].
  apply (hook_configurations_have_date_parameters (L := Simple.lib)
           [hooked_record]).
  vm_compute. reflexivity.
Defined.

(** The candidate built from the configuration with two dates. *)
Lemma ranged_config_candidate :
  _build_candidate_from_global_var (L := Simple.lib) bare_world ranged_config
  = Some ranged_candidate
  /\ (api_url ranged_config <> ""
      /\ confidence ranged_candidate = 0.95%float
      /\ resource_type ranged_candidate = "global_var"
      /\ is_verified ranged_candidate = false
      /\ (method ranged_candidate = "GET" \/ method ranged_candidate = "POST")
      /\ (is_jsonp ranged_config = true -> method ranged_candidate = "GET")
      /\ (forall k, In k (dict_keys (cfg_date_params ranged_config)) ->
          In k (dict_keys (date_params ranged_candidate)))
      /\ (forall k, In k (dict_keys (date_params ranged_candidate)) ->
          dict_has k (params ranged_candidate) = true)).
Proof.
  split; [vm_compute; reflexivity|].
  apply (global_var_candidate_shape (L := Simple.lib) bare_world ranged_config).
  vm_compute. reflexivity.
Defined.

(** The run of the captured range returns a consistent result. *)
Lemma captured_range_result_is_consistent :
  fst (fst (extract_with_three_layers (L := Simple.lib) five_items_world fresh
              captured_range "2024-02-01" "2024-02-05"))
  = Returned
      (returned_result
         (extract_with_three_layers (L := Simple.lib) five_items_world fresh
            captured_range "2024-02-01" "2024-02-05"))
  /\ (consistent_result
        (returned_result
           (extract_with_three_layers (L := Simple.lib) five_items_world fresh
              captured_range "2024-02-01" "2024-02-05"))
      /\ ((layer (returned_result
                    (extract_with_three_layers (L := Simple.lib)
                       five_items_world fresh captured_range
                       "2024-02-01" "2024-02-05")) = 0
           \/ layer (returned_result
                       (extract_with_three_layers (L := Simple.lib)
                          five_items_world fresh captured_range
                          "2024-02-01" "2024-02-05")) = 1)%Z ->
          (0 < data_count
                 (returned_result
                    (extract_with_three_layers (L := Simple.lib)
                       five_items_world fresh captured_range
                       "2024-02-01" "2024-02-05")))%Z)).
Proof.
  split; [vm_compute; reflexivity|].
  apply (chain_result_is_consistent (L := Simple.lib) five_items_world fresh
           captured_range "2024-02-01" "2024-02-05").
  vm_compute. reflexivity.
Defined.


(** The run on the page that holds [bare_config] ends at layer 0. *)
Lemma bare_config_run_ends_at_layer0 :
  layer (returned_result
           (extract_with_three_layers (L := Simple.lib) bare_world fresh
              (mkNetwork [] []) "2024-02-01" "2024-02-05")) = 0%Z
  /\ exists b cfg all c request d,
       browser bare_world = Some b
       /\ _try_layer0_global_var_scan (L := Simple.lib) b = L0Found cfg all
       /\ _build_candidate_from_global_var (L := Simple.lib) bare_world cfg
          = Some c
       /\ best_candidate
            (returned_result
               (extract_with_three_layers (L := Simple.lib) bare_world fresh
                  (mkNetwork [] []) "2024-02-01" "2024-02-05")) = Some c
       /\ global_var_config
            (returned_result
               (extract_with_three_layers (L := Simple.lib) bare_world fresh
                  (mkNetwork [] []) "2024-02-01" "2024-02-05")) = Some cfg
       /\ candidates
            (returned_result
               (extract_with_three_layers (L := Simple.lib) bare_world fresh
                  (mkNetwork [] []) "2024-02-01" "2024-02-05"))
          = c :: self_candidates fresh
       /\ layer1_result
            (returned_result
               (extract_with_three_layers (L := Simple.lib) bare_world fresh
                  (mkNetwork [] []) "2024-02-01" "2024-02-05")) = None
       /\ replay_request (L := Simple.lib) bare_world c
            "2024-02-01" "2024-02-05" = Returned request
       /\ snd (extract_with_three_layers (L := Simple.lib) bare_world fresh
                 (mkNetwork [] []) "2024-02-01" "2024-02-05")
          = [Called 0; Replayed request]
       /\ http bare_world 0 request = HttpReplied 200 (VDict d)
       /\ replayed_data
            (returned_result
               (extract_with_three_layers (L := Simple.lib) bare_world fresh
                  (mkNetwork [] []) "2024-02-01" "2024-02-05"))
          = Some (VDict d)
       /\ (0 < data_count
                 (returned_result
                    (extract_with_three_layers (L := Simple.lib) bare_world
                       fresh (mkNetwork [] []) "2024-02-01" "2024-02-05")))%Z.
Proof.
  split; [vm_compute; reflexivity|].
  apply (layer0_success_ends_the_chain (L := Simple.lib) bare_world fresh
           (mkNetwork [] []) "2024-02-01" "2024-02-05");
    vm_compute; reflexivity.
Defined.



(** ** A day without epoch

    The first day of the calendar has no epoch in the small library, as
    under Python on a UTC host.  A candidate that records an epoch format
    cannot be replayed on a range that starts there. *)

(** The replay builder raises for the candidate with epochs, and builds the
    request of the candidate with days. *)
Example a_day_without_epoch_is_not_formatted :
  format_date (L := Simple.lib) "0001-01-01" "timestamp_s"
  = Raised "year 0 is out of range"
  /\ format_date (L := Simple.lib) "0001-01-02" "timestamp_s"
     = Returned "-62135510400"
  /\ format_date (L := Simple.lib) "0001-01-01" "YYYYMMDD" = Returned "00010101"
  /\ format_date (L := Simple.lib) "soon" "timestamp_s" = Returned "soon".
Proof. vm_compute. repeat split; reflexivity. Qed.

(** Layer 1 replays the candidate with days, which verifies with five
    items, and fails at the candidate with epochs: one replay is sent, the
    first candidate is left verified, and the layer fails. *)
Example a_day_without_epoch_fails_layer1 :
  (let '(r, self', trace) :=
     _try_layer1_api_direct (L := Simple.lib) five_items_world fresh []
       days_and_epochs "0001-01-01" "0001-01-05" in
   (r, map passes (self_candidates self'), List.length trace))
  = (LayerFailed "第一层执行异常: year 0 is out of range" "", [true; false],
     1%nat)
  /\ (let '(r, self', trace) :=
        _try_layer1_api_direct (L := Simple.lib) five_items_world fresh []
          days_and_epochs "2024-02-01" "2024-02-05" in
      (l_success r, map passes (self_candidates self'), List.length trace))
     = (true, [true; true], 2%nat).
Proof. vm_compute. split; reflexivity. Qed.

(** At layer 0 the same exception leaves the chain: from the configuration
    of the page, and from a configuration of the hook when the scan script
    raised. *)
Example a_day_without_epoch_leaves_the_chain :
  (let run :=
     extract_date_api_with_three_layers (L := Simple.lib) epoch_world
       (mkNetwork [] []) "0001-01-01" "0001-01-05" in
   (fst (fst run), snd run))
  = (Raised "year 0 is out of range", [Called 0])
  /\ (let run :=
        extract_date_api_with_three_layers (L := Simple.lib) hooked_epoch_world
          (mkNetwork [] []) "0001-01-01" "0001-01-05" in
      (fst (fst run), snd run))
     = (Raised "year 0 is out of range", [Called 0])
  /\ layer (returned_result
              (extract_date_api_with_three_layers (L := Simple.lib) epoch_world
                 (mkNetwork [] []) "2024-02-01" "2024-02-05")) = 0%Z.
Proof. vm_compute. repeat split; reflexivity. Qed.
